(** * Electronics demo server: ranking, category filtering, cross-sell,
      solution bundles and checkout totals

    A shallow embedding of the decision logic of
    [electronics_server_python/main.py].  Python text is modelled as
    [string] over 8-bit characters with the ASCII case mapping and the ASCII
    white-space class; log output is not modelled.  On ASCII text the case
    mappings and the character classes are Python's; a statement that
    compares texts of different letter case is made for ASCII text. *)

From Stdlib Require Import ZArith List Bool Ascii String Lia Permutation QArith.
From Stdlib Require Import Sorted DecimalString.
From Stdlib Require DecimalZ.
Import ListNotations.

Local Open Scope string_scope.
Local Open Scope Z_scope.

(** ** Python text primitives *)

Module PyStr.

Definition code (c : ascii) : nat := nat_of_ascii c.

Definition is_upper (c : ascii) : bool :=
  (Nat.leb 65 (code c) && Nat.leb (code c) 90)%bool.

Definition is_lower (c : ascii) : bool :=
  (Nat.leb 97 (code c) && Nat.leb (code c) 122)%bool.

Definition is_digit (c : ascii) : bool :=
  (Nat.leb 48 (code c) && Nat.leb (code c) 57)%bool.

(** [str.isspace] on one ASCII character: TAB, LF, VT, FF, CR, the four
    separators 0x1c-0x1f and the blank. *)
Definition is_space (c : ascii) : bool :=
  ((Nat.leb 9 (code c) && Nat.leb (code c) 13)
   || (Nat.leb 28 (code c) && Nat.leb (code c) 32))%bool.

Definition lower_char (c : ascii) : ascii :=
  if is_upper c then ascii_of_nat (code c + 32) else c.

Definition upper_char (c : ascii) : ascii :=
  if is_lower c then ascii_of_nat (code c - 32) else c.

Fixpoint smap (f : ascii -> ascii) (s : string) : string :=
  match s with
  | EmptyString => EmptyString
  | String c r => String (f c) (smap f r)
  end.

(** [s.lower()] and [s.upper()] *)
Definition lower : string -> string := smap lower_char.
Definition upper : string -> string := smap upper_char.

Fixpoint lstrip (s : string) : string :=
  match s with
  | EmptyString => EmptyString
  | String c r => if is_space c then lstrip r else s
  end.

Fixpoint rstrip (s : string) : string :=
  match s with
  | EmptyString => EmptyString
  | String c r =>
      match rstrip r with
      | EmptyString => if is_space c then EmptyString else String c EmptyString
      | r' => String c r'
      end
  end.

(** [s.strip()] *)
Definition strip (s : string) : string := rstrip (lstrip s).

(** [needle in hay] *)
Fixpoint contains (needle hay : string) : bool :=
  if String.prefix needle hay then true
  else match hay with
       | EmptyString => false
       | String _ r => contains needle r
       end.

(** [s.split(sep)] for a one-character separator *)
Fixpoint split (sep : ascii) (s : string) : list string :=
  match s with
  | EmptyString => [EmptyString]
  | String c r =>
      if Ascii.eqb c sep then EmptyString :: split sep r
      else match split sep r with
           | h :: t => String c h :: t
           | [] => [String c EmptyString]
           end
  end.

(** [sep.join(parts)] *)
Fixpoint join (sep : string) (parts : list string) : string :=
  match parts with
  | [] => EmptyString
  | [p] => p
  | p :: rest => p ++ sep ++ join sep rest
  end.

(** [x in xs] for a list of strings *)
Definition mem (x : string) (xs : list string) : bool :=
  existsb (String.eqb x) xs.

(** [any(kw in text for kw in keywords)] *)
Definition any_in (keywords : list string) (text : string) : bool :=
  existsb (fun kw => contains kw text) keywords.

Definition is_empty (s : string) : bool :=
  match s with EmptyString => true | _ => false end.

End PyStr.

Import PyStr.

(** ** Python numbers

    A Python [float] is an IEEE-754 binary64 value.  Every finite binary64
    number is an integer multiple of the smallest subnormal, [2 ^ -1074]:
    [Fin v] is the number [v * 2 ^ -1074].  An arithmetic operation computes
    the exact result and rounds it to the nearest binary64 value, ties to
    even ([round_ratio]).  The sign of zero is not kept.  Where Python
    raises [OverflowError] while converting a huge [int] to [float], [of_Z]
    yields an infinity; the callers below only convert small constants,
    except where the conversion is modelled explicitly. *)

Module PyFloat.

Inductive float : Type :=
| NaN
| Inf (neg : bool)
| Fin (v : Z).

(** the number of units of [2 ^ -1074] in one *)
Definition one : Z := 2 ^ 1074.

(** the least magnitude, in units, that is beyond the finite range *)
Definition huge : Z := 2 ^ 2098.

(** nearest integer to [n / d] for [0 <= n] and [0 < d], ties to even *)
Definition rne (n d : Z) : Z :=
  let q := n / d in
  match (2 * (n mod d) ?= d) with
  | Lt => q
  | Gt => q + 1
  | Eq => if Z.even q then q else q + 1
  end.

(** the magnitude [n / d] units rounded to 53 significant bits *)
Definition round_mag (n d : Z) : Z :=
  let e := Z.max 0 (Z.log2 (n / d) - 52) in
  rne n (d * 2 ^ e) * 2 ^ e.

(** the binary64 value nearest to [n / d] units, for [0 < d] *)
Definition round_ratio (n d : Z) : float :=
  let v := round_mag (Z.abs n) d in
  if huge <=? v then Inf (n <? 0) else Fin (Z.sgn n * v).

(** [float(z)] *)
Definition of_Z (z : Z) : float := round_ratio (z * one) 1.

(** the float that a decimal literal of value [q] denotes *)
Definition of_Q (q : Q) : float := round_ratio (Qnum q * one) (Zpos (Qden q)).

Definition neg (x : float) : float :=
  match x with
  | NaN => NaN
  | Inf s => Inf (negb s)
  | Fin v => Fin (- v)
  end.

Definition abs (x : float) : float :=
  match x with
  | NaN => NaN
  | Inf _ => Inf false
  | Fin v => Fin (Z.abs v)
  end.

Definition add (x y : float) : float :=
  match x, y with
  | NaN, _ | _, NaN => NaN
  | Inf s, Inf t => if Bool.eqb s t then Inf s else NaN
  | Inf s, Fin _ | Fin _, Inf s => Inf s
  | Fin a, Fin b => round_ratio (a + b) 1
  end.

Definition sub (x y : float) : float := add x (neg y).

Definition mul (x y : float) : float :=
  match x, y with
  | NaN, _ | _, NaN => NaN
  | Inf s, Inf t => Inf (xorb s t)
  | Inf s, Fin v | Fin v, Inf s =>
      if v =? 0 then NaN else Inf (xorb s (v <? 0))
  | Fin a, Fin b => round_ratio (a * b) one
  end.

(** [x / y]; Python raises [ZeroDivisionError] on a zero divisor, which
    every call site below excludes by a guard: the model yields [NaN]. *)
Definition div (x y : float) : float :=
  match x, y with
  | NaN, _ | _, NaN => NaN
  | Inf _, Inf _ => NaN
  | Inf s, Fin v => Inf (xorb s (v <? 0))
  | Fin _, Inf _ => Fin 0
  | Fin a, Fin b =>
      if b =? 0 then NaN else round_ratio (Z.sgn b * a * one) (Z.abs b)
  end.

(** comparison; [None] when an operand is a NaN, so that every ordering
    test on it answers [False] *)
Definition compare (x y : float) : option comparison :=
  match x, y with
  | NaN, _ | _, NaN => None
  | Inf s, Inf t =>
      Some (if Bool.eqb s t then Eq else if s then Lt else Gt)
  | Inf s, Fin _ => Some (if s then Lt else Gt)
  | Fin _, Inf s => Some (if s then Gt else Lt)
  | Fin a, Fin b => Some (a ?= b)
  end.

Definition ltb (x y : float) : bool :=
  match compare x y with Some Lt => true | _ => false end.
Definition leb (x y : float) : bool :=
  match compare x y with Some Lt | Some Eq => true | _ => false end.
Definition eqb (x y : float) : bool :=
  match compare x y with Some Eq => true | _ => false end.
Definition gtb (x y : float) : bool := ltb y x.
Definition geb (x y : float) : bool := leb y x.

(** [bool(x)]: every float but zero is true, NaN included *)
Definition truthy (x : float) : bool :=
  match x with
  | Fin v => negb (v =? 0)
  | _ => true
  end.

Definition is_nan (x : float) : bool :=
  match x with NaN => true | _ => false end.

End PyFloat.

(** A Python number is an [int] or a [float]; mixed arithmetic converts the
    [int] operand, mixed comparison is exact. *)

Module PyNum.
Import PyFloat.

Inductive num : Type :=
| NInt (z : Z)
| NFloat (f : float).

Definition to_float (n : num) : float :=
  match n with
  | NInt z => of_Z z
  | NFloat f => f
  end.

(** the operand of an exact comparison *)
Definition exact (n : num) : float :=
  match n with
  | NInt z => Fin (z * one)
  | NFloat f => f
  end.

Definition add (a b : num) : num :=
  match a, b with
  | NInt x, NInt y => NInt (x + y)
  | _, _ => NFloat (PyFloat.add (to_float a) (to_float b))
  end.

Definition sub (a b : num) : num :=
  match a, b with
  | NInt x, NInt y => NInt (x - y)
  | _, _ => NFloat (PyFloat.sub (to_float a) (to_float b))
  end.

Definition compare (a b : num) : option comparison :=
  PyFloat.compare (exact a) (exact b).

Definition ltb (a b : num) : bool :=
  match compare a b with Some Lt => true | _ => false end.
Definition leb (a b : num) : bool :=
  match compare a b with Some Lt | Some Eq => true | _ => false end.
Definition eqb (a b : num) : bool :=
  match compare a b with Some Eq => true | _ => false end.
Definition gtb (a b : num) : bool := ltb b a.
Definition geb (a b : num) : bool := leb b a.

Definition truthy (n : num) : bool :=
  match n with
  | NInt z => negb (z =? 0)
  | NFloat f => PyFloat.truthy f
  end.

(** [max(0, x)]: the first argument stays unless the second is greater *)
Definition max0 (x : num) : num :=
  if gtb x (NInt 0) then x else NInt 0.

End PyNum.

(** ** Regular expressions

    The fragment of Python's [re] that the size patterns use, with its
    backtracking semantics: alternatives are tried left to right, the
    repetitions are greedy, [search] returns the leftmost match.  Literals
    are compared case-insensitively ([re.IGNORECASE]). *)

Module Regex.

Inductive re : Type :=
| Lit (s : string)                 (* literal text *)
| Star (p : ascii -> bool)         (* [c*] for a character class *)
| Plus (p : ascii -> bool)         (* [c+] for a character class *)
| Seq (a b : re)
| Alt (a b : re)
| Opt (a : re)                     (* [(?:a)?] *)
| Group (a : re).                  (* capturing group 1 *)

Fixpoint drop (n : nat) (s : string) : string :=
  match n, s with
  | O, _ => s
  | S n', String _ r => drop n' r
  | S _, EmptyString => EmptyString
  end.

Fixpoint take (n : nat) (s : string) : string :=
  match n, s with
  | S n', String c r => String c (take n' r)
  | _, _ => EmptyString
  end.

Definition prefix_ci (l s : string) : bool :=
  String.prefix (lower l) (lower (take (String.length l) s)).

Section Matcher.
Variable R : Type.

(** continuation: the rest of the subject and the text of group 1 *)
Definition cont : Type := string -> option string -> option R.

Fixpoint star (p : ascii -> bool) (s : string) (cap : option string)
         (k : cont) : option R :=
  match s with
  | String c r =>
      if p c then
        match star p r cap k with
        | Some x => Some x
        | None => k s cap
        end
      else k s cap
  | EmptyString => k s cap
  end.

Fixpoint run (r : re) (s : string) (cap : option string) (k : cont)
  : option R :=
  match r with
  | Lit l =>
      if prefix_ci l s then k (drop (String.length l) s) cap else None
  | Star p => star p s cap k
  | Plus p =>
      match s with
      | String c t => if p c then star p t cap k else None
      | EmptyString => None
      end
  | Seq a b => run a s cap (fun s' cap' => run b s' cap' k)
  | Alt a b =>
      match run a s cap k with
      | Some x => Some x
      | None => run b s cap k
      end
  | Opt a =>
      match run a s cap k with
      | Some x => Some x
      | None => k s cap
      end
  | Group a =>
      run a s cap
          (fun s' _ =>
             k s' (Some (take (String.length s - String.length s') s)))
  end.
End Matcher.

(** [re.search(r, s)], reduced to the text of group 1 of the match *)
Fixpoint search (r : re) (s : string) : option (option string) :=
  match run (option string) r s None (fun _ cap => Some cap) with
  | Some cap => Some cap
  | None =>
      match s with
      | String _ t => search r t
      | EmptyString => None
      end
  end.

End Regex.

(** [int(text)] for a run of ASCII digits, most significant first *)
Fixpoint int_of_digits (acc : Z) (s : string) : option Z :=
  match s with
  | EmptyString => Some acc
  | String c r =>
      if is_digit c
      then int_of_digits (10 * acc + Z.of_nat (code c - 48)) r
      else None
  end.

Definition py_int_of_string (s : string) : option Z :=
  match s with
  | EmptyString => None
  | _ => int_of_digits 0 s
  end.

(** ** Data model

    A product is a row of the catalog, a mapping whose fields may be absent
    or of several types.  The record keeps, per field, the cases the code
    distinguishes; [None] stands for a key that is absent. *)

Import PyFloat PyNum.

(** the ["price"] field *)
Inductive price_value : Type :=
| PriceInt (z : Z)
| PriceFloat (f : float)
| PriceStr (parsed : option float)
    (* a text, kept by what [float(text)] makes of it; [None]: ValueError *)
| PriceRange (amountMax amountMin : option num)
    (* a structure with numeric "amountMax" and "amountMin" entries *)
| PriceOther.                         (* any other value, [None] included *)

(** the ["primaryCategories"] and ["categories"] fields *)
Inductive cats_value : Type :=
| CatsList (tags : list string)
| CatsStr (text : string)
| CatsOther.                          (* neither a list nor a text *)

(** the ["id"] field *)
Inductive id_value : Type :=
| IdStr (s : string)
| IdInt (z : Z).

(** the ["imageURLs"] field *)
Inductive images_value : Type :=
| ImagesList (urls : list string)
| ImagesStr (url : string).

Record Product : Type := mkProduct {
  p_id : option id_value;
  p_name : option string;
  p_price : option price_value;
  p_descrizione_prodotto : option string;
  p_primaryCategories : option cats_value;
  p_categories : option cats_value;
  p_imageURLs : option images_value
}.

(** ** Category resolver ([filter_products_by_category]) *)

Module Category.

Definition CATEGORY_MAPPING : list (string * list string) :=
  [ ("Video & TV",
     [ "tv"; "televisions"; "tv accessories"; "tv mounts"; "projectors";
       "video projectors"; "dvd players"; "blu-ray players"; "blu-ray";
       "video"; "home theater" ]);
    ("Informatica",
     [ "computers"; "desktop computers"; "monitors"; "tablets";
       "printers"; "scanners"; "computer accessories"; "pc components";
       "input devices"; "keyboards"; "mice"; "laptops" ]);
    ("Audio",
     [ "audio"; "speakers"; "wireless speakers"; "bluetooth speakers";
       "headphones"; "home audio"; "home theater"; "home theater systems";
       "microphones"; "amplifiers"; "stereos"; "portable audio" ]) ].

Definition is_tv_request (category_lower : string) : bool :=
  mem category_lower ["tv"; "televisions"].

Definition normalize_tags (tags : list string) : list string :=
  map (fun t => strip (lower t)) tags.

(** the tags of a main category without the ambiguous home-theater ones,
    the requested tag added when it is missing *)
Definition unambiguous_tags (category_lower : string) (tags : list string)
  : list string :=
  let search_tags :=
    normalize_tags
      (filter (fun t => negb (mem (lower t)
                                  ["home theater"; "home theater systems"]))
              tags) in
  if mem category_lower search_tags then search_tags
  else (search_tags ++ [category_lower])%list.

(** the loop over [CATEGORY_MAPPING], left at the first entry that names
    the request as main category or as one of its tags *)
Fixpoint lookup_search_tags (category_lower : string)
         (mapping : list (string * list string)) : list string :=
  match mapping with
  | [] => []
  | (main_category, tags) :: rest =>
      if String.eqb category_lower (lower main_category) then
        normalize_tags tags
      else if mem category_lower (map lower tags) then
        if is_tv_request category_lower then
          unambiguous_tags category_lower tags
        else if mem category_lower
                    ["speakers"; "wireless speakers"; "bluetooth speakers";
                     "headphones"; "audio"] then
          unambiguous_tags category_lower tags
        else normalize_tags tags
      else lookup_search_tags category_lower rest
  end.

Definition resolve_search_tags (category_lower : string) : list string :=
  match lookup_search_tags category_lower CATEGORY_MAPPING with
  | [] => [category_lower]
  | search_tags => search_tags
  end.

(** the tags read from one field: truthy and a list or a text *)
Definition raw_categories (field : option cats_value) : list string :=
  match field with
  | Some (CatsList tags) =>
      match tags with
      | [] => []
      | _ => map strip tags
      end
  | Some (CatsStr text) =>
      if is_empty text then [] else map strip (split "," text)
  | _ => []
  end.

Definition product_categories (product : Product) : list string :=
  let product_categories_raw :=
    (raw_categories (p_primaryCategories product)
     ++ raw_categories (p_categories product))%list in
  map (fun cat => strip (lower cat))
      (filter (fun cat => negb (is_empty cat)) product_categories_raw).

Definition video_tags : list string :=
  ["tv"; "televisions"; "television"; "projector"; "video"; "dvd";
   "blu-ray"; "blu ray"].

Definition audio_tags : list string :=
  ["speaker"; "headphone"; "microphone"; "amplifier"; "stereo";
   "portable audio"].

(** audio tags and no video tag at all *)
Definition audio_only (product_categories : list string) : bool :=
  let has_video_tags :=
    existsb (fun product_cat => any_in video_tags (lower product_cat))
            product_categories in
  let has_audio_only :=
    existsb (fun product_cat => any_in audio_tags (lower product_cat))
            product_categories in
  has_audio_only && negb has_video_tags.

Definition has_explicit_video_tag (product_categories : list string) : bool :=
  existsb (fun cat =>
             any_in ["tv"; "televisions"; "television"; "projector"; "video"]
                    (lower cat))
          product_categories.

(** one step of the inner loop: does [search_tag] match [product_cat]? *)
Definition tag_matches (category_lower : string)
           (product_categories : list string)
           (search_tag product_cat : string) : bool :=
  let search_tag_clean := strip (lower search_tag) in
  let product_cat_clean := strip (lower product_cat) in
  if String.eqb search_tag_clean product_cat_clean then true
  else if contains search_tag_clean product_cat_clean then
    if is_tv_request category_lower
       && contains "home theater" product_cat_clean
    then has_explicit_video_tag product_categories
    else true
  else if (3 <? Z.of_nat (String.length search_tag_clean))
          && contains product_cat_clean search_tag_clean then
    negb (is_tv_request category_lower
          && contains "home theater" search_tag_clean)
  else false.

(** the body of the loop over the products: is the product kept? *)
Definition product_matches (category_lower : string)
           (search_tags : list string) (product : Product) : bool :=
  let product_categories := product_categories product in
  match product_categories with
  | [] => false
  | _ =>
      if is_tv_request category_lower && audio_only product_categories
      then false
      else existsb
             (fun search_tag =>
                existsb (tag_matches category_lower product_categories
                                     search_tag)
                        product_categories)
             search_tags
  end.

Definition filter_products_by_category (products : list Product)
           (category : string) : list Product :=
  match products with
  | [] => products
  | _ =>
      if is_empty category then products
      else
        let category_lower := strip (lower category) in
        let search_tags := resolve_search_tags category_lower in
        filter (product_matches category_lower search_tags) products
  end.

End Category.

(** ** Keyword vocabularies and product text helpers *)

Definition CROSS_SELL_PC_KEYWORDS : list string :=
  ["pc"; "laptop"; "notebook"; "desktop"; "computer"; "ultrabook";
   "macbook"; "gaming"].
Definition CROSS_SELL_TV_KEYWORDS : list string :=
  ["tv"; "televisore"; "television"; "smart tv"; "oled"; "qled"].
Definition CROSS_SELL_AUDIO_KEYWORDS : list string :=
  ["soundbar"; "subwoofer"; "home theater"; "home-theater"; "surround";
   "dolby"; "sound system"; "speaker"].
Definition CROSS_SELL_LED_KEYWORDS : list string :=
  ["led"; "ambient"; "strip"; "lighting"; "backlight"; "back light"].
Definition CROSS_SELL_MOUNT_KEYWORDS : list string :=
  ["support"; "staffa"; "mount"; "bracket"; "stand"].
Definition SOLUTION_BUNDLE_GOAL_KEYWORDS : list string :=
  ["home theater"; "home theatre"; "home-theater"; "home-theatre";
   "home cinema"; "cinema"].
Definition SOLUTION_BUNDLE_SOUNDBAR_KEYWORDS : list string := ["soundbar"].
Definition SOLUTION_BUNDLE_SUBWOOFER_KEYWORDS : list string := ["subwoofer"].

(** The source builds this list from a set, so its order is unspecified and
    duplicates are dropped; it is only ever scanned with [any]. *)
Definition BUNDLE_ACCESSORY_EXCLUDE_KEYWORDS : list string :=
  (["accessor"; "supporto"; "staff"; "mount"; "bracket"; "stand"; "base";
    "kit"; "panno"; "microfibra"; "clean"; "pulizia"; "cavo"; "hdmi";
    "telecomand"; "remote"; "led"; "strip"; "lighting"; "backlight"; "wall"]
   ++ CROSS_SELL_MOUNT_KEYWORDS ++ CROSS_SELL_LED_KEYWORDS)%list.

Definition CROSS_SELL_CLEANING_TAG : string := "screen-cleaning".
Definition CROSS_SELL_POPULAR_TAG : string := "popular".
Definition CROSS_SELL_RECOMMENDED_TAG : string := "recommended".
Definition CROSS_SELL_SOUNDBAR_TAG : string := "soundbar".
Definition CROSS_SELL_SUBWOOFER_TAG : string := "subwoofer".
Definition CROSS_SELL_LED_TAG : string := "led".
Definition CROSS_SELL_MOUNT_TAG : string := "mount".

Definition is_alnum_lower (c : ascii) : bool := is_lower c || is_digit c.

(** [re.sub(r"[^a-z0-9]+", " ", text)]: every maximal run of other
    characters becomes one blank *)
Fixpoint collapse_runs (in_run : bool) (s : string) : string :=
  match s with
  | EmptyString => EmptyString
  | String c r =>
      if is_alnum_lower c then String c (collapse_runs false r)
      else if in_run then collapse_runs true r
           else String " " (collapse_runs true r)
  end.

Definition _normalize_text (value : string) : string :=
  strip (collapse_runs false (lower value)).

(** [product.get("name", "")] *)
Definition get_name (product : Product) : string :=
  match p_name product with
  | Some name => name
  | None => ""
  end.

Definition extract_categories_field (field : option cats_value) : list string :=
  match field with
  | Some (CatsList tags) =>
      map strip (filter (fun cat => negb (is_empty cat)) tags)
  | Some (CatsStr text) =>
      map strip
          (filter (fun cat => negb (is_empty (strip cat))) (split "," text))
  | _ => []
  end.

Definition _extract_product_categories (product : Product) : list string :=
  (extract_categories_field (p_primaryCategories product)
   ++ extract_categories_field (p_categories product))%list.

Definition _has_home_theater_intent (keywords : list string) : bool :=
  match keywords with
  | [] => false
  | _ =>
      let normalized :=
        _normalize_text
          (join " " (filter (fun kw => negb (is_empty kw)) keywords)) in
      existsb (fun goal => contains (_normalize_text goal) normalized)
              SOLUTION_BUNDLE_GOAL_KEYWORDS
  end.

Definition _is_accessory_product (product : Product)
           (accessory_keywords : list string) : bool :=
  match accessory_keywords with
  | [] => false
  | _ =>
      let normalized_name := _normalize_text (get_name product) in
      let normalized_categories :=
        _normalize_text (join " " (_extract_product_categories product)) in
      let combined := strip (normalized_name ++ " " ++ normalized_categories) in
      any_in accessory_keywords combined
  end.

(** ** Stable sorting

    [sorted(xs, key=f)] compares the keys with [<] only and keeps the input
    order of elements that compare equal.  It is specified here as the
    stable insertion sort: an element is placed before the first later
    element that is not smaller.  On keys that [<] orders as a strict weak
    order every stable sort returns this list. *)

Section Sorting.
Context {A : Type}.
Variable lt : A -> A -> bool.

Fixpoint insert (x : A) (l : list A) : list A :=
  match l with
  | [] => [x]
  | y :: r => if lt y x then y :: insert x r else x :: y :: r
  end.

Fixpoint sorted (l : list A) : list A :=
  match l with
  | [] => []
  | x :: r => insert x (sorted r)
  end.
(** [a] may stand before [b]: [b] is not smaller *)
Definition not_after (a b : A) : Prop := lt b a = false.
End Sorting.

(** ** Relevance ranker ([rank_products_by_criteria]) *)

Module Ranking.
Import Regex.

(** The criteria bag; [None] is an absent key. *)
Record Criteria : Type := mkCriteria {
  size_inches : option Z;
  target_price : option float;
  max_price : option float;
  min_price : option float;
  keywords : option (list string)
}.

(** [not criteria]: no bag at all, or a bag without any key *)
Definition criteria_is_empty (criteria : option Criteria) : bool :=
  match criteria with
  | None => true
  | Some (mkCriteria None None None None None) => true
  | Some _ => false
  end.

(** the text of one double quote character *)
Definition dquote : string := String (ascii_of_nat 34) EmptyString.

(** the alternatives inch, pollici, a double quote, in *)
Definition unit_words : re :=
  Alt (Lit "inch") (Alt (Lit "pollici") (Alt (Lit dquote) (Lit "in"))).

Definition is_space_or_dash (c : ascii) : bool :=
  is_space c || Ascii.eqb c "-".

(** the three patterns of [extract_size_from_name], in order *)
Definition size_patterns : list re :=
  [ Seq (Group (Plus is_digit))
        (Seq (Star is_space) (Seq unit_words (Opt (Lit "es"))));
    Seq (Group (Plus is_digit))
        (Seq (Star is_space_or_dash)
             unit_words);
    Seq (Group (Plus is_digit))
        (Seq (Star is_space) (Alt (Lit "inch") (Lit "pollici"))) ].

(** the loop over the patterns: the first match whose group converts *)
Fixpoint first_size (patterns : list re) (name : string) : option Z :=
  match patterns with
  | [] => None
  | pattern :: rest =>
      match search pattern name with
      | Some (Some digits) =>
          match py_int_of_string digits with
          | Some n => Some n
          | None => first_size rest name
          end
      | Some None => first_size rest name
      | None => first_size rest name
      end
  end.

Definition extract_size_from_name (name : string) : option Z :=
  if is_empty name then None else first_size size_patterns name.

Definition get_or_zero (amount : option num) : num :=
  match amount with
  | Some n => n
  | None => NInt 0
  end.

Definition get_price (product : Product) : float :=
  let price_num :=
    match p_price product with
    | Some (PriceInt z) => NInt z
    | Some (PriceFloat f) => NFloat f
    | Some (PriceStr (Some f)) => NFloat f
    | Some (PriceStr None) => NInt 0
    | Some (PriceRange amountMax amountMin) =>
        if PyNum.truthy (get_or_zero amountMax) then get_or_zero amountMax
        else get_or_zero amountMin
    | Some PriceOther => NInt 0
    | None => NInt 0
    end in
  if PyNum.truthy price_num then to_float price_num else Fin 0.

(** step 1: the size match *)
Definition size_step (criteria : Criteria) (product : Product) (score : num)
  : num :=
  match size_inches criteria with
  | Some target_size =>
      if target_size =? 0 then score
      else
        match extract_size_from_name (get_name product) with
        | Some product_size =>
            if product_size =? 0 then score
            else
              let size_diff := Z.abs (product_size - target_size) in
              if size_diff =? 0 then NInt 0
              else if size_diff <=? 5 then NInt (10 + size_diff)
              else NInt (50 + size_diff)
        | None => score
        end
  | None => score
  end.

(** step 2: the price target *)
Definition price_step (criteria : Criteria) (product : Product) (score : num)
  : num :=
  match target_price criteria with
  | Some target_price =>
      if PyFloat.truthy target_price then
        let product_price := get_price product in
        if PyFloat.gtb product_price (Fin 0) then
          let price_diff := PyFloat.abs (PyFloat.sub product_price target_price) in
          let price_diff_percent :=
            if PyFloat.gtb target_price (Fin 0)
            then NFloat (PyFloat.mul (PyFloat.div price_diff target_price)
                                     (of_Z 100))
            else NInt 100 in
          if PyNum.geb score (NInt 1000) then
            if PyNum.leb price_diff_percent (NInt 10) then NInt 20
            else if PyNum.leb price_diff_percent (NInt 25) then NInt 30
            else PyNum.add (NInt 40) price_diff_percent
          else
            if PyNum.leb price_diff_percent (NInt 25)
            then PyNum.add score (NInt 1)
            else score
        else score
      else score
  | None => score
  end.

Definition float_truthy_opt (x : option float) : bool :=
  match x with
  | Some f => PyFloat.truthy f
  | None => false
  end.

(** step 3: the price range penalties *)
Definition range_step (criteria : Criteria) (product : Product) (score : num)
  : num :=
  let product_price := get_price product in
  let score :=
    match max_price criteria with
    | Some max_price =>
        if PyFloat.truthy max_price && PyFloat.gtb product_price max_price
        then PyNum.add score (NInt 100) else score
    | None => score
    end in
  match min_price criteria with
  | Some min_price =>
      if PyFloat.truthy min_price && PyFloat.ltb product_price min_price
      then PyNum.add score (NInt 50) else score
  | None => score
  end.

(** [criteria.get("keywords", [])] *)
Definition get_keywords (criteria : Criteria) : list string :=
  match keywords criteria with
  | Some kws => kws
  | None => []
  end.

Definition opt_text (field : option string) : string :=
  match field with
  | Some s => s
  | None => ""
  end.

(** step 4: the keyword bonus *)
Definition keyword_step (criteria : Criteria) (product : Product)
           (score : num) : num :=
  match get_keywords criteria with
  | [] => score
  | keywords =>
      let name_lower := lower (get_name product) in
      let desc_lower := lower (opt_text (p_descrizione_prodotto product)) in
      let text := name_lower ++ " " ++ desc_lower in
      let matched_keywords :=
        Z.of_nat (List.length
                    (filter (fun kw => contains (lower kw) text) keywords)) in
      if 0 <? matched_keywords
      then max0 (PyNum.sub score (NInt (matched_keywords * 5)))
      else score
  end.

(** step 5: the home-theater priorities *)
Definition home_theater_step (criteria : Criteria) (product : Product)
           (score : num) : num :=
  if _has_home_theater_intent (get_keywords criteria) then
    let combined_text :=
      _normalize_text
        (get_name product ++ " "
         ++ join " " (_extract_product_categories product)) in
    let score :=
      if _is_accessory_product product BUNDLE_ACCESSORY_EXCLUDE_KEYWORDS
      then PyNum.add score (NInt 120) else score in
    let score :=
      if any_in CROSS_SELL_TV_KEYWORDS combined_text
      then max0 (PyNum.sub score (NInt 40)) else score in
    let score :=
      if any_in SOLUTION_BUNDLE_SUBWOOFER_KEYWORDS combined_text
      then max0 (PyNum.sub score (NInt 25)) else score in
    let score :=
      if any_in SOLUTION_BUNDLE_SOUNDBAR_KEYWORDS combined_text
      then max0 (PyNum.sub score (NInt 20)) else score in
    if any_in CROSS_SELL_AUDIO_KEYWORDS combined_text
    then max0 (PyNum.sub score (NInt 10)) else score
  else score.

(** the sort key: (score, -price, name) *)
Definition key : Type := num * float * string.

Definition relevance_score (criteria : Criteria) (product : Product) : num :=
  home_theater_step criteria product
    (keyword_step criteria product
       (range_step criteria product
          (price_step criteria product
             (size_step criteria product (NInt 1000))))).

Definition calculate_relevance_score (criteria : Criteria)
           (product : Product) : key :=
  (relevance_score criteria product,
   PyFloat.neg (get_price product),
   get_name product).

(** [k1 < k2] on key tuples: the first components that are not [==]
    decide *)
Definition key_lt (k1 k2 : key) : bool :=
  let '(s1, p1, n1) := k1 in
  let '(s2, p2, n2) := k2 in
  if negb (PyNum.eqb s1 s2) then PyNum.ltb s1 s2
  else if negb (PyFloat.eqb p1 p2) then PyFloat.ltb p1 p2
  else String.ltb n1 n2.

Definition rank_products_by_criteria (products : list Product)
           (criteria : option Criteria) : list Product :=
  match products, criteria with
  | [], _ => products
  | _, None => products
  | _, Some c =>
      if criteria_is_empty criteria then products
      else sorted (fun a b => key_lt (calculate_relevance_score c a)
                                      (calculate_relevance_score c b))
                  products
  end.

End Ranking.

(** ** Python list helpers *)

(** [xs[:n]]: a negative bound counts from the end *)
Definition slice_to {A : Type} (n : Z) (xs : list A) : list A :=
  if 0 <=? n then firstn (Z.to_nat n) xs
  else firstn (Z.to_nat (Z.of_nat (List.length xs) + n)) xs.

(** [text.split()]: the maximal runs of characters that are not white
    space *)
Fixpoint split_ws_aux (cur : string) (s : string) : list string :=
  match s with
  | EmptyString => if is_empty cur then [] else [cur]
  | String c r =>
      if is_space c
      then (if is_empty cur then split_ws_aux "" r
            else cur :: split_ws_aux "" r)
      else split_ws_aux (cur ++ String c "") r
  end.

Definition split_ws (s : string) : list string := split_ws_aux "" s.

(** [str(z)] for an [int] *)
Definition str_of_Z (z : Z) : string :=
  DecimalString.NilZero.string_of_int (Z.to_int z).

(** ** Accessory / cross-sell recommender *)

Module CrossSell.

(** [CrossSellCartItemInput]; [id] and [name] are validated to be
    non-empty texts *)
Record CartItem : Type := mkCartItem {
  id : string;
  name : string;
  description : option string;
  short_description : option string;
  detail_summary : option string;
  tags : option (list string);
  category : option string
}.

(** a catalog item of the recommender *)
Record Item : Type := mkItem {
  i_id : string;
  i_sku : string;
  i_name : string;
  i_price : float;
  i_imageUrl : string;
  i_tags : list string;
  i_compatibleWith : list string;
  i_priority : Z;
  i_primaryCategories : list string
}.

Definition price (n d : Z) : float := PyFloat.of_Q (Qmake n (Z.to_pos d)).

Definition CROSS_SELL_FALLBACK_CATALOG : list Item :=
  [ mkItem "cs-clean-cloth-01" "CS-CLEAN-CLOTH-01"
           "Panno in microfibra per schermi" (price 99 10) ""
           [CROSS_SELL_CLEANING_TAG; CROSS_SELL_POPULAR_TAG]
           ["pc"; "tv"] 95 [];
    mkItem "cs-clean-spray-01" "CS-CLEAN-SPRAY-01"
           "Spray delicato per pulizia display" (price 129 10) ""
           [CROSS_SELL_CLEANING_TAG; CROSS_SELL_RECOMMENDED_TAG]
           ["pc"; "tv"] 90 [];
    mkItem "cs-usb-c-01" "CS-USB-C-01"
           "Cavo USB-C 100W intrecciato" (price 199 10) ""
           ["usb-c"; CROSS_SELL_RECOMMENDED_TAG] ["pc"] 80 [];
    mkItem "cs-charger-01" "CS-CHARGER-01"
           "Caricatore USB-C 65W" (price 349 10) ""
           ["charger"; CROSS_SELL_POPULAR_TAG] ["pc"] 78 [];
    mkItem "cs-hdmi-01" "CS-HDMI-01"
           "Cavo HDMI 2.1 ad alta velocita" (price 249 10) ""
           ["hdmi"; CROSS_SELL_POPULAR_TAG] ["tv"] 82 [];
    mkItem "cs-remote-01" "CS-REMOTE-01"
           "Telecomando universale smart" (price 299 10) ""
           ["remote"; CROSS_SELL_RECOMMENDED_TAG] ["tv"] 75 [];
    mkItem "cs-mount-01" "CS-MOUNT-01"
           "Staffa TV slim orientabile" (price 499 10) ""
           ["tv-mount"; CROSS_SELL_RECOMMENDED_TAG] ["tv"] 72 [];
    mkItem "cs-ups-01" "CS-UPS-01"
           "Ciabatta con protezione UPS" (price 399 10) ""
           ["power"; CROSS_SELL_POPULAR_TAG] ["pc"; "tv"] 70 [];
    mkItem "cs-stand-01" "CS-STAND-01"
           "Supporto da scrivania regolabile" (price 449 10) ""
           ["stand"; CROSS_SELL_RECOMMENDED_TAG] ["pc"] 68 [] ].

Definition truthy_text (chunk : option string) : list string :=
  match chunk with
  | Some s => if is_empty s then [] else [s]
  | None => []
  end.

Definition tags_or_empty (item : CartItem) : list string :=
  match tags item with
  | Some ts => ts
  | None => []
  end.

Definition _collect_cart_text (cart_items : list CartItem) : string :=
  join " "
       (flat_map
          (fun item =>
             truthy_text (Some (name item))
             ++ truthy_text (description item)
             ++ truthy_text (short_description item)
             ++ truthy_text (detail_summary item)
             ++ truthy_text (Some (join " " (tags_or_empty item))))%list
          cart_items).

(** [keyword in tokens or keyword in normalized_text] over a vocabulary *)
Definition any_keyword (tokens : list string) (normalized_text : string)
           (vocabulary : list string) : bool :=
  existsb (fun keyword =>
             mem keyword tokens || contains keyword normalized_text)
          vocabulary.

Definition explicit_categories_of (item : CartItem) : list string :=
  match category item with
  | None => []
  | Some c =>
      if is_empty c then []
      else
        let normalized_category := _normalize_text c in
        ((if any_in ["pc"; "laptop"; "desktop"] normalized_category
          then ["pc"] else [])
         ++ (if contains "tv" normalized_category
                || contains "televis" normalized_category
             then ["tv"] else []))%list
  end.

Definition intent_list (has_pc has_tv has_audio has_led : bool)
  : list string :=
  ((if has_pc then ["pc"] else [])
   ++ (if has_tv then ["tv"] else [])
   ++ (if has_audio then ["audio"] else [])
   ++ (if has_led then ["led"] else []))%list.

Definition _get_cart_category_intent (cart_items : list CartItem)
  : list string * bool :=
  match cart_items with
  | [] => ([], false)
  | _ =>
      let normalized_text := _normalize_text (_collect_cart_text cart_items) in
      let tokens := split_ws normalized_text in
      let explicit_categories := flat_map explicit_categories_of cart_items in
      let has_pc :=
        mem "pc" explicit_categories
        || any_keyword tokens normalized_text CROSS_SELL_PC_KEYWORDS in
      let has_tv :=
        mem "tv" explicit_categories
        || any_keyword tokens normalized_text CROSS_SELL_TV_KEYWORDS in
      let has_audio :=
        any_keyword tokens normalized_text CROSS_SELL_AUDIO_KEYWORDS in
      let has_led :=
        any_keyword tokens normalized_text CROSS_SELL_LED_KEYWORDS in
      (intent_list has_pc has_tv has_audio has_led,
       has_pc || has_tv || has_audio || has_led)
  end.

(** the two sets of normalized cart identifiers and cart names *)
Definition _get_cart_identifiers (cart_items : list CartItem)
  : list string * list string :=
  (map (fun item => _normalize_text (id item))
       (filter (fun item => negb (is_empty (id item))) cart_items),
   map (fun item => _normalize_text (name item))
       (filter (fun item => negb (is_empty (name item))) cart_items)).

Definition _has_accessory_keyword (cart_items : list CartItem)
           (keywords : list string) : bool :=
  any_in keywords (_normalize_text (_collect_cart_text cart_items)).

(** [sorted(items, key=priority, reverse=True)]: descending and stable *)
Definition _sort_by_priority (items : list Item) : list Item :=
  sorted (fun a b => i_priority b <? i_priority a) items.

Fixpoint dedupe_from (seen : list string) (items : list Item) : list Item :=
  match items with
  | [] => []
  | item :: rest =>
      let sku := i_sku item in
      if is_empty sku || mem sku seen then dedupe_from seen rest
      else item :: dedupe_from (sku :: seen) rest
  end.

Definition _dedupe_by_sku (items : list Item) : list Item :=
  dedupe_from [] items.

(** the state of the suggestion passes: the output list and the SKUs
    already in it *)
Definition state : Type := list Item * list string.

Definition push_suggestion (st : state) (item : Item) : state :=
  let '(suggestions, seen_skus) := st in
  let sku := i_sku item in
  if is_empty sku || mem sku seen_skus then st
  else ((suggestions ++ [item])%list, sku :: seen_skus).

Definition push_all (st : state) (items : list Item) : state :=
  fold_left push_suggestion items st.

Definition has_tag (tag : string) (item : Item) : bool :=
  mem tag (i_tags item).

(** push the top-priority candidate carrying a tag *)
Definition push_top (candidates : list Item) (keep : Item -> bool)
           (st : state) : state :=
  push_all st (firstn 1 (_sort_by_priority (filter keep candidates))).

Definition cleaning_pass (categories : list string) (has_screen_device : bool)
           (eligible : list Item) (st : state) : state :=
  match categories with
  | [] => st
  | _ =>
      if has_screen_device then
        let cleaning_candidates :=
          _sort_by_priority
            (filter (fun item =>
                       has_tag CROSS_SELL_CLEANING_TAG item
                       && existsb (fun c => mem c categories)
                                  (i_compatibleWith item))
                    eligible) in
        push_all st (firstn 2 cleaning_candidates)
      else st
  end.

Definition pc_pass (cart_items : list CartItem) (categories : list string)
           (eligible : list Item) (st : state) : state :=
  if mem "pc" categories then
    let needs_usb_c :=
      negb (_has_accessory_keyword cart_items ["usb-c"; "usb c"]) in
    let needs_charger :=
      negb (_has_accessory_keyword cart_items ["charger"; "caricatore"]) in
    let pc_candidates :=
      filter (fun item => mem "pc" (i_compatibleWith item)) eligible in
    let st :=
      if needs_usb_c then push_top pc_candidates (has_tag "usb-c") st
      else st in
    if needs_charger then push_top pc_candidates (has_tag "charger") st
    else st
  else st.

Definition tv_pass (cart_items : list CartItem) (categories : list string)
           (normalized_cart_text : string)
           (eligible : list Item) (st : state) : state :=
  if mem "tv" categories then
    let needs_hdmi := negb (contains "hdmi" normalized_cart_text) in
    let needs_soundbar :=
      negb (_has_accessory_keyword cart_items ["soundbar"]) in
    let needs_subwoofer :=
      negb (_has_accessory_keyword cart_items ["subwoofer"]) in
    let needs_led :=
      negb (_has_accessory_keyword
              cart_items
              ["led"; "lighting"; "ambient"; "backlight"; "back light"]) in
    let needs_mount :=
      negb (_has_accessory_keyword
              cart_items
              ["support"; "staffa"; "mount"; "bracket"; "stand"]) in
    let tv_candidates :=
      filter (fun item => mem "tv" (i_compatibleWith item)) eligible in
    let st :=
      if needs_soundbar
      then push_top tv_candidates (has_tag CROSS_SELL_SOUNDBAR_TAG) st
      else st in
    let st :=
      if needs_subwoofer
      then push_top tv_candidates (has_tag CROSS_SELL_SUBWOOFER_TAG) st
      else st in
    let st :=
      if needs_hdmi then push_top tv_candidates (has_tag "hdmi") st
      else st in
    let st := push_top tv_candidates (has_tag "remote") st in
    let st :=
      if needs_mount
      then push_top tv_candidates
                    (fun item =>
                       existsb (fun tag =>
                                  mem tag ["tv-mount"; "stand";
                                           CROSS_SELL_MOUNT_TAG])
                               (i_tags item))
                    st
      else st in
    if needs_led
    then push_top tv_candidates (has_tag CROSS_SELL_LED_TAG) st
    else st
  else st.

Definition bonus (cond : bool) (points : Z) : Z :=
  if cond then points else 0.

Definition fallback_score (categories : list string)
           (has_screen_device : bool) (item : Item) : Z :=
  i_priority item
  + bonus (has_screen_device && has_tag CROSS_SELL_CLEANING_TAG item) 15
  + bonus (has_tag CROSS_SELL_SOUNDBAR_TAG item) 20
  + bonus (has_tag CROSS_SELL_SUBWOOFER_TAG item) 18
  + bonus (has_tag CROSS_SELL_LED_TAG item) 6
  + bonus (mem "pc" categories && mem "pc" (i_compatibleWith item)) 10
  + bonus (mem "tv" categories && mem "tv" (i_compatibleWith item)) 10
  + bonus (has_tag CROSS_SELL_POPULAR_TAG item) 4.

Definition is_nil {A : Type} (l : list A) : bool :=
  match l with [] => true | _ => false end.

Definition scored_pass (categories : list string) (has_screen_device : bool)
           (eligible : list Item) (st : state) : state :=
  let seen_skus := snd st in
  let scored :=
    map (fun item => (item, fallback_score categories has_screen_device item))
        (filter
           (fun item =>
              negb (is_empty (i_sku item) || mem (i_sku item) seen_skus)
              && negb (negb (is_nil categories)
                       && negb (existsb (fun cat => mem cat categories)
                                        (i_compatibleWith item))))
           eligible) in
  let scored := sorted (fun a b => snd b <? snd a) scored in
  push_all st (map fst scored).

Definition eligible_items (cart_items : list CartItem) (catalog : list Item)
  : list Item :=
  let '(cart_ids, cart_names) := _get_cart_identifiers cart_items in
  _dedupe_by_sku
    (filter (fun item =>
               negb (mem (_normalize_text (i_sku item)) cart_ids)
               && negb (mem (_normalize_text (i_id item)) cart_ids)
               && negb (mem (_normalize_text (i_name item)) cart_names))
            catalog).

Definition _get_cross_sell_suggestions (cart_items : list CartItem)
           (catalog : list Item) (max_results : Z) : list Item :=
  match cart_items, catalog with
  | [], _ | _, [] => []
  | _, _ =>
      let '(categories, has_screen_device) :=
        _get_cart_category_intent cart_items in
      let normalized_cart_text :=
        _normalize_text (_collect_cart_text cart_items) in
      let eligible := eligible_items cart_items catalog in
      let st : state := ([], []) in
      let st := cleaning_pass categories has_screen_device eligible st in
      let st := pc_pass cart_items categories eligible st in
      let st := tv_pass cart_items categories normalized_cart_text eligible st in
      let st := scored_pass categories has_screen_device eligible st in
      slice_to max_results (fst st)
  end.

End CrossSell.

(** ** Catalog rows as cross-sell candidates *)

Definition _extract_price_from_product (product : Product) : float :=
  match p_price product with
  | Some (PriceInt z) => of_Z z
  | Some (PriceFloat f) => f
  | Some (PriceStr (Some f)) => f
  | Some (PriceStr None) => Fin 0
  | Some (PriceRange amountMax amountMin) =>
      let candidate :=
        if PyNum.truthy (Ranking.get_or_zero amountMax)
        then Ranking.get_or_zero amountMax
        else Ranking.get_or_zero amountMin in
      to_float candidate
  | Some PriceOther => Fin 0
  | None => Fin 0
  end.

Definition _extract_image_url (product : Product) : string :=
  match p_imageURLs product with
  | Some (ImagesList (first :: _)) => first
  | Some (ImagesStr url) => url
  | _ => ""
  end.

(** [str(product.get("id", ""))] *)
Definition id_text (product : Product) : string :=
  match p_id product with
  | Some (IdStr s) => s
  | Some (IdInt z) => str_of_Z z
  | None => ""
  end.

Module CrossSellDb.
Import CrossSell.

(** the lookup table of [_resolve_cart_products]; a later row replaces an
    earlier one under the same key, so the newest binding comes first *)
Definition add_lookup (lookup : list (string * Product)) (product : Product)
  : list (string * Product) :=
  let lookup :=
    match p_id product with
    | Some (IdStr product_id) =>
        if is_empty product_id then lookup
        else (_normalize_text product_id, product) :: lookup
    | _ => lookup
    end in
  match p_name product with
  | Some product_name =>
      if is_empty product_name then lookup
      else (_normalize_text product_name, product) :: lookup
  | None => lookup
  end.

Fixpoint lookup_get (key : string) (lookup : list (string * Product))
  : option Product :=
  match lookup with
  | [] => None
  | (k, product) :: rest =>
      if String.eqb key k then Some product else lookup_get key rest
  end.

Definition _resolve_cart_products (cart_items : list CartItem)
           (products : list Product) : list Product :=
  match cart_items, products with
  | [], _ | _, [] => []
  | _, _ =>
      let lookup := fold_left add_lookup products [] in
      flat_map
        (fun item =>
           match lookup_get (_normalize_text (id item)) lookup with
           | Some product => [product]
           | None =>
               match lookup_get (_normalize_text (name item)) lookup with
               | Some product => [product]
               | None => []
               end
           end)
        cart_items
  end.

Definition _detect_cart_intent_from_products (cart_products : list Product)
  : list string * bool :=
  match cart_products with
  | [] => ([], false)
  | _ =>
      let normalized_categories :=
        _normalize_text
          (join " "
                (map (fun product =>
                        join " " (_extract_product_categories product))
                     cart_products)) in
      let normalized_names :=
        _normalize_text (join " " (map get_name cart_products)) in
      let has_tv := any_in ["tv"; "televis"] normalized_categories in
      let has_pc :=
        any_in ["laptop"; "computer"; "desktop"; "notebook"; "pc"]
               normalized_categories in
      let has_audio := any_in CROSS_SELL_AUDIO_KEYWORDS normalized_names in
      let has_led := any_in CROSS_SELL_LED_KEYWORDS normalized_names in
      (intent_list has_pc has_tv has_audio has_led,
       has_pc || has_tv || has_audio || has_led)
  end.

Definition add_tag (cond : bool) (tag : string) : list string :=
  if cond then [tag] else [].

Definition _map_product_to_cross_sell_item (product : Product) : Item :=
  let sku :=
    match p_id product with
    | Some (IdStr s) => s
    | Some (IdInt z) => str_of_Z z
    | None => ""
    end in
  let name := get_name product in
  let price := _extract_price_from_product product in
  let primary_categories := _extract_product_categories product in
  let normalized_categories := _normalize_text (join " " primary_categories) in
  let normalized_name := _normalize_text name in
  let normalized_text :=
    _normalize_text (normalized_name ++ " " ++ normalized_categories) in
  let tags :=
    (add_tag (contains "panno" normalized_categories
              || contains "clean" normalized_categories)
             CROSS_SELL_CLEANING_TAG
     ++ add_tag (contains "cavi" normalized_categories
                 || contains "hdmi" normalized_categories)
                CROSS_SELL_POPULAR_TAG
     ++ add_tag (contains "telecomand" normalized_categories
                 || contains "caric" normalized_categories)
                CROSS_SELL_RECOMMENDED_TAG
     ++ add_tag (contains "soundbar" normalized_text) CROSS_SELL_SOUNDBAR_TAG
     ++ add_tag (contains "subwoofer" normalized_text) CROSS_SELL_SUBWOOFER_TAG
     ++ add_tag (any_in CROSS_SELL_LED_KEYWORDS normalized_text)
                CROSS_SELL_LED_TAG
     ++ add_tag (any_in CROSS_SELL_MOUNT_KEYWORDS normalized_text)
                CROSS_SELL_MOUNT_TAG)%list in
  let compatible_with :=
    (add_tag (contains "tv" normalized_categories
              || contains "televis" normalized_categories) "tv"
     ++ add_tag (any_in ["computer"; "laptop"; "desktop"; "pc"]
                        normalized_categories) "pc")%list in
  let compatible_with :=
    if existsb (fun tag => mem tag tags)
               [CROSS_SELL_SOUNDBAR_TAG; CROSS_SELL_SUBWOOFER_TAG;
                CROSS_SELL_LED_TAG; CROSS_SELL_MOUNT_TAG]
       && negb (mem "tv" compatible_with)
    then (compatible_with ++ ["tv"])%list
    else compatible_with in
  let priority :=
    if mem CROSS_SELL_CLEANING_TAG tags then 90
    else if mem CROSS_SELL_SOUNDBAR_TAG tags then 88
    else if mem CROSS_SELL_SUBWOOFER_TAG tags then 86
    else if mem CROSS_SELL_MOUNT_TAG tags then 82
    else if mem CROSS_SELL_LED_TAG tags then 80
    else if contains "cavi" normalized_categories then 82
    else if contains "telecomand" normalized_categories then 78
    else if contains "caric" normalized_categories then 76
    else 60 in
  mkItem sku sku name price (_extract_image_url product) tags
         compatible_with priority primary_categories.

Definition tv_keywords : list string :=
  ["cavi per tv"; "telecomandi per tv"; "panno per tv"; "staff"; "support"].
Definition pc_keywords : list string :=
  ["cavi per computer"; "panno per computer"; "caric"; "alimentatore";
   "adattatore"; "hub"; "accessori"].

Definition is_accessory_for (categories : list string) (product : Product)
  : bool :=
  let normalized_categories :=
    _normalize_text (join " " (_extract_product_categories product)) in
  let normalized_name := _normalize_text (get_name product) in
  let normalized_text :=
    _normalize_text (normalized_name ++ " " ++ normalized_categories) in
  if mem "tv" categories && any_in tv_keywords normalized_text then true
  else if mem "pc" categories && any_in pc_keywords normalized_text then true
  else if mem "tv" categories
          && any_in (CROSS_SELL_AUDIO_KEYWORDS ++ CROSS_SELL_LED_KEYWORDS
                     ++ CROSS_SELL_MOUNT_KEYWORDS)%list normalized_text
  then true
  else mem "audio" categories
       && any_in (CROSS_SELL_AUDIO_KEYWORDS ++ CROSS_SELL_MOUNT_KEYWORDS)%list
                 normalized_text.

Definition _get_cross_sell_suggestions_from_db (cart_items : list CartItem)
           (products : list Product) (max_results : Z) : list Item :=
  match cart_items, products with
  | [], _ | _, [] => []
  | _, _ =>
      let cart_products := _resolve_cart_products cart_items products in
      let '(categories, has_screen_device) :=
        _detect_cart_intent_from_products cart_products in
      let accessory_products :=
        filter (is_accessory_for categories) products in
      let catalog := map _map_product_to_cross_sell_item accessory_products in
      let catalog :=
        filter (fun item =>
                  PyFloat.gtb (i_price item) (Fin 0)
                  && negb (is_empty (i_name item)))
               catalog in
      let suggestions :=
        _get_cross_sell_suggestions cart_items catalog max_results in
      let suggestions :=
        if has_screen_device
        then filter (fun item => negb (is_empty (i_sku item))) suggestions
        else suggestions in
      slice_to max_results suggestions
  end.

(** the [cross_sell_recommendations] tool once its input is validated:
    the live catalog first, the fixed catalog when that gives nothing *)
Definition cross_sell_recommendations (cart_items : list CartItem)
           (products : list Product) (max_results : Z) : list Item :=
  match products with
  | [] =>
      _get_cross_sell_suggestions cart_items CROSS_SELL_FALLBACK_CATALOG
                                  max_results
  | _ =>
      match _get_cross_sell_suggestions_from_db cart_items products
                                                max_results with
      | [] =>
          _get_cross_sell_suggestions cart_items CROSS_SELL_FALLBACK_CATALOG
                                      max_results
      | suggestions => suggestions
      end
  end.

End CrossSellDb.

(** ** Solution bundle builder *)

Module Bundle.

Definition clean_keywords (keywords : list string) : list string :=
  map (fun kw => strip (lower kw))
      (filter (fun kw => negb (is_empty kw)) keywords).

Definition _filter_products_by_name_keywords (products : list Product)
           (keywords : list string) : list Product :=
  match products, keywords with
  | [], _ | _, [] => []
  | _, _ =>
      let normalized_keywords := clean_keywords keywords in
      filter (fun product =>
                let name := _normalize_text (get_name product) in
                negb (is_empty name) && any_in normalized_keywords name)
             products
  end.

Definition _filter_products_for_bundle (products : list Product)
           (include_keywords : list string)
           (accessory_exclusions : option (list string)) : list Product :=
  let candidates := _filter_products_by_name_keywords products include_keywords in
  match candidates, accessory_exclusions with
  | [], _ | _, None | _, Some [] => candidates
  | _, Some accessory_exclusions =>
      let exclusions := clean_keywords accessory_exclusions in
      match filter (fun product => negb (_is_accessory_product product exclusions))
                   candidates with
      | [] => candidates
      | filtered => filtered
      end
  end.

(** the sort key of [_sort_products_by_price]: the price when it is
    positive, infinity otherwise *)
Definition price_key (product : Product) : float :=
  let price := _extract_price_from_product product in
  if PyFloat.gtb price (Fin 0) then price else Inf false.

Definition _sort_products_by_price (products : list Product)
           (preference : string) : list Product :=
  match products with
  | [] => []
  | _ =>
      let preference :=
        lower (if is_empty preference then "low" else preference) in
      let scored :=
        sorted (fun a b => PyFloat.ltb (price_key a) (price_key b)) products in
      if String.eqb preference "high" then rev scored else scored
  end.

(** [_select_product_by_price], the single-product sibling *)
Definition _select_product_by_price (products : list Product)
           (preference : string) : option Product :=
  let sorted_products := _sort_products_by_price products preference in
  match find (fun product =>
                PyFloat.gtb (_extract_price_from_product product) (Fin 0))
             sorted_products with
  | Some product => Some product
  | None => hd_error sorted_products
  end.

(** the selection loop; [seen_ids] is the set shared by all slots *)
Fixpoint select_loop (limit : Z) (sorted_products : list Product)
         (selected : list Product) (seen_ids : list string)
  : list Product * list string :=
  match sorted_products with
  | [] => (selected, seen_ids)
  | product :: rest =>
      let product_id := id_text product in
      if negb (is_empty product_id) && mem product_id seen_ids
      then select_loop limit rest selected seen_ids
      else
        let seen_ids :=
          if is_empty product_id then seen_ids else product_id :: seen_ids in
        let selected := (selected ++ [product])%list in
        if limit <=? Z.of_nat (List.length selected)
        then (selected, seen_ids)
        else select_loop limit rest selected seen_ids
  end.

Definition _select_products_by_price (products : list Product)
           (preference : string) (limit : Z) (seen_ids : list string)
  : list Product * list string :=
  match products with
  | [] => ([], seen_ids)
  | _ =>
      if limit <=? 0 then ([], seen_ids)
      else select_loop limit (_sort_products_by_price products preference)
                       [] seen_ids
  end.

(** the slots: keywords, label, accessory exclusion, limit *)
Definition selections : list (list string * string * bool * Z) :=
  [ (CROSS_SELL_TV_KEYWORDS, "tv", true, 2);
    (SOLUTION_BUNDLE_SOUNDBAR_KEYWORDS, "soundbar", true, 2);
    (SOLUTION_BUNDLE_SUBWOOFER_KEYWORDS, "subwoofer", true, 1);
    (CROSS_SELL_LED_KEYWORDS, "led", true, 1) ].

Definition slot_candidates (products : list Product)
           (slot : list string * string * bool * Z) : list Product :=
  let '(keywords, _label, exclude_accessories, _limit) := slot in
  _filter_products_for_bundle
    products keywords
    (if exclude_accessories then Some BUNDLE_ACCESSORY_EXCLUDE_KEYWORDS
     else None).

Definition fill_slot (products : list Product) (price_preference : string)
           (acc : list Product * list string)
           (slot : list string * string * bool * Z)
  : list Product * list string :=
  let '(bundle_items, seen_ids) := acc in
  let '(_keywords, _label, _exclude, limit) := slot in
  let '(chosen_items, seen_ids) :=
    _select_products_by_price (slot_candidates products slot)
                              price_preference limit seen_ids in
  ((bundle_items ++ chosen_items)%list, seen_ids).

Definition _build_solution_bundle_catalog (products : list Product)
           (price_preference : string) : list Product :=
  match products with
  | [] => []
  | _ => fst (fold_left (fill_slot products price_preference) selections
                        ([], []))
  end.

(** the [solution_bundle_recommendations] tool once its input is
    validated; the three failures are error results *)
Inductive bundle_error : Type :=
| UnsupportedGoal
| BadPricePreference
| NoProducts.

Definition coerce_price_preference (price_preference : string) : string :=
  let price_preference := strip (lower price_preference) in
  if String.eqb price_preference "medium" then "low" else price_preference.

Definition solution_bundle_recommendations (goal price_preference : string)
           (products : list Product) : bundle_error + list Product :=
  let normalized_goal := _normalize_text goal in
  if negb (any_in SOLUTION_BUNDLE_GOAL_KEYWORDS normalized_goal)
  then inl UnsupportedGoal
  else
    let price_preference := coerce_price_preference price_preference in
    if negb (mem price_preference ["low"; "high"]) then inl BadPricePreference
    else
      match products with
      | [] => inl NoProducts
      | _ => inr (_build_solution_bundle_catalog products price_preference)
      end.

End Bundle.

(** ** Checkout totals *)

Module Checkout.

(** A finite [Decimal]: [coefficient * 10 ^ exponent].  The amount of a
    cart item is kept as the decimal that [Decimal(str(amount_major))]
    builds: Python prints a float as the shortest decimal literal that
    reads back as the same float. *)
Record decimal : Type := mkDecimal {
  coefficient : Z;
  exponent : Z
}.

Inductive error : Type :=
| ValueError (item_name : string)
| InvalidOperation
| OverflowError.

Definition ZERO_DECIMAL_CURRENCIES : list string :=
  ["bif"; "clp"; "djf"; "gnf"; "jpy"; "kmf"; "krw"; "mga"; "pyg"; "rwf";
   "ugx"; "vnd"; "vuv"; "xaf"; "xof"; "xpf"].

Definition THREE_DECIMAL_CURRENCIES : list string :=
  ["bhd"; "jod"; "kwd"; "omr"; "tnd"].

Definition _currency_exponent (currency : string) : Z :=
  let currency_lower := lower currency in
  if mem currency_lower ZERO_DECIMAL_CURRENCIES then 0
  else if mem currency_lower THREE_DECIMAL_CURRENCIES then 3
  else 2.

(** the precision of the default decimal context *)
Definition prec : Z := 28.

(** [d.quantize(Decimal(1) / Decimal(10) ** places, ROUND_HALF_UP)]: the
    coefficient of the result, whose exponent is [- places]; ties go away
    from zero.  A result of more than [prec] digits is an
    [InvalidOperation]. *)
Definition quantize (d : decimal) (places : Z) : error + Z :=
  let shift := exponent d + places in
  let magnitude := Z.abs (coefficient d) in
  let rounded :=
    if 0 <=? shift then magnitude * 10 ^ shift
    else
      let unit := 10 ^ (- shift) in
      let q := magnitude / unit in
      if unit <=? 2 * (magnitude mod unit) then q + 1 else q in
  if 10 ^ prec <=? rounded then inl InvalidOperation
  else inr (Z.sgn (coefficient d) * rounded).

(** [int(decimal_amount * (10 ** exponent))]: the product has the value
    of the quantized coefficient, and rounding it to the context
    precision only drops zeros *)
Definition _to_minor_amount (amount_major : decimal) (currency : string)
  : error + Z :=
  let exponent := _currency_exponent currency in
  match quantize amount_major exponent with
  | inl e => inl e
  | inr quantized => inr (Z.quot (quantized * 10 ^ exponent) (10 ^ exponent))
  end.

(** [CheckoutCartItemInput] *)
Record CartItem : Type := mkCartItem {
  name : string;
  quantity : Z;
  unit_amount_major : decimal
}.

Record CheckoutCartTotals : Type := mkTotals {
  subtotal_minor : Z;
  discount_minor : Z;
  tax_minor : Z;
  shipping_minor : Z;
  grand_total_minor : Z;
  currency : string
}.

(** [float(z)] where Python converts an [int] operand; a value beyond the
    binary64 range is an [OverflowError] *)
Definition float_of_int (z : Z) : error + float :=
  match of_Z z with
  | Fin v => inr (Fin v)
  | _ => inl OverflowError
  end.

(** [int(x)] for a float: truncation toward zero *)
Definition int_of_float (x : float) : error + Z :=
  match x with
  | Fin v => inr (Z.quot v one)
  | Inf _ => inl OverflowError
  | NaN => inl (ValueError "")
  end.

(** the float literals [0.10], [100.0] and [50.0] *)
Definition f_0_10 : float := of_Q (1 # 10).
Definition f_100 : float := of_Z 100.
Definition f_50 : float := of_Z 50.

(** the loop over the items: the subtotal, or the first error *)
Fixpoint sum_items (items : list CartItem) (currency : string) (subtotal : Z)
  : error + Z :=
  match items with
  | [] => inr subtotal
  | item :: rest =>
      match _to_minor_amount (unit_amount_major item) currency with
      | inl e => inl e
      | inr unit_amount =>
          if unit_amount <=? 0 then inl (ValueError (name item))
          else sum_items rest currency (subtotal + unit_amount * quantity item)
      end
  end.

(** [int(subtotal * 0.10)] *)
Definition ten_percent (subtotal : Z) : error + Z :=
  match float_of_int subtotal with
  | inl e => inl e
  | inr x => int_of_float (PyFloat.mul x f_0_10)
  end.

(** [(subtotal / 100.0) < 50.0] *)
Definition below_free_shipping (subtotal : Z) : error + bool :=
  match float_of_int subtotal with
  | inl e => inl e
  | inr x => inr (PyFloat.ltb (PyFloat.div x f_100) f_50)
  end.

Definition promo_applies (promo_code : option string) : bool :=
  match promo_code with
  | Some code => negb (is_empty code) && String.eqb (upper code) "WELCOME10"
  | None => false
  end.

Definition _compute_checkout_totals (items : list CartItem)
           (currency : string) (promo_code : option string)
  : error + CheckoutCartTotals :=
  match sum_items items currency 0 with
  | inl e => inl e
  | inr subtotal =>
      match (if promo_applies promo_code then ten_percent subtotal
             else inr 0) with
      | inl e => inl e
      | inr discount =>
          let taxable_base := Z.max 0 (subtotal - discount) in
          let tax := 0 in
          match (if String.eqb (upper currency) "EUR"
                 then below_free_shipping subtotal else inr false) with
          | inl e => inl e
          | inr below =>
              let shipping := if below then 500 else 0 in
              let grand := Z.max 0 (taxable_base + shipping) in
              inr (mkTotals subtotal discount tax shipping grand
                            (upper currency))
          end
      end
  end.

End Checkout.

(** ** Strict product-type filter *)

(** The source holds these in a set that is only scanned with [any]. *)
Definition _STRICT_TYPE_KEYWORDS : list string :=
  ["laptop"; "laptops"; "notebook"; "ultrabook"].

Definition _product_has_category_keywords (product : Product)
           (keywords : list string) : bool :=
  let normalized_categories :=
    _normalize_text (join " " (_extract_product_categories product)) in
  any_in keywords normalized_categories.

Definition _filter_products_by_strict_type_keywords
           (products : list Product) (keywords : list string)
  : list Product :=
  match products, keywords with
  | [], _ | _, [] => products
  | _, _ =>
      let normalized_keywords :=
        map _normalize_text
            (filter (fun kw => negb (is_empty kw)) keywords) in
      let strict_matches :=
        filter (fun type_kw =>
                  existsb (fun keyword => contains type_kw keyword)
                          normalized_keywords)
               _STRICT_TYPE_KEYWORDS in
      match strict_matches with
      | [] => products
      | _ =>
          filter (fun product =>
                    let combined_text :=
                      _normalize_text
                        (get_name product ++ " "
                         ++ join " " (_extract_product_categories product)) in
                    any_in strict_matches combined_text)
                 products
      end
  end.

(** ** Places for the widgets ([transform_products_to_places])

    The transformation reads, beside the columns of [Product], the rating,
    the pros and cons and the stock of a row.  A row is modelled with
    these columns added; names and descriptions are texts or absent.  Where
    Python raises, the model returns the exception. *)

Module Places.
Import Ranking.

(** the ["voto_prodotto_1_5"] column *)
Inductive rating_value : Type :=
| RatingNum (n : num)
| RatingOther.                        (* not a number *)

(** the ["pro"] and ["contro"] columns *)
Inductive notes_value : Type :=
| NotesStr (text : string)
| NotesList (items : list string)
| NotesOther.                         (* neither a text nor a list *)

(** the ["stock"] column *)
Inductive stock_value : Type :=
| StockInt (z : Z)
| StockFloat (f : float)
| StockStr (parsed : option float)
    (* a text, kept by what [float(text)] makes of it; [None]: ValueError *)
| StockOther.                         (* any other value, [None] included *)

Record Row : Type := mkRow {
  row_product : Product;
  row_voto_prodotto_1_5 : option rating_value;
  row_pro : option notes_value;
  row_contro : option notes_value;
  row_stock : option stock_value
}.

Record Place : Type := mkPlace {
  place_id : string;
  place_name : string;
  place_coords : float * float;
  place_description : string;
  place_city : string;
  place_rating : num;
  place_price : string;
  place_thumbnail : string;
  place_pros : list string;
  place_cons : list string;
  place_stock : Z
}.

Inductive exn : Type :=
| ValueError
| OverflowError.

(** what a call comes to: a value, an exception, or the model's rounds
    for the identifier search running out *)
Inductive outcome (A : Type) : Type :=
| Returned (a : A)
| Raised (e : exn)
| OutOfRounds.

Arguments Returned {A} a.
Arguments Raised {A} e.
Arguments OutOfRounds {A}.

(** [rank_products_by_criteria] on rows: the ranker reads the columns of
    [Product] only *)
Definition rank_rows (products : list Row) (criteria : option Criteria)
  : list Row :=
  match products, criteria with
  | [], _ => products
  | _, None => products
  | _, Some c =>
      if criteria_is_empty criteria then products
      else sorted (fun a b =>
                     key_lt (calculate_relevance_score c (row_product a))
                            (calculate_relevance_score c (row_product b)))
                  products
  end.

Definition default_coords : list (float * float) :=
  [ (of_Q (1049197675545435 # 100000000000000),
     of_Q (4368345261138975 # 100000000000000)) ].

Definition default_cities : list string := ["Cascina (PI)"].

(** the text of a truthy identifier, stripped; [product-<idx>] when the
    row has no identifier or a blank one *)
Definition base_id (idx : Z) (product : Product) : string :=
  let generated := "product-" ++ str_of_Z idx in
  match p_id product with
  | None => generated
  | Some (IdStr s) =>
      if is_empty s then generated
      else
        let product_id := strip s in
        if is_empty product_id then generated else product_id
  | Some (IdInt z) =>
      if z =? 0 then generated
      else
        let product_id := strip (str_of_Z z) in
        if is_empty product_id then generated else product_id
  end.

(** the loop [while product_id in seen_ids], run for at most [fuel]
    further rounds; [None] when the rounds do not suffice *)
Fixpoint unique_id (fuel : nat) (original_id : string) (counter : Z)
         (product_id : string) (seen_ids : list string) : option string :=
  if mem product_id seen_ids then
    match fuel with
    | O => None
    | S fuel' =>
        let counter := counter + 1 in
        unique_id fuel' original_id counter
                  (original_id ++ "-" ++ str_of_Z counter) seen_ids
    end
  else Some product_id.

(** the number read from the ["price"] column *)
Definition price_num (product : Product) : num :=
  match p_price product with
  | Some (PriceInt z) => NInt z
  | Some (PriceFloat f) => NFloat f
  | Some (PriceStr (Some f)) => NFloat f
  | Some (PriceStr None) => NInt 0
  | Some (PriceRange amountMax amountMin) =>
      if PyNum.truthy (get_or_zero amountMax) then get_or_zero amountMax
      else get_or_zero amountMin
  | Some PriceOther => NInt 0
  | None => NInt 0
  end.

Definition two_digits (n : Z) : string :=
  if n <? 10 then "0" ++ str_of_Z n else str_of_Z n.

(** [f"{x:.2f}"] for a float: the nearest multiple of a hundredth of the
    exact value, ties to even *)
Definition format_2f (x : float) : string :=
  match x with
  | NaN => "nan"
  | Inf s => if s then "-inf" else "inf"
  | Fin v =>
      let cents := rne (100 * Z.abs v) one in
      (if v <? 0 then "-" else "")
      ++ str_of_Z (cents / 100) ++ "." ++ two_digits (cents mod 100)
  end.

(** [text.replace(old, new)] for single characters *)
Definition replace_char (old new : ascii) : string -> string :=
  smap (fun c => if Ascii.eqb c old then new else c).

(** the euro sign, as its UTF-8 bytes *)
Definition euro : string :=
  String (ascii_of_nat 226)
         (String (ascii_of_nat 130) (String (ascii_of_nat 172) EmptyString)).

(** the price text; formatting an [int] converts it to a float first,
    which raises for an [int] beyond the float range *)
Definition price_str (product : Product) : exn + string :=
  let price_num := price_num product in
  if PyNum.gtb price_num (NInt 0) then
    match price_num with
    | NInt z =>
        match of_Z z with
        | Fin v => inr (replace_char "." "," (format_2f (Fin v)) ++ euro)
        | _ => inl OverflowError
        end
    | NFloat f => inr (replace_char "." "," (format_2f f) ++ euro)
    end
  else inr "".

(** the literal [4.5] *)
Definition f_4_5 : float := of_Q (45 # 10).

Definition rating_of (product : Row) : num :=
  match row_voto_prodotto_1_5 product with
  | Some (RatingNum rating) =>
      if PyNum.leb rating (NInt 0) then NFloat f_4_5 else rating
  | Some RatingOther => NFloat f_4_5
  | None => NFloat f_4_5
  end.

(** the pros and the cons: the items, stripped, the blank ones left out *)
Definition notes_of (raw : option notes_value) : list string :=
  match raw with
  | None => []
  | Some (NotesStr text) =>
      if is_empty text then []
      else map strip
               (filter (fun p => negb (is_empty (strip p)))
                       (split "," text))
  | Some (NotesList items) =>
      map strip (filter (fun p => negb (is_empty (strip p))) items)
  | Some NotesOther => []
  end.

(** [int(x)] for a float *)
Definition int_of_float (x : float) : exn + Z :=
  match x with
  | Fin v => inr (Z.quot v one)
  | Inf _ => inl OverflowError
  | NaN => inl ValueError
  end.

(** the stock: a number is truncated; for a text the [ValueError] of
    either conversion gives 0, an [OverflowError] is not caught *)
Definition stock_of (product : Row) : exn + Z :=
  match row_stock product with
  | None => inr 0
  | Some (StockInt z) => inr z
  | Some (StockFloat f) => int_of_float f
  | Some (StockStr None) => inr 0
  | Some (StockStr (Some f)) =>
      match int_of_float f with
      | inl ValueError => inr 0
      | result => result
      end
  | Some StockOther => inr 0
  end.

(** [product.get("name", "Unknown Product")] *)
Definition name_or_unknown (product : Product) : string :=
  match p_name product with
  | Some name => name
  | None => "Unknown Product"
  end.

(** the thumbnail: the first of a list of images, the text of a single
    one, the empty text otherwise *)
Definition thumbnail_of (product : Product) : string :=
  match p_imageURLs product with
  | Some (ImagesList (first :: _)) => first
  | Some (ImagesList []) => ""
  | Some (ImagesStr url) => url
  | None => ""
  end.

(** [xs[idx % len(xs)]] *)
Definition cyclic {A : Type} (xs : list A) (idx : Z) (default : A) : A :=
  nth (Z.to_nat (idx mod Z.of_nat (List.length xs))) xs default.

(** the loop over [enumerate(products)]; the identifier search is given
    one round per identifier seen so far *)
Fixpoint places_loop (idx : Z) (products : list Row)
         (seen_ids : list string) : outcome (list Place) :=
  match products with
  | [] => Returned []
  | product :: rest =>
      let original_id := base_id idx (row_product product) in
      match unique_id (List.length seen_ids) original_id 0 original_id
                      seen_ids with
      | None => OutOfRounds
      | Some product_id =>
          match price_str (row_product product) with
          | inl e => Raised e
          | inr price_str =>
              let coords := cyclic default_coords idx (Fin 0, Fin 0) in
              let city := cyclic default_cities idx "" in
              let rating := rating_of product in
              let pros := notes_of (row_pro product) in
              let contros := notes_of (row_contro product) in
              match stock_of product with
              | inl e => Raised e
              | inr stock =>
                  let place :=
                    mkPlace product_id
                            (name_or_unknown (row_product product))
                            coords
                            (opt_text (p_descrizione_prodotto
                                         (row_product product)))
                            city rating price_str
                            (thumbnail_of (row_product product))
                            pros contros stock in
                  match places_loop (idx + 1) rest (product_id :: seen_ids)
                  with
                  | Returned places => Returned (place :: places)
                  | failure => failure
                  end
              end
          end
      end
  end.

Definition transform_products_to_places (products : list Row)
           (criteria : option Criteria) : outcome (list Place) :=
  match products with
  | [] => Returned []
  | _ =>
      let products :=
        if criteria_is_empty criteria then products
        else rank_rows products criteria in
      places_loop 0 products []
  end.

End Places.

(** ** HTTP helpers *)

Module Http.

(** [_split_env_list]: the comma-separated items of an environment
    value, stripped, the blank ones left out *)
Definition _split_env_list (value : option string) : list string :=
  match value with
  | None => []
  | Some value =>
      if is_empty value then []
      else map strip
               (filter (fun item => negb (is_empty (strip item)))
                       (split "," value))
  end.

(** a header: name and value, both byte strings *)
Definition header : Type := (string * string)%type.

Definition _build_cors_headers (origin : option string)
           (allowed_origins : list string) (preflight : bool)
  : list header :=
  let allow_origin :=
    match allowed_origins with
    | [] => Some "*"
    | _ =>
        match origin with
        | Some o =>
            if negb (is_empty o) && mem o allowed_origins then Some o
            else if negb (is_empty o) then Some o
            else None
        | None => None
        end
    end in
  ((match allow_origin with
    | Some value =>
        if is_empty value then []
        else [("access-control-allow-origin", value)]
    | None => []
    end)
   ++ [("access-control-allow-methods", "GET, POST, OPTIONS");
       ("access-control-allow-headers", "Content-Type, Authorization")]
   ++ (if preflight then [("access-control-max-age", "86400")] else []))%list.

End Http.

(** ** Idempotency cache of the checkout tools

    The cache maps a pair of key and operation to the stored payload; a
    later entry for the same pair replaces the earlier one, so the newest
    binding comes first. *)

Module Idempotency.

Definition cache : Type := list ((string * string) * string).

Fixpoint cache_get (key operation : string) (entries : cache)
  : option string :=
  match entries with
  | [] => None
  | ((k, op), payload_json) :: rest =>
      if String.eqb key k && String.eqb operation op then Some payload_json
      else cache_get key operation rest
  end.

Definition _get_idempotent_response (key : option string)
           (operation : string) (IDEMPOTENCY_CACHE : cache)
  : option string :=
  match key with
  | None => None
  | Some key =>
      if is_empty key then None
      else cache_get key operation IDEMPOTENCY_CACHE
  end.

Definition _save_idempotent_response (key operation payload_json : string)
           (IDEMPOTENCY_CACHE : cache) : cache :=
  ((key, operation), payload_json) :: IDEMPOTENCY_CACHE.

End Idempotency.

(** * Notions the statements use *)

(** A comparison function that behaves as a total preorder. *)
Record Ordering {A : Type} (cmp : A -> A -> comparison) : Prop := {
  cmp_antisym : forall a b, cmp a b = CompOpp (cmp b a);
  cmp_trans : forall a b c, cmp a b = Lt -> cmp b c = Lt -> cmp a c = Lt;
  cmp_eq_l : forall a b c, cmp a b = Eq -> cmp a c = cmp b c
}.

(** lexicographic comparison of pairs *)
Definition lex {A B : Type} (ca : A -> A -> comparison)
           (cb : B -> B -> comparison) (x y : A * B) : comparison :=
  match ca (fst x) (fst y) with
  | Eq => cb (snd x) (snd y)
  | c => c
  end.



Module FloatSpec.
Import PyFloat.

(** a magnitude with at most 53 significant bits *)
Definition representable (y : Z) : Prop :=
  exists m j, 0 <= m < 2 ^ 53 /\ 0 <= j /\ y = m * 2 ^ j.

End FloatSpec.

Module RankingSpec.
Import Ranking.

(** the size score as the specification words it, by the absolute
    difference of the sizes *)
Definition size_score_of_difference (d : Z) : Z :=
  if d =? 0 then 0 else if d <=? 5 then 10 + d else 50 + d.

(** a criteria bag that holds a target size and nothing else *)
Definition only_size (target_size : Z) : Criteria :=
  mkCriteria (Some target_size) None None None None.

(** a sort key whose score and price are numbers, not NaN *)
Definition key_ok (k : key) : Prop :=
  is_nan (exact (fst (fst k))) = false /\ is_nan (snd (fst k)) = false.

(** two keys neither of which stands before the other *)
Definition tied (k1 k2 : key) : bool :=
  negb (key_lt k1 k2) && negb (key_lt k2 k1).

(** a total comparison of floats that agrees with [PyFloat.compare] on
    numbers; NaN is put below everything *)
Definition float_rank (x : float) : Z * Z :=
  match x with
  | NaN => (0, 0)
  | Inf true => (1, 0)
  | Fin v => (2, v)
  | Inf false => (3, 0)
  end.

Definition fcmp (x y : float) : comparison :=
  lex Z.compare Z.compare (float_rank x) (float_rank y).

Definition kcmp : key -> key -> comparison :=
  lex (lex (fun a b => fcmp (exact a) (exact b)) fcmp) String.compare.

End RankingSpec.

Module CrossSellSpec.
Import CrossSell.

(** a catalog item is already in the cart when its SKU or identifier
    matches a cart item's identifier, or its name a cart item's name, all
    normalized for case and punctuation *)
Definition already_in_cart (item : Item) (cart_item : CartItem) : Prop :=
  _normalize_text (i_sku item) = _normalize_text (id cart_item)
  \/ _normalize_text (i_id item) = _normalize_text (id cart_item)
  \/ _normalize_text (i_name item) = _normalize_text (name cart_item).

(** the wider reading: any of the SKU, the identifier and the name of the
    catalog item matches the identifier or the name of the cart item *)
Definition matches_cart_item (item : Item) (cart_item : CartItem) : Prop :=
  In (_normalize_text (id cart_item))
     [_normalize_text (i_sku item); _normalize_text (i_id item);
      _normalize_text (i_name item)]
  \/ In (_normalize_text (name cart_item))
        [_normalize_text (i_sku item); _normalize_text (i_id item);
         _normalize_text (i_name item)].

(** a pass over the suggestion state only adds eligible items *)
Definition grows_within (eligible : list Item) (st st' : state) : Prop :=
  forall x, In x (fst st') -> In x (fst st) \/ In x eligible.

End CrossSellSpec.

Module CheckoutSpec.
Import Checkout.

(** the minor amount a unit amount converts to; 0 stands in where the
    conversion fails *)
Definition minor_of (currency : string) (item : CartItem) : Z :=
  match _to_minor_amount (unit_amount_major item) currency with
  | inr unit_amount => unit_amount
  | inl _ => 0
  end.

(** the unit amount fits the precision of the decimal context *)
Definition converts (currency : string) (item : CartItem) : Prop :=
  exists unit_amount,
    _to_minor_amount (unit_amount_major item) currency = inr unit_amount.

(** the sum of unit amount times quantity over the cart *)
Definition subtotal_of (currency : string) (items : list CartItem) : Z :=
  fold_right (fun item acc => minor_of currency item * quantity item + acc)
             0 items.

(** the totals as the claim words them *)
Definition expected_totals (items : list CartItem) (currency : string)
           (promo_code : option string) : CheckoutCartTotals :=
  let subtotal := subtotal_of currency items in
  let discount :=
    match promo_code with
    | Some code =>
        if String.eqb (upper code) "WELCOME10" then subtotal / 10 else 0
    | None => 0
    end in
  let shipping :=
    if String.eqb (upper currency) "EUR" && (subtotal <? 5000)
    then 500 else 0 in
  mkTotals subtotal discount 0 shipping
           (Z.max 0 (subtotal - discount) + shipping)
           (upper currency).

End CheckoutSpec.

Module BundleSpec.
Import Bundle.

(** a strictly lower price, where a price that is not positive counts as
    infinite *)
Definition cheaper (a b : Product) : bool :=
  PyFloat.ltb (price_key a) (price_key b).

(** [a] may stand before [b] in ascending price order *)
Definition in_price_order (a b : Product) : Prop := cheaper b a = false.

(** the product carries an identifier that the set holds *)
Definition duplicate (seen_ids : list string) (product : Product) : Prop :=
  id_text product <> "" /\ In (id_text product) seen_ids.

(** the non-empty identifiers of a list of products *)
Definition ids_of (products : list Product) : list string :=
  filter (fun s => negb (is_empty s)) (map id_text products).

End BundleSpec.

Module TextSpec.

(** blanks stand alone and only between other characters; with [after_blank]
    the text may not start with one *)
Fixpoint spaced (after_blank : bool) (s : string) : bool :=
  match s with
  | EmptyString => true
  | String c r =>
      if is_alnum_lower c then spaced false r
      else Ascii.eqb c " " && negb after_blank && spaced true r
  end.

(** every character of the text is an ASCII character; on such text the
    case mappings and the character classes of the model are Python's *)
Fixpoint is_ascii (s : string) : bool :=
  match s with
  | EmptyString => true
  | String c r => Nat.ltb (code c) 128 && is_ascii r
  end.

(** some character of the text is an ASCII digit *)
Fixpoint has_digit (s : string) : bool :=
  match s with
  | EmptyString => false
  | String c r => is_digit c || has_digit r
  end.

End TextSpec.

Module SuggestionSpec.
Import CrossSell.

(** the item is declared compatible with one of the device classes *)
Definition compatible (categories : list string) (item : Item) : bool :=
  existsb (fun c => mem c categories) (i_compatibleWith item).

(** what every pass may push: an eligible item that, once the cart shows
    a device class, is compatible with one of the classes *)
Definition fits (categories : list string) (eligible : list Item)
           (item : Item) : Prop :=
  In item eligible /\ (categories = [] \/ compatible categories item = true).

(** [st'] is [st] after pushing items that all satisfy [P] *)
Definition pushes (P : Item -> Prop) (st st' : state) : Prop :=
  exists items, Forall P items /\ st' = push_all st items.

(** the suggestions carry distinct, non-empty SKUs, all recorded as seen *)
Definition distinct_skus (st : state) : Prop :=
  NoDup (map i_sku (fst st))
  /\ (forall sku, In sku (map i_sku (fst st)) -> In sku (snd st))
  /\ Forall (fun item => i_sku item <> "") (fst st).

End SuggestionSpec.

Module CrossSellDbSpec.
Import CrossSell CrossSellDb.

(** the row is filed under [key]: its text identifier or its name is not
    empty and normalizes to [key] *)
Definition keyed (key : string) (product : Product) : Prop :=
  (exists product_id,
      p_id product = Some (IdStr product_id) /\ product_id <> ""
      /\ _normalize_text product_id = key)
  \/ (exists product_name,
         p_name product = Some product_name /\ product_name <> ""
         /\ _normalize_text product_name = key).

End CrossSellDbSpec.

Module BundleMoreSpec.
Import Bundle BundleSpec.

(** the state of the slot loop: at most [n] products, all of the
    catalog, whose non-empty identifiers are distinct and recorded *)
Definition bundle_inv (products : list Product) (n : Z)
           (acc : list Product * list string) : Prop :=
  Z.of_nat (List.length (fst acc)) <= n
  /\ incl (fst acc) products
  /\ NoDup (ids_of (fst acc))
  /\ (forall s, In s (ids_of (fst acc)) -> In s (snd acc)).


(** the name of the product matches one of the slot's keywords *)
Definition name_match (products : list Product) (keywords : list string)
           (product : Product) : Prop :=
  In product (_filter_products_by_name_keywords products keywords).

(** the product counts as an accessory for the bundle *)
Definition accessory (product : Product) : Prop :=
  _is_accessory_product product
                        (clean_keywords BUNDLE_ACCESSORY_EXCLUDE_KEYWORDS)
  = true.

(** eligible for a slot: a name match that is no accessory, or any name
    match when all of them are accessories *)
Definition eligible (products : list Product) (keywords : list string)
           (product : Product) : Prop :=
  name_match products keywords product
  /\ (~ accessory product
      \/ forall other, name_match products keywords other -> accessory other).


End BundleMoreSpec.

Module StrictTypeSpec.

(** the text in which the strict filter looks for a product type *)
Definition type_text (product : Product) : string :=
  _normalize_text
    (get_name product ++ " "
     ++ join " " (_extract_product_categories product)).

(** the text names a laptop type *)
Definition names_laptop_type (text : string) : bool :=
  any_in ["laptop"; "notebook"; "ultrabook"] text.

End StrictTypeSpec.

Module HttpSpec.
Import Http.

(** the value of the first header called [name] *)
Fixpoint header_value (name : string) (headers : list header)
  : option string :=
  match headers with
  | [] => None
  | (key, value) :: rest =>
      if String.eqb key name then Some value else header_value name rest
  end.

End HttpSpec.

Module PlacesSpec.
Import Places.

(** the identifiers the search tries: the original one, then the
    original with the suffixes -1, -2, ... *)
Definition candidate (original_id : string) (counter : Z) : string :=
  if counter =? 0 then original_id
  else original_id ++ "-" ++ str_of_Z counter.

(** an [int] price is within the range of the floats, so that neither the
    ranker nor the price text raises on it *)
Definition price_converts (product : Product) : Prop :=
  match price_num product with
  | NInt z => exists v, of_Z z = Fin v
  | NFloat _ => True
  end.

(** reading the stock of the row raises: a NaN or infinite number, or a
    text that reads as an infinity *)
Definition stock_raises (product : Row) : Prop :=
  exists e, stock_of product = inl e.

(** the sort keys of the rows are numbers, so that the ranking is the
    one [sorted] computes *)
Definition keys_ok (criteria : option Ranking.Criteria)
           (products : list Row) : Prop :=
  match criteria with
  | Some c =>
      Forall (fun product =>
                RankingSpec.key_ok
                  (Ranking.calculate_relevance_score c (row_product product)))
             products
  | None => True
  end.

(** a row on which the transformation does not raise *)
Definition row_ok (product : Row) : Prop :=
  price_converts (row_product product) /\ ~ stock_raises product.

End PlacesSpec.

(** * Sample data *)

Module Samples.

(** a row whose category fields hold no tag *)
Definition untagged : Product :=
  mkProduct (Some (IdInt 7)) (Some "Cavo") None None
            (Some (CatsStr " , ")) (Some (CatsList [""])) None.

Definition tagged_tv : Product :=
  mkProduct (Some (IdInt 8)) (Some "Smart TV 50") None None
            (Some (CatsStr "Electronics, TV")) None None.

(** three rows without a size in their names *)
Definition tv_a : Product :=
  mkProduct (Some (IdInt 1)) (Some "TV A") (Some (PriceInt 3)) None None None None.
Definition tv_b : Product :=
  mkProduct (Some (IdInt 2)) (Some "TV B") (Some (PriceFloat NaN)) None None None None.
Definition tv_c : Product :=
  mkProduct (Some (IdInt 3)) (Some "TV C") (Some (PriceInt 5)) None None None None.

Definition tv_45 : Product :=
  mkProduct None (Some "TV 45 inch") None None None None None.
Definition tv_0 : Product :=
  mkProduct None (Some "TV 0 inch") None None None None None.

(** a cart line whose name, not its identifier, is the SKU of the HDMI
    cable of the fixed catalog *)
Definition cart_named_sku : CrossSell.CartItem :=
  CrossSell.mkCartItem "line-2" "CS-HDMI-01" None None None None None.

(** a cart with a television and the HDMI cable of the fixed catalog *)
Definition cart_tv : CrossSell.CartItem :=
  CrossSell.mkCartItem "tv-55" "Smart TV OLED 55" None None None None None.
Definition cart_hdmi : CrossSell.CartItem :=
  CrossSell.mkCartItem "CS-HDMI-01" "Cavo HDMI" None None None None None.

(** cart items: 19.99 twice, a tenth of a cent, and 1e+26 *)
Definition item_cable : Checkout.CartItem :=
  Checkout.mkCartItem "Cavo HDMI" 2 (Checkout.mkDecimal 1999 (-2)).
Definition item_dust : Checkout.CartItem :=
  Checkout.mkCartItem "Dust" 1 (Checkout.mkDecimal 1 (-3)).
Definition item_huge : Checkout.CartItem :=
  Checkout.mkCartItem "Yacht" 1 (Checkout.mkDecimal 1 26).

(** televisions: one without a price, three with *)
Definition tv_free : Product :=
  mkProduct (Some (IdInt 10)) (Some "Smart TV 55") (Some (PriceInt 0))
            None None None None.
Definition tv_cheap : Product :=
  mkProduct (Some (IdInt 11)) (Some "Smart TV 43") (Some (PriceInt 300))
            None None None None.
Definition tv_mid : Product :=
  mkProduct (Some (IdInt 12)) (Some "OLED TV 50") (Some (PriceInt 500))
            None None None None.
Definition tv_top : Product :=
  mkProduct (Some (IdInt 13)) (Some "QLED TV 65") (Some (PriceInt 900))
            None None None None.

End Samples.

Module MoreSamples.

(** a row tagged as loudspeaker whose second tag is part of a TV tag *)
Definition speaker_player : Product :=
  mkProduct (Some (IdInt 20)) (Some "Cassa") None None
            (Some (CatsList ["Speakers"; "Players"])) None None.

(** live catalog rows: a television and a cable filed under TV cables *)
Definition row_tv : Product :=
  mkProduct (Some (IdStr "tv-55")) (Some "Smart TV OLED 55")
            (Some (PriceInt 900)) None (Some (CatsStr "TV")) None None.
Definition row_cable : Product :=
  mkProduct (Some (IdStr "cavo-1")) (Some "Cavo HDMI 2m")
            (Some (PriceInt 10)) None None (Some (CatsStr "Cavi per TV"))
            None.

(** rows with their stock: three on the shelf, a stock that is not a
    number, and a price of 34.59 *)
Definition shelf_tv : Places.Row :=
  Places.mkRow Samples.tv_cheap None None None (Some (Places.StockInt 3)).
Definition shelf_nan : Places.Row :=
  Places.mkRow Samples.tv_mid None None None (Some (Places.StockFloat NaN)).
Definition shelf_cable : Places.Row :=
  Places.mkRow
    (mkProduct (Some (IdStr " cavo-1 ")) (Some "Cavo HDMI 2m")
               (Some (PriceFloat (of_Q (3459 # 100)))) None None None None)
    (Some (Places.RatingNum (NInt 0)))
    (Some (Places.NotesStr "robusto, , 2 metri "))
    None
    (Some (Places.StockStr (Some (of_Q (25 # 10))))).


End MoreSamples.

(** * Properties *)

(** ** Category filter *)

Section ListFacts.
Context {A : Type}.

Lemma filter_idempotent (f : A -> bool) (l : list A) :
  filter f (filter f l) = filter f l.
Proof.
  induction l as [|x l IH]; simpl; [reflexivity|].
  destruct (f x) eqn:E; simpl; [rewrite E, IH|]; auto.
Qed.

Lemma firstn_incl (n : nat) (l : list A) (x : A) :
  In x (firstn n l) -> In x l.
Proof.
  revert l. induction n as [|n IH]; intros [|y l]; simpl; try tauto.
  intros [H|H]; auto.
Qed.

Lemma slice_to_incl (n : Z) (l : list A) (x : A) :
  In x (slice_to n l) -> In x l.
Proof.
  unfold slice_to. destruct (0 <=? n); apply firstn_incl.
Qed.

Lemma slice_to_length (n : Z) (l : list A) :
  0 <= n -> Z.of_nat (List.length (slice_to n l)) <= n.
Proof.
  intros Hn. unfold slice_to.
  destruct (Z.leb_spec 0 n); [|lia].
  rewrite length_firstn. lia.
Qed.
End ListFacts.

Module CategoryFacts.
Import Category Samples.

Lemma filter_as_filter (products : list Product) (category : string) :
  products <> [] -> category <> "" ->
  filter_products_by_category products category
  = filter (product_matches (strip (lower category))
                            (resolve_search_tags (strip (lower category))))
           products.
Proof.
  intros Hp Hc. unfold filter_products_by_category.
  destruct products; [congruence|].
  destruct category; [congruence|]. reflexivity.
Qed.

Lemma no_categories_no_match (category_lower : string)
      (search_tags : list string) (product : Product) :
  product_categories product = [] ->
  product_matches category_lower search_tags product = false.
Proof.
  intros H. unfold product_matches. rewrite H. reflexivity.
Qed.

(** C4: filtering by a category twice gives what filtering once gives. *)
Theorem filter_products_by_category_idempotent
        (products : list Product) (category : string) :
  filter_products_by_category
    (filter_products_by_category products category) category
  = filter_products_by_category products category.
Proof.
  destruct products as [|p ps]; [reflexivity|].
  destruct category as [|c cs]; [reflexivity|].
  rewrite (filter_as_filter (p :: ps) (String c cs)) by congruence.
  set (f := product_matches _ _).
  destruct (filter f (p :: ps)) as [|q qs] eqn:E; [reflexivity|].
  rewrite filter_as_filter by congruence.
  fold f. rewrite <- E. apply filter_idempotent.
Qed.

(** C9: for a non-empty category, a product from which no category tag
    can be read never appears in the filtered list. *)
Theorem filter_products_by_category_drops_untagged
        (products : list Product) (category : string) (product : Product) :
  category <> "" ->
  product_categories product = [] ->
  ~ In product (filter_products_by_category products category).
Proof.
  intros Hc Hnone Hin.
  destruct products as [|p ps]; [exact Hin|].
  rewrite filter_as_filter in Hin by congruence.
  apply filter_In in Hin. destruct Hin as [_ Hm].
  rewrite no_categories_no_match in Hm by assumption. discriminate.
Qed.

Lemma filter_products_by_category_drops_untagged_witness :
  filter_products_by_category [untagged; tagged_tv] "tv" = [tagged_tv]
  /\ ~ In untagged (filter_products_by_category [untagged; tagged_tv] "tv").
Proof.
  split; [vm_compute; reflexivity|].
  apply (filter_products_by_category_drops_untagged
           [untagged; tagged_tv] "tv" untagged).
  - discriminate.
  - vm_compute. reflexivity.
Defined.

End CategoryFacts.

(** ** Facts about orderings *)

Section OrderingFacts.
Context {A B : Type}.
Variable ca : A -> A -> comparison.
Variable cb : B -> B -> comparison.
Hypothesis Ha : Ordering ca.
Hypothesis Hb : Ordering cb.

Lemma cmp_refl (a : A) : ca a a = Eq.
Proof.
  pose proof (cmp_antisym ca Ha a a) as H.
  destruct (ca a a); simpl in H; congruence.
Qed.

Lemma cmp_eq_sym (a b : A) : ca a b = Eq -> ca b a = Eq.
Proof.
  intros H. rewrite (cmp_antisym ca Ha), H. reflexivity.
Qed.

Lemma cmp_eq_r (a b c : A) : ca b c = Eq -> ca a b = ca a c.
Proof.
  intros H. rewrite (cmp_antisym ca Ha a b), (cmp_antisym ca Ha a c).
  f_equal. symmetry. apply (cmp_eq_l ca Ha). apply cmp_eq_sym, H.
Qed.

(** not greater is transitive *)
Lemma cmp_le_trans (a b c : A) :
  ca b a <> Lt -> ca c b <> Lt -> ca c a <> Lt.
Proof.
  intros H1 H2 H3.
  destruct (ca b a) eqn:E1; [| congruence |].
  - rewrite (cmp_eq_r c b a E1) in H2. congruence.
  - assert (ca a b = Lt) as E by (rewrite (cmp_antisym ca Ha), E1; reflexivity).
    apply H2. eapply (cmp_trans ca Ha); eassumption.
Qed.

Lemma lex_ordering : Ordering (lex ca cb).
Proof.
  split.
  - intros [a1 b1] [a2 b2]. unfold lex; simpl.
    rewrite (cmp_antisym ca Ha a1 a2).
    destruct (ca a2 a1); simpl; auto. apply (cmp_antisym cb Hb).
  - intros [a1 b1] [a2 b2] [a3 b3]. unfold lex; simpl.
    destruct (ca a1 a2) eqn:E1; try discriminate.
    + rewrite (cmp_eq_l ca Ha _ _ a3 E1).
      destruct (ca a2 a3) eqn:E2; try discriminate; auto.
      apply (cmp_trans cb Hb).
    + intros _. destruct (ca a2 a3) eqn:E2; try discriminate.
      * rewrite (cmp_eq_r a1 a2 a3 E2) in E1. rewrite E1. reflexivity.
      * intros _. rewrite (cmp_trans ca Ha _ _ _ E1 E2). reflexivity.
  - intros [a1 b1] [a2 b2] [a3 b3]. unfold lex; simpl.
    destruct (ca a1 a2) eqn:E1; try discriminate.
    intros E. rewrite (cmp_eq_l ca Ha _ _ a3 E1).
    destruct (ca a2 a3); auto. apply (cmp_eq_l cb Hb), E.
Qed.

(** an ordering read through a function *)
Lemma pullback_ordering {C : Type} (f : C -> A) :
  Ordering (fun x y => ca (f x) (f y)).
Proof.
  split; intros.
  - apply (cmp_antisym ca Ha).
  - eapply (cmp_trans ca Ha); eassumption.
  - apply (cmp_eq_l ca Ha). assumption.
Qed.
End OrderingFacts.

Lemma Z_ordering : Ordering Z.compare.
Proof.
  split.
  - intros. apply Z.compare_antisym.
  - intros a b c. rewrite !Z.compare_lt_iff. lia.
  - intros a b c H. apply Z.compare_eq in H. subst. reflexivity.
Qed.

Lemma ascii_compare_trans (a b c : ascii) :
  Ascii.compare a b = Lt -> Ascii.compare b c = Lt -> Ascii.compare a c = Lt.
Proof.
  unfold Ascii.compare. rewrite !N.compare_lt_iff. lia.
Qed.

Lemma string_ordering : Ordering String.compare.
Proof.
  split.
  - apply String.compare_antisym.
  - induction a as [|x a IH]; intros [|y b] [|z c]; simpl;
      try discriminate; auto.
    destruct (Ascii.compare x y) eqn:E1; try discriminate.
    + apply Ascii.compare_eq_iff in E1. subst y.
      destruct (Ascii.compare x z) eqn:E2; try discriminate; auto.
      apply IH.
    + intros _.
      destruct (Ascii.compare y z) eqn:E2; try discriminate.
      * apply Ascii.compare_eq_iff in E2. subst z. rewrite E1. reflexivity.
      * intros _. rewrite (ascii_compare_trans _ _ _ E1 E2). reflexivity.
  - intros a b c H. apply String.compare_eq_iff in H. subst. reflexivity.
Qed.

(** ** Stable insertion sort *)

Section SortingFacts.
Context {A : Type}.
Variable lt : A -> A -> bool.

Lemma insert_perm (x : A) (l : list A) :
  Permutation (x :: l) (insert lt x l).
Proof.
  induction l as [|y l IH]; simpl; [apply Permutation_refl|].
  destruct (lt y x); [|apply Permutation_refl].
  eapply Permutation_trans; [apply perm_swap|].
  apply perm_skip, IH.
Qed.

Lemma sorted_perm (l : list A) : Permutation l (sorted lt l).
Proof.
  induction l as [|x l IH]; simpl; [constructor|].
  eapply Permutation_trans; [apply perm_skip, IH|apply insert_perm].
Qed.

Lemma sorted_In (l : list A) (x : A) : In x (sorted lt l) <-> In x l.
Proof.
  split; apply Permutation_in;
    [apply Permutation_sym|]; apply sorted_perm.
Qed.

Lemma sorted_length (l : list A) :
  List.length (sorted lt l) = List.length l.
Proof.
  symmetry. apply Permutation_length, sorted_perm.
Qed.

(** [x] is placed behind the elements that are smaller, before the rest *)
Lemma filter_insert (f : A -> bool) (x : A) (l : list A) :
  (f x = true -> forall y, In y l -> lt y x = true -> f y = false) ->
  filter f (insert lt x l) = filter f (x :: l).
Proof.
  induction l as [|y l IH]; intros H; simpl; [reflexivity|].
  destruct (lt y x) eqn:E; simpl; [|reflexivity].
  rewrite IH by (intros Hx z Hz; apply H; simpl; auto).
  simpl. destruct (f x) eqn:Ex; [|reflexivity].
  rewrite (H eq_refl y (or_introl eq_refl) E). reflexivity.
Qed.

(** elements that a test singles out keep their order when the test never
    holds on both sides of a strict comparison *)
Lemma filter_sorted (f : A -> bool) (l : list A) :
  (forall x y, In x l -> In y l -> f x = true -> lt y x = true ->
               f y = false) ->
  filter f (sorted lt l) = filter f l.
Proof.
  induction l as [|x l IH]; intros H; simpl; [reflexivity|].
  rewrite filter_insert.
  - simpl. rewrite IH; [reflexivity|].
    intros a b Ha Hb. apply H; simpl; auto.
  - intros Hx y Hy. apply H; simpl; auto.
    right. apply sorted_In, Hy.
Qed.

Variable cmp : A -> A -> comparison.
Variable ok : A -> Prop.
Hypothesis Hcmp : Ordering cmp.
Hypothesis Hlt :
  forall a b, ok a -> ok b -> lt a b = true <-> cmp a b = Lt.

Lemma not_after_trans (a b c : A) :
  ok a -> ok b -> ok c ->
  not_after lt a b -> not_after lt b c -> not_after lt a c.
Proof.
  unfold not_after. intros Oa Ob Oc H1 H2.
  destruct (lt c a) eqn:E; [|reflexivity]. exfalso.
  apply (cmp_le_trans cmp Hcmp a b c).
  - intros F. apply Hlt in F; auto. congruence.
  - intros F. apply Hlt in F; auto. congruence.
  - apply Hlt; auto.
Qed.

Lemma insert_sorted (x : A) (l : list A) :
  ok x -> Forall ok l ->
  StronglySorted (not_after lt) l -> StronglySorted (not_after lt) (insert lt x l).
Proof.
  intros Ox Ol Hs. induction Hs as [|y l Hs IH Hy]; simpl.
  - repeat constructor.
  - inversion Ol as [|? ? Oy Ol']; subst.
    destruct (lt y x) eqn:E.
    + constructor; [apply IH, Ol'|].
      rewrite Forall_forall. intros z Hz.
      apply (Permutation_in _ (Permutation_sym (insert_perm x l))) in Hz.
      destruct Hz as [<-|Hz].
      * unfold not_after.
        destruct (lt x y) eqn:E2; [|reflexivity]. exfalso.
        apply Hlt in E, E2; auto.
        rewrite (cmp_antisym cmp Hcmp), E in E2. discriminate.
      * rewrite Forall_forall in Hy. apply Hy, Hz.
    + constructor; [constructor; assumption|].
      constructor; [exact E|].
      rewrite Forall_forall in Hy, Ol' |- *. intros z Hz.
      apply (not_after_trans x y z); auto.
Qed.

Lemma sorted_sorted (l : list A) :
  Forall ok l -> StronglySorted (not_after lt) (sorted lt l).
Proof.
  induction l as [|x l IH]; intros Ol; simpl; [constructor|].
  inversion Ol as [|? ? Ox Ol']; subst. apply insert_sorted; auto.
  rewrite Forall_forall in Ol' |- *.
  intros y Hy. apply Ol'. apply (proj1 (sorted_In l y)), Hy.
Qed.
End SortingFacts.

(** ** Relevance ranker *)

Module RankingFacts.
Import Ranking RankingSpec Samples.

Lemma fcmp_ordering : Ordering fcmp.
Proof.
  unfold fcmp.
  apply (pullback_ordering (lex Z.compare Z.compare)).
  apply lex_ordering; apply Z_ordering.
Qed.

Lemma compare_fcmp (x y : float) :
  is_nan x = false -> is_nan y = false ->
  PyFloat.compare x y = Some (fcmp x y).
Proof.
  destruct x as [|[]|a], y as [|[]|b]; simpl; try discriminate;
    intros _ _; reflexivity.
Qed.

Lemma kcmp_ordering : Ordering kcmp.
Proof.
  unfold kcmp. apply lex_ordering; [apply lex_ordering|].
  - apply (pullback_ordering fcmp fcmp_ordering exact).
  - apply fcmp_ordering.
  - apply string_ordering.
Qed.

Lemma key_lt_kcmp (k1 k2 : key) :
  key_ok k1 -> key_ok k2 -> key_lt k1 k2 = true <-> kcmp k1 k2 = Lt.
Proof.
  destruct k1 as [[s1 p1] n1], k2 as [[s2 p2] n2].
  unfold key_ok; simpl. intros [Hs1 Hp1] [Hs2 Hp2].
  unfold key_lt, PyNum.eqb, PyNum.ltb, PyNum.compare, PyFloat.eqb, PyFloat.ltb.
  rewrite (compare_fcmp _ _ Hs1 Hs2), (compare_fcmp _ _ Hp1 Hp2).
  unfold kcmp, lex; simpl.
  destruct (fcmp (exact s1) (exact s2)); simpl; try (split; congruence).
  destruct (fcmp p1 p2); simpl; try (split; congruence).
  unfold String.ltb. destruct (String.compare n1 n2); split; congruence.
Qed.

Lemma tied_kcmp (k1 k2 : key) :
  key_ok k1 -> key_ok k2 -> tied k1 k2 = true <-> kcmp k1 k2 = Eq.
Proof.
  intros O1 O2. unfold tied.
  pose proof (key_lt_kcmp k1 k2 O1 O2) as H12.
  pose proof (key_lt_kcmp k2 k1 O2 O1) as H21.
  rewrite (cmp_antisym kcmp kcmp_ordering k2 k1) in H21.
  destruct (key_lt k1 k2), (key_lt k2 k1), (kcmp k1 k2); simpl in *;
    intuition congruence.
Qed.

(** the key as the claim words it: score, then higher price, then name *)
Lemma key_lt_reads (k1 k2 : key) :
  key_lt k1 k2 = true <->
  PyNum.ltb (fst (fst k1)) (fst (fst k2)) = true
  \/ (PyNum.eqb (fst (fst k1)) (fst (fst k2)) = true
      /\ PyFloat.ltb (snd (fst k1)) (snd (fst k2)) = true)
  \/ (PyNum.eqb (fst (fst k1)) (fst (fst k2)) = true
      /\ PyFloat.eqb (snd (fst k1)) (snd (fst k2)) = true
      /\ String.ltb (snd k1) (snd k2) = true).
Proof.
  destruct k1 as [[s1 p1] n1], k2 as [[s2 p2] n2]; simpl.
  unfold PyNum.eqb, PyNum.ltb, PyFloat.eqb, PyFloat.ltb.
  destruct (PyNum.compare s1 s2) as [[]|]; simpl;
    destruct (PyFloat.compare p1 p2) as [[]|]; simpl;
    intuition congruence.
Qed.

Lemma neg_ltb (x y : float) :
  PyFloat.ltb (PyFloat.neg x) (PyFloat.neg y) = PyFloat.gtb x y.
Proof.
  unfold PyFloat.gtb, PyFloat.ltb.
  destruct x as [|[]|a], y as [|[]|b]; simpl; try reflexivity.
  rewrite Z.compare_opp. reflexivity.
Qed.

Lemma neg_eqb (x y : float) :
  PyFloat.eqb (PyFloat.neg x) (PyFloat.neg y) = PyFloat.eqb x y.
Proof.
  unfold PyFloat.eqb.
  destruct x as [|[]|a], y as [|[]|b]; simpl; try reflexivity.
  rewrite Z.compare_opp, (Z.compare_antisym a b).
  destruct (a ?= b); reflexivity.
Qed.

(** with a target size alone, the score is the outcome of the size step *)
Lemma relevance_score_only_size (target_size : Z) (product : Product) :
  relevance_score (only_size target_size) product
  = size_step (only_size target_size) product (NInt 1000).
Proof. reflexivity. Qed.

(** C1, as stated, fails on a size of zero: the name yields the size 0, the
    bag holds the target 5, and the score stays at the base score where the
    claim gives 15. *)
Lemma size_zero_counterexample :
  extract_size_from_name (get_name tv_0) = Some 0
  /\ size_inches (only_size 5) = Some 5
  /\ size_step (only_size 5) tv_0 (NInt 1000) = NInt 1000
  /\ size_score_of_difference (Z.abs (0 - 5)) = 15.
Proof. vm_compute. repeat split. Qed.

(** C1 (amended): when the name yields a size other than zero and the bag a
    target size other than zero, the size step scores the absolute
    difference: 0 for none, 10 plus it up to 5, 50 plus it beyond; so does
    the whole score under a size criterion alone, and "TV 45 inch" scores 0,
    15 and 65 for the targets 45, 50 and 60. *)
Theorem size_step_scores_difference
        (criteria : Criteria) (product : Product) (score : num)
        (product_size target_size : Z) :
  size_inches criteria = Some target_size ->
  extract_size_from_name (get_name product) = Some product_size ->
  target_size <> 0 ->
  product_size <> 0 ->
  size_step criteria product score
  = NInt (size_score_of_difference (Z.abs (product_size - target_size)))
  /\ relevance_score (only_size target_size) product
     = NInt (size_score_of_difference (Z.abs (product_size - target_size)))
  /\ relevance_score (only_size 45) tv_45 = NInt 0
  /\ relevance_score (only_size 50) tv_45 = NInt 15
  /\ relevance_score (only_size 60) tv_45 = NInt 65.
Proof.
  intros Ht Hn Ht0 Hn0.
  assert (forall c s, size_inches c = Some target_size ->
                      size_step c product s
                      = NInt (size_score_of_difference
                                (Z.abs (product_size - target_size)))) as H.
  { intros c s Hc. unfold size_step. rewrite Hc, Hn.
    destruct (Z.eqb_spec target_size 0); [contradiction|].
    destruct (Z.eqb_spec product_size 0); [contradiction|].
    unfold size_score_of_difference.
    destruct (Z.abs (product_size - target_size) =? 0); [reflexivity|].
    destruct (Z.abs (product_size - target_size) <=? 5); reflexivity. }
  split; [apply H, Ht|].
  split; [rewrite relevance_score_only_size; apply H; reflexivity|].
  repeat split; vm_compute; reflexivity.
Qed.

Lemma size_step_scores_difference_witness :
  size_step (only_size 50) tv_45 (NInt 1000) = NInt 15
  /\ relevance_score (only_size 50) tv_45 = NInt 15.
Proof.
  pose proof (size_step_scores_difference
                (only_size 50) tv_45 (NInt 1000) 45 50) as H.
  destruct H as [H1 [H2 _]];
    [reflexivity | vm_compute; reflexivity | discriminate | discriminate |].
  split; [exact H1 | exact H2].
Defined.

(** C3: without criteria, absent or an empty bag, the ranking returns the
    list it was given. *)
Theorem rank_without_criteria_is_identity (products : list Product) :
  rank_products_by_criteria products None = products
  /\ rank_products_by_criteria
       products (Some (mkCriteria None None None None None)) = products.
Proof.
  destruct products; split; reflexivity.
Qed.

(** the ranking with criteria is the stable sort by the key *)
Lemma rank_as_sorted (products : list Product) (c : Criteria) :
  criteria_is_empty (Some c) = false ->
  rank_products_by_criteria products (Some c)
  = sorted (fun a b => key_lt (calculate_relevance_score c a)
                              (calculate_relevance_score c b))
           products.
Proof.
  intros H. unfold rank_products_by_criteria. rewrite H.
  destruct products; reflexivity.
Qed.

(** C2, as stated, fails on a list that holds a price that is NaN: no
    comparison with the key of [tv_b] holds, the list stays as it is, and
    [tv_a] stands before [tv_c], which has the same score and the higher
    price. *)
Lemma rank_nan_price_counterexample :
  rank_products_by_criteria [tv_a; tv_b; tv_c] (Some (only_size 5))
  = [tv_a; tv_b; tv_c]
  /\ criteria_is_empty (Some (only_size 5)) = false
  /\ PyNum.eqb (relevance_score (only_size 5) tv_a)
               (relevance_score (only_size 5) tv_c) = true
  /\ PyFloat.gtb (get_price tv_c) (get_price tv_a) = true.
Proof. vm_compute. repeat split. Qed.

(** C2 (amended): when no key holds a NaN, the ranking under a non-empty
    criteria bag is a permutation of the products in ascending order of the
    key (score, negated price, name), products with tied keys keep their
    input order, and a key stands before another exactly when its score is
    lower, or the scores are equal and its price higher, or scores and
    prices are equal and its name lexicographically smaller. *)
Theorem rank_orders_by_key (products : list Product) (c : Criteria) :
  criteria_is_empty (Some c) = false ->
  Forall (fun p => key_ok (calculate_relevance_score c p)) products ->
  Permutation products (rank_products_by_criteria products (Some c))
  /\ StronglySorted
       (fun a b => key_lt (calculate_relevance_score c b)
                          (calculate_relevance_score c a) = false)
       (rank_products_by_criteria products (Some c))
  /\ (forall p, In p products ->
        filter (fun q => tied (calculate_relevance_score c p)
                              (calculate_relevance_score c q))
               (rank_products_by_criteria products (Some c))
        = filter (fun q => tied (calculate_relevance_score c p)
                                (calculate_relevance_score c q))
                 products)
  /\ (forall a b,
        key_lt (calculate_relevance_score c a)
               (calculate_relevance_score c b) = true <->
        PyNum.ltb (relevance_score c a) (relevance_score c b) = true
        \/ (PyNum.eqb (relevance_score c a) (relevance_score c b) = true
            /\ PyFloat.gtb (get_price a) (get_price b) = true)
        \/ (PyNum.eqb (relevance_score c a) (relevance_score c b) = true
            /\ PyFloat.eqb (get_price a) (get_price b) = true
            /\ String.ltb (get_name a) (get_name b) = true)).
Proof.
  intros Hc Hok. rewrite (rank_as_sorted products c Hc).
  set (key := calculate_relevance_score c).
  set (lt := fun a b => key_lt (key a) (key b)).
  assert (Ordering (fun a b => kcmp (key a) (key b))) as Hord
      by apply (pullback_ordering kcmp kcmp_ordering key).
  assert (forall a b, key_ok (key a) -> key_ok (key b) ->
                      lt a b = true <-> kcmp (key a) (key b) = Lt) as Hlt
      by (intros a b Oa Ob; apply key_lt_kcmp; assumption).
  split; [apply sorted_perm|].
  split; [apply (sorted_sorted lt _ (fun p => key_ok (key p)) Hord Hlt), Hok|].
  split.
  - intros p Hp. apply filter_sorted.
    rewrite Forall_forall in Hok.
    intros x y Hx Hy Tx Lyx.
    destruct (tied (key p) (key y)) eqn:Ty; [exfalso|reflexivity].
    apply tied_kcmp in Tx, Ty; auto.
    apply Hlt in Lyx; auto.
    rewrite <- (cmp_eq_l kcmp kcmp_ordering _ _ (key x) Ty) in Lyx.
    congruence.
  - intros a b. subst key. rewrite key_lt_reads.
    unfold calculate_relevance_score; simpl.
    rewrite neg_ltb, neg_eqb. reflexivity.
Qed.

Lemma rank_orders_by_key_witness :
  Permutation [tv_a; tv_c]
              (rank_products_by_criteria [tv_a; tv_c] (Some (only_size 5)))
  /\ rank_products_by_criteria [tv_a; tv_c] (Some (only_size 5))
     = [tv_c; tv_a].
Proof.
  split; [|vm_compute; reflexivity].
  apply (rank_orders_by_key [tv_a; tv_c] (only_size 5)).
  - reflexivity.
  - repeat constructor.
Defined.

End RankingFacts.

(** ** Cross-sell recommender *)

Module CrossSellFacts.
Import CrossSell CrossSellDb CrossSellSpec Samples.

Lemma mem_false_neq (x y : string) (xs : list string) :
  mem x xs = false -> In y xs -> x <> y.
Proof.
  unfold mem. intros H Hy ->.
  assert (existsb (String.eqb y) xs = true) as E.
  { apply existsb_exists. exists y. split; [exact Hy|apply String.eqb_refl]. }
  congruence.
Qed.

Lemma dedupe_from_incl (seen : list string) (items : list Item) (x : Item) :
  In x (dedupe_from seen items) -> In x items.
Proof.
  revert seen. induction items as [|item rest IH]; intros seen; simpl; auto.
  destruct (is_empty (i_sku item) || mem (i_sku item) seen); simpl.
  - intros H. right. eapply IH, H.
  - intros [H|H]; [left; exact H|right; eapply IH, H].
Qed.

Lemma push_suggestion_incl (st : state) (item x : Item) :
  In x (fst (push_suggestion st item)) -> In x (fst st) \/ x = item.
Proof.
  destruct st as [suggestions seen_skus]. unfold push_suggestion.
  destruct (is_empty (i_sku item) || mem (i_sku item) seen_skus); simpl; auto.
  intros H. apply in_app_or in H. destruct H as [H|[H|[]]]; auto.
Qed.

Lemma push_all_incl (items : list Item) (st : state) (x : Item) :
  In x (fst (push_all st items)) -> In x (fst st) \/ In x items.
Proof.
  unfold push_all. revert st.
  induction items as [|item rest IH]; intros st; simpl; auto.
  intros H. apply IH in H. destruct H as [H|H]; auto.
  apply push_suggestion_incl in H. destruct H as [H|H]; auto.
Qed.

Lemma sort_by_priority_incl (items : list Item) (x : Item) :
  In x (_sort_by_priority items) -> In x items.
Proof. apply sorted_In. Qed.

Lemma push_top_incl (candidates : list Item) (keep : Item -> bool)
      (st : state) (x : Item) :
  In x (fst (push_top candidates keep st)) ->
  In x (fst st) \/ In x candidates.
Proof.
  unfold push_top. intros H. apply push_all_incl in H.
  destruct H as [H|H]; auto. right.
  apply firstn_incl, sort_by_priority_incl, filter_In in H. tauto.
Qed.

Lemma grows_refl (eligible : list Item) (st : state) :
  grows_within eligible st st.
Proof. intros x H. auto. Qed.

Lemma grows_trans (eligible : list Item) (s1 s2 s3 : state) :
  grows_within eligible s1 s2 -> grows_within eligible s2 s3 ->
  grows_within eligible s1 s3.
Proof.
  intros H12 H23 x H. apply H23 in H. destruct H as [H|H]; auto.
Qed.

Lemma push_top_grows (eligible : list Item) (sel keep : Item -> bool)
      (st : state) :
  grows_within eligible st (push_top (filter sel eligible) keep st).
Proof.
  intros x H. apply push_top_incl in H. destruct H as [H|H]; auto.
  apply filter_In in H. tauto.
Qed.

Lemma cleaning_pass_grows (categories : list string) (has_screen_device : bool)
      (eligible : list Item) (st : state) :
  grows_within eligible st
               (cleaning_pass categories has_screen_device eligible st).
Proof.
  unfold cleaning_pass.
  destruct categories; [apply grows_refl|].
  destruct has_screen_device; [|apply grows_refl].
  intros x H. apply push_all_incl in H. destruct H as [H|H]; auto.
  apply firstn_incl, sort_by_priority_incl, filter_In in H. tauto.
Qed.

Lemma pc_pass_grows (cart_items : list CartItem) (categories : list string)
      (eligible : list Item) (st : state) :
  grows_within eligible st (pc_pass cart_items categories eligible st).
Proof.
  unfold pc_pass.
  destruct (mem "pc" categories); [|apply grows_refl].
  destruct (negb (_has_accessory_keyword cart_items ["usb-c"; "usb c"]));
    destruct (negb (_has_accessory_keyword cart_items ["charger"; "caricatore"]));
    repeat (first [apply grows_refl | apply push_top_grows
                   | eapply grows_trans; [|apply push_top_grows]]).
Qed.

Lemma tv_pass_grows (cart_items : list CartItem) (categories : list string)
      (normalized_cart_text : string) (eligible : list Item) (st : state) :
  grows_within eligible st
               (tv_pass cart_items categories normalized_cart_text eligible st).
Proof.
  unfold tv_pass.
  destruct (mem "tv" categories); [|apply grows_refl].
  repeat match goal with
         | |- context [if ?b then _ else _] => destruct b
         end;
    repeat (first [apply grows_refl | apply push_top_grows
                   | eapply grows_trans; [|apply push_top_grows]]).
Qed.

Lemma scored_pass_grows (categories : list string) (has_screen_device : bool)
      (eligible : list Item) (st : state) :
  grows_within eligible st
               (scored_pass categories has_screen_device eligible st).
Proof.
  unfold scored_pass. intros x H. apply push_all_incl in H.
  destruct H as [H|H]; auto. right.
  apply in_map_iff in H. destruct H as [[y sc] [<- H]]. simpl.
  apply sorted_In, in_map_iff in H. destruct H as [z [E H]].
  inversion E; subst. apply filter_In in H. tauto.
Qed.

Lemma suggestions_eligible (cart_items : list CartItem) (catalog : list Item)
      (max_results : Z) (x : Item) :
  In x (_get_cross_sell_suggestions cart_items catalog max_results) ->
  In x (eligible_items cart_items catalog).
Proof.
  unfold _get_cross_sell_suggestions.
  destruct cart_items as [|ci cis]; [intros []|].
  destruct catalog as [|it its]; [intros []|].
  destruct (_get_cart_category_intent (ci :: cis)) as [categories screen].
  intros H. apply slice_to_incl in H.
  set (eligible := eligible_items (ci :: cis) (it :: its)) in *.
  assert (grows_within eligible ([], []) ([], [])) as G0 by apply grows_refl.
  pose proof (cleaning_pass_grows categories screen eligible ([], [])) as G1.
  pose proof (pc_pass_grows (ci :: cis) categories eligible
                (cleaning_pass categories screen eligible ([], []))) as G2.
  pose proof (tv_pass_grows (ci :: cis) categories
                (_normalize_text (_collect_cart_text (ci :: cis))) eligible
                (pc_pass (ci :: cis) categories eligible
                   (cleaning_pass categories screen eligible ([], [])))) as G3.
  pose proof (scored_pass_grows categories screen eligible
                (tv_pass (ci :: cis) categories
                   (_normalize_text (_collect_cart_text (ci :: cis))) eligible
                   (pc_pass (ci :: cis) categories eligible
                      (cleaning_pass categories screen eligible ([], [])))))
    as G4.
  apply G4 in H. destruct H as [H|H]; auto.
  apply G3 in H. destruct H as [H|H]; auto.
  apply G2 in H. destruct H as [H|H]; auto.
  apply G1 in H. destruct H as [[]|H]; auto.
Qed.

Lemma eligible_not_in_cart (cart_items : list CartItem) (catalog : list Item)
      (x : Item) (cart_item : CartItem) :
  In x (eligible_items cart_items catalog) ->
  In cart_item cart_items ->
  id cart_item <> "" -> name cart_item <> "" ->
  ~ already_in_cart x cart_item.
Proof.
  unfold eligible_items, _get_cart_identifiers, _dedupe_by_sku.
  intros H Hc Hid Hname.
  apply dedupe_from_incl, filter_In in H. destruct H as [_ H].
  apply andb_true_iff in H. destruct H as [H Hn].
  apply andb_true_iff in H. destruct H as [Hs Hi].
  apply negb_true_iff in Hs, Hi, Hn.
  assert (In (_normalize_text (id cart_item))
             (map (fun item => _normalize_text (id item))
                  (filter (fun item => negb (is_empty (id item))) cart_items)))
    as Iid.
  { apply in_map_iff. exists cart_item. split; [reflexivity|].
    apply filter_In. split; [exact Hc|].
    destruct (id cart_item); [congruence|reflexivity]. }
  assert (In (_normalize_text (name cart_item))
             (map (fun item => _normalize_text (name item))
                  (filter (fun item => negb (is_empty (name item))) cart_items)))
    as Iname.
  { apply in_map_iff. exists cart_item. split; [reflexivity|].
    apply filter_In. split; [exact Hc|].
    destruct (name cart_item); [congruence|reflexivity]. }
  intros [E|[E|E]].
  - exact (mem_false_neq _ _ _ Hs Iid E).
  - exact (mem_false_neq _ _ _ Hi Iid E).
  - exact (mem_false_neq _ _ _ Hn Iname E).
Qed.

Lemma from_db_incl (cart_items : list CartItem) (products : list Product)
      (max_results : Z) (x : Item) :
  In x (_get_cross_sell_suggestions_from_db cart_items products max_results) ->
  exists catalog,
    In x (_get_cross_sell_suggestions cart_items catalog max_results).
Proof.
  unfold _get_cross_sell_suggestions_from_db.
  destruct cart_items as [|ci cis]; [intros []|].
  destruct products as [|p ps]; [intros []|].
  destruct (_detect_cart_intent_from_products _) as [categories screen].
  intros H. apply slice_to_incl in H.
  eexists. destruct screen; [apply filter_In in H; destruct H as [H _]|];
    exact H.
Qed.

Lemma recommendations_incl (cart_items : list CartItem)
      (products : list Product) (max_results : Z) (x : Item) :
  In x (cross_sell_recommendations cart_items products max_results) ->
  exists catalog,
    In x (_get_cross_sell_suggestions cart_items catalog max_results).
Proof.
  unfold cross_sell_recommendations.
  destruct products as [|p ps]; [intros H; eexists; exact H|].
  destruct (_get_cross_sell_suggestions_from_db _ _ _) eqn:E.
  - intros H; eexists; exact H.
  - intros H. rewrite <- E in H. eapply from_db_incl, H.
Qed.

(** C5: no suggestion, of the recommender over a catalog, over the live
    products or of the tool with its fallback, matches the identifier or
    the name of an item of the cart. *)
Theorem suggestions_exclude_cart
        (cart_items : list CartItem) (catalog : list Item)
        (products : list Product) (max_results : Z)
        (item : Item) (cart_item : CartItem) :
  In cart_item cart_items ->
  id cart_item <> "" ->
  name cart_item <> "" ->
  In item (_get_cross_sell_suggestions cart_items catalog max_results)
  \/ In item (_get_cross_sell_suggestions_from_db cart_items products
                                                  max_results)
  \/ In item (cross_sell_recommendations cart_items products max_results) ->
  ~ already_in_cart item cart_item.
Proof.
  intros Hc Hid Hname H.
  assert (exists cat,
             In item (_get_cross_sell_suggestions cart_items cat max_results))
    as [cat Hcat].
  { destruct H as [H|[H|H]].
    - eexists; exact H.
    - eapply from_db_incl, H.
    - eapply recommendations_incl, H. }
  eapply eligible_not_in_cart; eauto using suggestions_eligible.
Qed.

Lemma suggestions_exclude_cart_witness :
  map i_sku (cross_sell_recommendations [cart_tv; cart_hdmi] [] 3)
  = ["CS-CLEAN-CLOTH-01"; "CS-CLEAN-SPRAY-01"; "CS-REMOTE-01"]
  /\ Forall (fun item => ~ already_in_cart item cart_hdmi)
            (cross_sell_recommendations [cart_tv; cart_hdmi] [] 3).
Proof.
  split; [vm_compute; reflexivity|].
  apply Forall_forall. intros item H.
  apply (suggestions_exclude_cart
           [cart_tv; cart_hdmi] [] [] 3 item cart_hdmi).
  - right; left; reflexivity.
  - discriminate.
  - discriminate.
  - right; right; exact H.
Defined.

(** C5, read as excluding every match of SKU, identifier or name with a
    cart identifier or name, fails: the code compares SKU and identifier
    with the cart identifiers and the name with the cart names only.  A
    cart line named after the SKU of the HDMI cable does not keep that
    cable out of the suggestions. *)
Lemma cart_name_matches_sku_counterexample :
  map i_sku (cross_sell_recommendations [cart_tv; cart_named_sku] [] 8)
  = ["CS-CLEAN-CLOTH-01"; "CS-CLEAN-SPRAY-01"; "CS-REMOTE-01";
     "CS-MOUNT-01"; "CS-HDMI-01"; "CS-UPS-01"]
  /\ Exists (fun item => matches_cart_item item cart_named_sku)
            (cross_sell_recommendations [cart_tv; cart_named_sku] [] 8)
  /\ _normalize_text "CS-HDMI-01" = _normalize_text (name cart_named_sku)
  /\ id cart_named_sku <> "" /\ name cart_named_sku <> "".
Proof.
  split; [vm_compute; reflexivity|]. split.
  - apply Exists_exists.
    exists (mkItem "cs-hdmi-01" "CS-HDMI-01"
                   "Cavo HDMI 2.1 ad alta velocita" (price 249 10) ""
                   ["hdmi"; CROSS_SELL_POPULAR_TAG] ["tv"] 82 []).
    split.
    + vm_compute. do 4 right. left. reflexivity.
    + right. left. reflexivity.
  - split; [reflexivity|]. split; discriminate.
Qed.

(** C6: for a requested count that is not negative, each of the three
    entry points returns at most that many suggestions. *)
Theorem suggestions_at_most_max_results
        (cart_items : list CartItem) (catalog : list Item)
        (products : list Product) (max_results : Z) :
  0 <= max_results ->
  Z.of_nat (List.length
              (_get_cross_sell_suggestions cart_items catalog max_results))
  <= max_results
  /\ Z.of_nat (List.length
                 (_get_cross_sell_suggestions_from_db cart_items products
                                                      max_results))
     <= max_results
  /\ Z.of_nat (List.length
                 (cross_sell_recommendations cart_items products max_results))
     <= max_results.
Proof.
  intros Hm.
  assert (forall cat,
             Z.of_nat (List.length
                         (_get_cross_sell_suggestions cart_items cat
                                                      max_results))
             <= max_results) as Hs.
  { intros cat. unfold _get_cross_sell_suggestions.
    destruct cart_items; [simpl; lia|].
    destruct cat; [simpl; lia|].
    destruct (_get_cart_category_intent _).
    apply slice_to_length, Hm. }
  assert (Z.of_nat (List.length
                      (_get_cross_sell_suggestions_from_db
                         cart_items products max_results))
          <= max_results) as Hd.
  { unfold _get_cross_sell_suggestions_from_db.
    destruct cart_items; [simpl; lia|].
    destruct products; [simpl; lia|].
    destruct (_detect_cart_intent_from_products _).
    apply slice_to_length, Hm. }
  split; [apply Hs|]. split; [exact Hd|].
  unfold cross_sell_recommendations.
  destruct products; [apply Hs|].
  destruct (_get_cross_sell_suggestions_from_db _ _ _) eqn:E;
    [apply Hs|exact Hd].
Qed.

Lemma suggestions_at_most_max_results_witness :
  Z.of_nat (List.length
              (cross_sell_recommendations [cart_tv; cart_hdmi] [] 1)) <= 1.
Proof.
  apply (suggestions_at_most_max_results
           [cart_tv; cart_hdmi] [] [] 1).
  lia.
Defined.

End CrossSellFacts.

(** ** Rounding to binary64 *)

Module FloatFacts.
Import PyFloat FloatSpec.

Lemma rne_lower (n d c : Z) : 0 < d -> c * d <= n -> c <= rne n d.
Proof.
  intros Hd H. unfold rne.
  assert (c <= n / d) as Hq by (apply Z.div_le_lower_bound; lia).
  destruct (2 * (n mod d) ?= d); [destruct (Z.even (n / d))| |]; lia.
Qed.

Lemma rne_upper (n d c : Z) : 0 < d -> n <= c * d -> rne n d <= c.
Proof.
  intros Hd H. unfold rne.
  pose proof (Z.div_mod n d ltac:(lia)) as E.
  pose proof (Z.mod_pos_bound n d Hd) as B.
  assert (n / d <= c) as Hq by nia.
  destruct (Z.compare_spec (2 * (n mod d)) d) as [C|C|C];
    [destruct (Z.even (n / d))| |]; try lia; nia.
Qed.

Lemma pow2_pos (e : Z) : 0 <= e -> 0 < 2 ^ e.
Proof. intros. apply Z.pow_pos_nonneg; lia. Qed.

Lemma pow2_split (j e : Z) : 0 <= e <= j -> 2 ^ j = 2 ^ (j - e) * 2 ^ e.
Proof.
  intros H. rewrite <- Z.pow_add_r by lia. f_equal. lia.
Qed.

(** the exponent of the rounding, when it is not zero, is 52 below the
    binary logarithm of the quotient *)
Lemma exponent_above (n d e : Z) :
  0 < d -> 0 <= n ->
  e = Z.max 0 (Z.log2 (n / d) - 52) -> 0 < e ->
  2 ^ (52 + e) * d <= n.
Proof.
  intros Hd Hn He Hpos.
  assert (Z.log2 (n / d) = 52 + e) as HL by lia.
  assert (0 < n / d) as Hq.
  { destruct (Z.eq_dec (n / d) 0) as [Z0|NZ].
    - rewrite Z0 in HL. change (Z.log2 0) with 0 in HL. lia.
    - pose proof (Z.div_pos n d Hn Hd). lia. }
  pose proof (Z.log2_spec (n / d) Hq) as [Hlo _].
  rewrite HL in Hlo.
  apply Z.le_trans with (d * (n / d)); [|apply Z.mul_div_le, Hd].
  rewrite Z.mul_comm. apply Z.mul_le_mono_nonneg_l; lia.
Qed.

Lemma round_mag_upper (n d y : Z) :
  0 < d -> 0 <= n -> representable y -> n <= y * d -> round_mag n d <= y.
Proof.
  intros Hd Hn (m & j & Hm & Hj & ->) H. unfold round_mag.
  set (e := Z.max 0 (Z.log2 (n / d) - 52)).
  assert (0 <= e) as He by (unfold e; lia).
  pose proof (pow2_pos e He) as Pe.
  destruct (Z_le_gt_dec e j) as [Le|Gt].
  - rewrite (pow2_split j e) by lia.
    rewrite Z.mul_assoc. apply Z.mul_le_mono_nonneg_r; [lia|].
    apply rne_upper; [nia|].
    rewrite (pow2_split j e) in H by lia. nia.
  - exfalso.
    pose proof (exponent_above n d e Hd Hn eq_refl ltac:(lia)) as Ha.
    assert (2 ^ (53 + j) <= 2 ^ (52 + e)) as Hp
        by (apply Z.pow_le_mono_r; lia).
    rewrite Z.pow_add_r in Hp by lia.
    pose proof (pow2_pos j Hj) as Pj.
    assert (m * 2 ^ j < 2 ^ (52 + e)) as Hlt.
    { apply Z.lt_le_trans with (2 ^ 53 * 2 ^ j); [|exact Hp].
      apply Z.mul_lt_mono_pos_r; lia. }
    assert (m * 2 ^ j * d < 2 ^ (52 + e) * d)
      by (apply Z.mul_lt_mono_pos_r; lia).
    lia.
Qed.

Lemma round_mag_lower (n d y : Z) :
  0 < d -> 0 <= n -> representable y -> y * d <= n -> y <= round_mag n d.
Proof.
  intros Hd Hn (m & j & Hm & Hj & ->) H. unfold round_mag.
  set (e := Z.max 0 (Z.log2 (n / d) - 52)).
  assert (0 <= e) as He by (unfold e; lia).
  pose proof (pow2_pos e He) as Pe.
  destruct (Z_le_gt_dec e j) as [Le|Gt].
  - rewrite (pow2_split j e) by lia.
    rewrite Z.mul_assoc. apply Z.mul_le_mono_nonneg_r; [lia|].
    apply rne_lower; [nia|].
    rewrite (pow2_split j e) in H by lia. nia.
  - pose proof (exponent_above n d e Hd Hn eq_refl ltac:(lia)) as Ha.
    assert (2 ^ 52 <= rne n (d * 2 ^ e)) as Hr.
    { apply rne_lower; [nia|]. rewrite Z.pow_add_r in Ha by lia. nia. }
    assert (2 ^ (53 + j) <= 2 ^ (52 + e)) as Hp
        by (apply Z.pow_le_mono_r; lia).
    rewrite (Z.pow_add_r 2 53 j), (Z.pow_add_r 2 52 e) in Hp by lia.
    pose proof (pow2_pos j Hj) as Pj.
    assert (m * 2 ^ j < 2 ^ 53 * 2 ^ j)
      by (apply Z.mul_lt_mono_pos_r; lia).
    assert (2 ^ 52 * 2 ^ e <= rne n (d * 2 ^ e) * 2 ^ e)
      by (apply Z.mul_le_mono_nonneg_r; lia).
    lia.
Qed.

(** a quotient between two representable magnitudes rounds to a finite
    float between them *)
Lemma round_ratio_between (n d lo hi : Z) :
  0 < d -> 0 <= n -> representable lo -> representable hi ->
  0 <= lo -> hi < huge ->
  lo * d <= n <= hi * d ->
  exists v, round_ratio n d = Fin v /\ lo <= v <= hi.
Proof.
  intros Hd Hn Rlo Rhi Hlo Hhi [H1 H2]. unfold round_ratio.
  rewrite (Z.abs_eq n Hn).
  pose proof (round_mag_upper n d hi Hd Hn Rhi H2) as U.
  pose proof (round_mag_lower n d lo Hd Hn Rlo H1) as L.
  destruct (Z.leb_spec huge (round_mag n d)); [lia|].
  destruct (Z.eq_dec n 0) as [->|NZ].
  - exists 0. split; [reflexivity|].
    assert (lo = 0) by nia. subst lo.
    compute in L. lia.
  - exists (round_mag n d). split; [|lia].
    rewrite (Z.sgn_pos n) by lia. f_equal. lia.
Qed.

Lemma representable_small (m j : Z) :
  0 <= m < 2 ^ 53 -> 0 <= j -> representable (m * 2 ^ j).
Proof. intros. exists m, j. auto. Qed.

(** [float(z)] is exact below [2 ^ 53] *)
Lemma of_Z_exact (z : Z) : 0 <= z < 2 ^ 53 -> of_Z z = Fin (z * one).
Proof.
  intros Hz. unfold of_Z.
  assert (representable (z * one)) as R
      by (apply representable_small; [exact Hz|lia]).
  destruct (round_ratio_between (z * one) 1 (z * one) (z * one))
    as (v & E & B); try assumption; try lia.
  - unfold one. pose proof (pow2_pos 1074). lia.
  - unfold one. pose proof (pow2_pos 1074). lia.
  - unfold huge, one.
    replace 2098 with (1024 + 1074) by lia.
    rewrite Z.pow_add_r by lia.
    pose proof (pow2_pos 1074).
    assert (2 ^ 53 <= 2 ^ 1024) by (apply Z.pow_le_mono_r; lia). nia.
  - rewrite E. f_equal. lia.
Qed.

End FloatFacts.

(** ** Checkout totals *)

Module CheckoutFacts.
Import PyFloat FloatSpec FloatFacts Checkout CheckoutSpec Samples.

Lemma one_pos : 0 < one.
Proof. unfold one. apply pow2_pos. lia. Qed.

Lemma below_huge (y : Z) : y < 2 ^ 53 * one -> y < huge.
Proof.
  intros H. unfold huge, one in *.
  replace 2098 with (1024 + 1074) by lia.
  rewrite Z.pow_add_r by lia.
  pose proof (pow2_pos 1074).
  assert (2 ^ 53 <= 2 ^ 1024) by (apply Z.pow_le_mono_r; lia). nia.
Qed.

(** the float literal [0.10] is 3602879701896397 / 2 ^ 55 *)
Lemma f_0_10_value : f_0_10 = Fin (3602879701896397 * 2 ^ 1019).
Proof. vm_compute. reflexivity. Qed.

Lemma f_100_value : f_100 = Fin (100 * one).
Proof. apply of_Z_exact. lia. Qed.

Lemma f_50_value : f_50 = Fin (50 * one).
Proof. apply of_Z_exact. lia. Qed.

Lemma one_split (j : Z) : 0 <= j <= 1074 -> one = 2 ^ (1074 - j) * 2 ^ j.
Proof. intros H. unfold one. apply pow2_split. lia. Qed.

(** [int(subtotal * 0.10)] is the tenth of the subtotal, rounded down, for
    subtotals below [2 ^ 51] *)
Lemma ten_percent_exact (subtotal : Z) :
  0 <= subtotal < 2 ^ 51 -> ten_percent subtotal = inr (subtotal / 10).
Proof.
  intros Hs. unfold ten_percent, float_of_int.
  rewrite of_Z_exact by lia. rewrite f_0_10_value. unfold PyFloat.mul.
  set (k := subtotal / 10).
  pose proof (Z.div_mod subtotal 10 ltac:(lia)) as E.
  pose proof (Z.mod_pos_bound subtotal 10 ltac:(lia)) as B.
  fold k in E.
  pose proof one_pos as P1.
  assert (0 <= k < 2 ^ 48) as Hk by lia.
  set (u := 2 ^ 1019).
  assert (0 < u) as Pu by (apply pow2_pos; lia).
  assert (one = 2 ^ 55 * u) as E1 by (apply (one_split 1019); lia).
  set (w := 2 ^ 1070).
  assert (0 < w) as Pw by (apply pow2_pos; lia).
  assert (one = 16 * w) as E2 by (apply (one_split 1070); lia).
  assert (w = 2 ^ 51 * u) as E3.
  { unfold w, u. rewrite <- Z.pow_add_r by lia. reflexivity. }
  destruct (round_ratio_between
              (subtotal * one * (3602879701896397 * u)) one
              (k * one) ((16 * k + 15) * w))
    as (v & Ev & Bv).
  - exact P1.
  - nia.
  - apply representable_small; lia.
  - apply representable_small; lia.
  - nia.
  - apply below_huge. rewrite E2. nia.
  - split.
    + rewrite E1 at 2. nia.
    + rewrite E3. rewrite E1 at 1. nia.
  - rewrite Ev. simpl. f_equal.
    rewrite E2 in Bv |- *.
    symmetry. apply Z.quot_unique with (v - k * (16 * w)); lia.
Qed.

(** [(subtotal / 100.0) < 50.0] says that the subtotal is below 5000 *)
Lemma below_free_shipping_exact (subtotal : Z) :
  0 <= subtotal < 2 ^ 53 ->
  below_free_shipping subtotal = inr (subtotal <? 5000).
Proof.
  intros Hs. unfold below_free_shipping, float_of_int.
  rewrite of_Z_exact by lia. rewrite f_100_value, f_50_value.
  unfold PyFloat.div.
  pose proof one_pos as P1.
  destruct (Z.eqb_spec (100 * one) 0) as [Z0|_]; [lia|].
  rewrite (Z.sgn_pos (100 * one)) by lia.
  rewrite (Z.abs_eq (100 * one)) by lia.
  set (w := 2 ^ 1067).
  assert (0 < w) as Pw by (apply pow2_pos; lia).
  assert (one = 128 * w) as E2 by (apply (one_split 1067); lia).
  f_equal. unfold PyFloat.ltb, PyFloat.compare.
  destruct (Z.ltb_spec subtotal 5000) as [Lt|Ge].
  - destruct (round_ratio_between
                (1 * (subtotal * one) * one) (100 * one) 0 (6399 * w))
      as (v & Ev & Bv).
    + lia.
    + nia.
    + exists 0, 0. lia.
    + apply representable_small; lia.
    + lia.
    + apply below_huge. rewrite E2. nia.
    + split; [nia|]. rewrite E2. nia.
    + rewrite Ev. destruct (Z.compare_spec v (50 * one)); [lia| reflexivity |lia].
  - destruct (round_ratio_between
                (1 * (subtotal * one) * one) (100 * one)
                (50 * one) ((2 ^ 53 - 1) * one))
      as (v & Ev & Bv).
    + lia.
    + nia.
    + apply representable_small; lia.
    + apply representable_small; lia.
    + lia.
    + apply below_huge. nia.
    + split; nia.
    + rewrite Ev. destruct (Z.compare_spec v (50 * one)); [reflexivity|lia|reflexivity].
Qed.

Lemma round_ratio_cases (n d : Z) :
  (exists s, round_ratio n d = Inf s) \/ (exists v, round_ratio n d = Fin v).
Proof.
  unfold round_ratio. destruct (huge <=? round_mag (Z.abs n) d); eauto.
Qed.

(** the two float computations never raise a [ValueError] *)
Lemma ten_percent_no_value_error (subtotal : Z) (item_name : string) :
  ten_percent subtotal <> inl (ValueError item_name).
Proof.
  unfold ten_percent, float_of_int, of_Z.
  destruct (round_ratio_cases (subtotal * one) 1) as [[b E]|[v E]];
    rewrite E; [discriminate|].
  rewrite f_0_10_value. unfold PyFloat.mul.
  destruct (round_ratio_cases (v * (3602879701896397 * 2 ^ 1019)) one)
    as [[b E2]|[v2 E2]]; rewrite E2; unfold int_of_float; discriminate.
Qed.

Lemma below_free_shipping_no_value_error (subtotal : Z) (item_name : string) :
  below_free_shipping subtotal <> inl (ValueError item_name).
Proof.
  unfold below_free_shipping, float_of_int, of_Z.
  destruct (round_ratio_cases (subtotal * one) 1) as [[b E]|[v E]];
    rewrite E; discriminate.
Qed.

Lemma converts_minor (currency : string) (item : CartItem) :
  converts currency item ->
  _to_minor_amount (unit_amount_major item) currency
  = inr (minor_of currency item).
Proof.
  intros [m E]. unfold minor_of. rewrite E. reflexivity.
Qed.

(** the loop over the items succeeds when every amount is positive *)
Lemma sum_items_ok (currency : string) (items : list CartItem) (acc : Z) :
  Forall (converts currency) items ->
  Forall (fun item => 0 < minor_of currency item) items ->
  sum_items items currency acc = inr (acc + subtotal_of currency items).
Proof.
  revert acc. induction items as [|item rest IH]; intros acc Hc Hp; simpl.
  - f_equal. lia.
  - inversion Hc as [|? ? Hc1 Hc2]; inversion Hp as [|? ? Hp1 Hp2]; subst.
    rewrite (converts_minor _ _ Hc1).
    destruct (Z.leb_spec (minor_of currency item) 0); [lia|].
    rewrite IH by assumption. f_equal. lia.
Qed.

(** and stops at the first amount that is not *)
Lemma sum_items_bad (currency : string) (items : list CartItem) (acc : Z) :
  Forall (converts currency) items ->
  Exists (fun item => minor_of currency item <= 0) items ->
  exists item,
    In item items /\ minor_of currency item <= 0
    /\ sum_items items currency acc = inl (ValueError (name item)).
Proof.
  revert acc. induction items as [|item rest IH]; intros acc Hc Hb.
  - inversion Hb.
  - inversion Hc as [|? ? Hc1 Hc2]; subst. simpl.
    rewrite (converts_minor _ _ Hc1).
    destruct (Z.leb_spec (minor_of currency item) 0) as [Le|Gt].
    + exists item. simpl. auto.
    + inversion Hb as [? ? Hb1|? ? Hb2]; subst; [lia|].
      destruct (IH (acc + minor_of currency item * quantity item) Hc2 Hb2)
        as (bad & Hin & Hle & E).
      exists bad. simpl. auto.
Qed.

Lemma subtotal_nonneg (currency : string) (items : list CartItem) :
  Forall (fun item => 0 < minor_of currency item) items ->
  Forall (fun item => 0 < quantity item) items ->
  0 <= subtotal_of currency items.
Proof.
  induction items as [|item rest IH]; intros Hp Hq; simpl; [lia|].
  inversion Hp; inversion Hq; subst.
  specialize (IH ltac:(assumption) ltac:(assumption)). nia.
Qed.

(** C10, as stated, fails on an amount beyond the precision of the decimal
    context: 1e+26 EUR has no minor amount, the call ends in
    [InvalidOperation], which is neither the [ValueError] nor a totals
    record, and no unit amount converted to a non-positive minor amount. *)
Lemma checkout_precision_counterexample :
  _compute_checkout_totals [item_huge] "eur" None = inl InvalidOperation
  /\ _to_minor_amount (unit_amount_major item_huge) "eur"
     = inl InvalidOperation.
Proof. vm_compute. split; reflexivity. Qed.

(** C10 (amended): when every unit amount fits the precision of the decimal
    context and every quantity is positive, the call ends in the
    [ValueError] (for the first such item) exactly when some unit amount
    converts to a minor amount that is not positive; otherwise, for a
    subtotal below [2 ^ 51], it returns the totals with tax 0, the tenth of
    the subtotal rounded down as discount exactly when the promo code is
    WELCOME10 in any case, 500 as shipping exactly when the currency is EUR
    in any case and the subtotal is below 5000, and
    max(0, subtotal - discount) + shipping as grand total. *)
Theorem compute_checkout_totals_spec
        (items : list CartItem) (currency : string)
        (promo_code : option string) :
  Forall (converts currency) items ->
  Forall (fun item => 0 < quantity item) items ->
  ((exists item_name,
       _compute_checkout_totals items currency promo_code
       = inl (ValueError item_name))
   <-> Exists (fun item => minor_of currency item <= 0) items)
  /\ (Exists (fun item => minor_of currency item <= 0) items ->
      exists item,
        In item items /\ minor_of currency item <= 0
        /\ _compute_checkout_totals items currency promo_code
           = inl (ValueError (name item)))
  /\ (Forall (fun item => 0 < minor_of currency item) items ->
      subtotal_of currency items < 2 ^ 51 ->
      _compute_checkout_totals items currency promo_code
      = inr (expected_totals items currency promo_code)).
Proof.
  intros Hc Hq.
  assert (Exists (fun item => minor_of currency item <= 0) items ->
          exists item,
            In item items /\ minor_of currency item <= 0
            /\ _compute_checkout_totals items currency promo_code
               = inl (ValueError (name item))) as Hbad.
  { intros Hb.
    destruct (sum_items_bad currency items 0 Hc Hb) as (bad & Hin & Hle & E).
    exists bad. repeat split; auto.
    unfold _compute_checkout_totals. rewrite E. reflexivity. }
  assert (Forall (fun item => 0 < minor_of currency item) items ->
          exists subtotal,
            sum_items items currency 0 = inr subtotal
            /\ subtotal = subtotal_of currency items) as Hsum.
  { intros Hp. eexists. split; [apply sum_items_ok; assumption|]. lia. }
  split; [split|split].
  - intros [item_name E].
    destruct (Exists_dec (fun item => minor_of currency item <= 0) items)
      as [Hb|Hn]; [intros x; apply Z_le_dec|exact Hb|].
    exfalso.
    assert (Forall (fun item => 0 < minor_of currency item) items) as Hp.
    { apply Forall_forall. intros x Hx.
      destruct (Z_lt_le_dec 0 (minor_of currency x)); [assumption|].
      exfalso. apply Hn. apply Exists_exists. eauto. }
    destruct (Hsum Hp) as (subtotal & Es & Esub).
    unfold _compute_checkout_totals in E. rewrite Es in E.
    destruct (if promo_applies promo_code then ten_percent subtotal
              else inr 0) as [e|discount] eqn:Ed.
    + destruct (promo_applies promo_code); [|discriminate].
      injection E as ->. exact (ten_percent_no_value_error _ _ Ed).
    + destruct (if String.eqb (upper currency) "EUR"
                then below_free_shipping subtotal else inr false)
        as [e|below] eqn:Eb; [|discriminate].
      destruct (String.eqb (upper currency) "EUR"); [|discriminate].
      injection E as ->. exact (below_free_shipping_no_value_error _ _ Eb).
  - intros Hb. destruct (Hbad Hb) as (bad & _ & _ & E). eauto.
  - exact Hbad.
  - intros Hp Hlt.
    destruct (Hsum Hp) as (subtotal & Es & Esub).
    pose proof (subtotal_nonneg currency items Hp Hq) as Hnn.
    unfold _compute_checkout_totals, expected_totals. rewrite Es.
    rewrite <- Esub.
    assert ((if promo_applies promo_code then ten_percent subtotal
             else inr 0)
            = inr (match promo_code with
                   | Some code =>
                       if String.eqb (upper code) "WELCOME10"
                       then subtotal / 10 else 0
                   | None => 0
                   end)) as Ed.
    { unfold promo_applies. destruct promo_code as [code|]; [|reflexivity].
      destruct code as [|c code]; [reflexivity|].
      simpl negb. rewrite andb_true_l.
      destruct (String.eqb (upper (String c code)) "WELCOME10");
        [apply ten_percent_exact; lia|reflexivity]. }
    rewrite Ed.
    destruct (String.eqb (upper currency) "EUR"); simpl andb.
    + rewrite below_free_shipping_exact by lia.
      f_equal. f_equal.
      match goal with |- context [subtotal - ?d] => generalize d end.
      intros d. destruct (subtotal <? 5000); lia.
    + f_equal. f_equal.
      match goal with |- context [subtotal - ?d] => generalize d end.
      intros d. lia.
Qed.

Lemma compute_checkout_totals_spec_witness :
  _compute_checkout_totals [item_cable] "eur" (Some "welcome10")
  = inr (mkTotals 3998 399 0 500 4099 "EUR")
  /\ (exists item,
         In item [item_cable; item_dust] /\ minor_of "eur" item <= 0
         /\ _compute_checkout_totals [item_cable; item_dust] "eur" None
            = inl (ValueError (name item))).
Proof.
  split.
  - pose proof (compute_checkout_totals_spec
                  [item_cable] "eur" (Some "welcome10")) as H.
    destruct H as (_ & _ & H).
    + repeat constructor. exists 1999. vm_compute. reflexivity.
    + repeat constructor.
    + rewrite H; [vm_compute; reflexivity| |vm_compute; reflexivity].
      repeat constructor.
  - pose proof (compute_checkout_totals_spec
                  [item_cable; item_dust] "eur" None) as H.
    destruct H as (_ & H & _).
    + repeat constructor; [exists 1999|exists 0]; vm_compute; reflexivity.
    + repeat constructor.
    + apply H. apply Exists_cons_tl, Exists_cons_hd.
      vm_compute. discriminate.
Defined.

(** C8: 10.005 EUR is 1001 minor units, rounded half up at two decimal
    places, and 100 JPY is 100; in general an amount of [c] thousandths of
    a two-decimal currency unit is (c + 5) / 10 minor units. *)
Theorem to_minor_amount_half_up :
  _to_minor_amount (mkDecimal 10005 (-3)) "eur" = inr 1001
  /\ _to_minor_amount (mkDecimal 100 0) "jpy" = inr 100
  /\ (forall c, 0 <= c < 10 ^ 28 ->
        _to_minor_amount (mkDecimal c (-3)) "eur" = inr ((c + 5) / 10)).
Proof.
  split; [vm_compute; reflexivity|].
  split; [vm_compute; reflexivity|].
  intros c Hc. unfold _to_minor_amount.
  change (_currency_exponent "eur") with 2.
  unfold quantize, prec. cbn [coefficient exponent].
  change (-3 + 2) with (-1). change (0 <=? -1) with false.
  change (- -1) with 1. change (10 ^ 1) with 10. cbv iota.
  pose proof (Z.div_mod c 10 ltac:(lia)) as E.
  pose proof (Z.mod_pos_bound c 10 ltac:(lia)) as B.
  pose proof (Z.div_mod (c + 5) 10 ltac:(lia)) as E5.
  pose proof (Z.mod_pos_bound (c + 5) 10 ltac:(lia)) as B5.
  rewrite (Z.abs_eq c) by lia.
  assert ((if 10 <=? 2 * (c mod 10) then c / 10 + 1 else c / 10)
          = (c + 5) / 10) as R.
  { destruct (Z.leb_spec 10 (2 * (c mod 10))); lia. }
  rewrite R.
  assert ((c + 5) / 10 < 10 ^ 28) as Hlt by lia.
  destruct (Z.leb_spec (10 ^ 28) ((c + 5) / 10)); [lia|].
  f_equal.
  destruct (Z.eq_dec c 0) as [->|NZ]; [reflexivity|].
  rewrite (Z.sgn_pos c) by lia.
  rewrite Z.mul_1_l. apply Z.quot_mul. lia.
Qed.

End CheckoutFacts.

(** ** Solution bundle builder *)

Module BundleFacts.
Import PyFloat Bundle BundleSpec RankingSpec Samples.

Lemma mem_In (x : string) (xs : list string) : mem x xs = true <-> In x xs.
Proof.
  unfold mem. rewrite existsb_exists. split.
  - intros [y [Hy E]]. apply String.eqb_eq in E. subst. exact Hy.
  - intros H. exists x. split; [exact H|apply String.eqb_refl].
Qed.

Lemma is_empty_true (s : string) : is_empty s = true <-> s = "".
Proof. destruct s; simpl; split; congruence. Qed.

Lemma price_key_not_nan (product : Product) :
  is_nan (price_key product) = false.
Proof.
  unfold price_key.
  destruct (PyFloat.gtb (_extract_price_from_product product) (Fin 0)) eqn:E;
    [|reflexivity].
  destruct (_extract_price_from_product product); [discriminate E| |];
    reflexivity.
Qed.

Lemma cheaper_fcmp (a b : Product) :
  cheaper a b = true <-> fcmp (price_key a) (price_key b) = Lt.
Proof.
  unfold cheaper, PyFloat.ltb.
  rewrite (RankingFacts.compare_fcmp _ _ (price_key_not_nan a)
                                     (price_key_not_nan b)).
  destruct (fcmp (price_key a) (price_key b)); split; congruence.
Qed.

(** the list the selection walks through under the preference "low" *)
Lemma sort_low (products : list Product) :
  _sort_products_by_price products "low" = sorted cheaper products.
Proof. destruct products; reflexivity. Qed.

Lemma sort_low_sorted (products : list Product) :
  StronglySorted in_price_order (sorted cheaper products).
Proof.
  apply (sorted_sorted cheaper
           (fun a b => fcmp (price_key a) (price_key b))
           (fun _ => True)).
  - apply (pullback_ordering fcmp RankingFacts.fcmp_ordering price_key).
  - intros a b _ _. apply cheaper_fcmp.
  - apply Forall_forall. auto.
Qed.

(** what the selection loop adds to the products selected so far *)
Lemma select_loop_spec (limit : Z) (l : list Product) :
  forall (selected : list Product) (seen seen' : list string)
         (picked : list Product),
    Z.of_nat (List.length selected) < limit ->
    StronglySorted in_price_order l ->
    select_loop limit l selected seen = (picked, seen') ->
    exists added,
      picked = (selected ++ added)%list
      /\ Z.of_nat (List.length picked) <= limit
      /\ incl seen seen'
      /\ (forall y, In y added -> In y l)
      /\ StronglySorted in_price_order added
      /\ (forall y, In y added -> id_text y <> "" ->
                    ~ In (id_text y) seen /\ In (id_text y) seen')
      /\ NoDup (ids_of added)
      /\ (forall x, In x l -> ~ In x added -> ~ duplicate seen' x ->
                    Z.of_nat (List.length picked) = limit
                    /\ forall y, In y added -> in_price_order y x).
Proof.
  induction l as [|p rest IH]; intros selected seen seen' picked
                                     Hlen Hs E; simpl in E.
  - inversion E; subst. exists []. rewrite app_nil_r.
    split; [reflexivity|]. split; [lia|]. split; [apply incl_refl|].
    split; [intros y []|]. split; [constructor|].
    split; [intros y []|]. split; [constructor|].
    intros x [].
  - inversion Hs as [|? ? Hrest Hp]; subst.
    rewrite Forall_forall in Hp.
    destruct (negb (is_empty (id_text p)) && mem (id_text p) seen) eqn:Dup.
    + (* a duplicate: skipped *)
      apply andb_true_iff in Dup. destruct Dup as [Dne Dmem].
      apply negb_true_iff in Dne. apply mem_In in Dmem.
      destruct (IH selected seen seen' picked Hlen Hrest E)
        as (added & Ea & Hl & Hi & Hin & Hso & Hid & Hnd & Hmax).
      exists added.
      split; [exact Ea|]. split; [exact Hl|]. split; [exact Hi|].
      split; [intros y Hy; right; apply Hin, Hy|].
      split; [exact Hso|]. split; [exact Hid|]. split; [exact Hnd|].
      intros x [<-|Hx] Hnot Hdup; [|apply (Hmax x); assumption].
      exfalso. apply Hdup. split.
      * intros Ee. apply is_empty_true in Ee. congruence.
      * apply Hi, Dmem.
    + (* selected *)
      assert (id_text p <> "" -> ~ In (id_text p) seen) as Hfresh.
      { intros Hne Hin. apply andb_false_iff in Dup.
        destruct Dup as [D|D].
        - apply negb_false_iff, is_empty_true in D. contradiction.
        - apply mem_In in Hin. congruence. }
      set (seen2 := if is_empty (id_text p) then seen
                    else id_text p :: seen) in *.
      assert (incl seen seen2) as Hinc.
      { unfold seen2. destruct (is_empty (id_text p));
          [apply incl_refl|apply incl_tl, incl_refl]. }
      assert (id_text p <> "" -> In (id_text p) seen2) as Hseen2.
      { intros Hne. unfold seen2.
        destruct (is_empty (id_text p)) eqn:Ee;
          [apply is_empty_true in Ee; contradiction|left; reflexivity]. }
      rewrite length_app in E. simpl List.length in E.
      destruct (Z.leb_spec limit (Z.of_nat (List.length selected + 1)))
        as [Full|Room].
      * (* the limit is reached *)
        inversion E; subst. exists [p].
        assert (Z.of_nat (List.length (selected ++ [p])) = limit) as Hfull
            by (rewrite length_app; simpl; lia).
        split; [reflexivity|]. split; [lia|]. split; [exact Hinc|].
        split; [intros y [<-|[]]; left; reflexivity|].
        split; [repeat constructor|].
        split.
        { intros y [<-|[]] Hne. split; [apply Hfresh, Hne|apply Hseen2, Hne]. }
        split.
        { unfold ids_of. simpl.
          destruct (negb (is_empty (id_text p))); repeat constructor;
            intros []. }
        intros x [<-|Hx] Hnot Hdup.
        { exfalso. apply Hnot. left. reflexivity. }
        split; [exact Hfull|].
        intros y [<-|[]]. apply Hp, Hx.
      * (* the loop goes on *)
        assert (Z.of_nat (List.length (selected ++ [p])) < limit) as Hlen2
            by (rewrite length_app; simpl; lia).
        destruct (IH (selected ++ [p])%list seen2 seen' picked
                     Hlen2 Hrest E)
          as (added & Ea & Hl & Hi & Hin & Hso & Hid & Hnd & Hmax).
        exists (p :: added).
        assert (forall y, In y added -> in_price_order p y) as Hpy
            by (intros y Hy; apply Hp, Hin, Hy).
        split; [rewrite Ea, <- app_assoc; reflexivity|].
        split; [exact Hl|].
        split; [intros z Hz; apply Hi, Hinc, Hz|].
        split; [intros y [<-|Hy]; [left; reflexivity|right; apply Hin, Hy]|].
        split; [constructor; [exact Hso|apply Forall_forall, Hpy]|].
        split.
        { intros y [<-|Hy] Hne.
          - split; [apply Hfresh, Hne|apply Hi, Hseen2, Hne].
          - destruct (Hid y Hy Hne) as [Hn1 Hn2]. split; [|exact Hn2].
            intros Hn. apply Hn1, Hinc, Hn. }
        split.
        { unfold ids_of in *. simpl.
          destruct (is_empty (id_text p)) eqn:Ee; simpl; [exact Hnd|].
          constructor; [|exact Hnd].
          intros Hn. apply filter_In in Hn. destruct Hn as [Hn _].
          apply in_map_iff in Hn. destruct Hn as (y & Ey & Hy).
          assert (id_text p <> "") as Hne.
          { intros F. apply is_empty_true in F. congruence. }
          assert (id_text y <> "") as Hney by (rewrite Ey; exact Hne).
          apply (proj1 (Hid y Hy Hney)). rewrite Ey. apply Hseen2, Hne. }
        intros x [<-|Hx] Hnot Hdup.
        { exfalso. apply Hnot. left. reflexivity. }
        assert (~ In x added) as Hnot2
            by (intros Hn; apply Hnot; right; exact Hn).
        destruct (Hmax x Hx Hnot2 Hdup) as [Hfull Hord].
        split; [exact Hfull|].
        intros y [<-|Hy]; [apply Hp, Hx|apply Hord, Hy].
Qed.

Lemma filter_for_bundle_incl (products : list Product)
      (keywords : list string) (exclusions : option (list string))
      (q : Product) :
  In q (_filter_products_for_bundle products keywords exclusions) ->
  In q (_filter_products_by_name_keywords products keywords).
Proof.
  unfold _filter_products_for_bundle.
  destruct (_filter_products_by_name_keywords products keywords)
    as [|c cs] eqn:E; [intros []|].
  destruct exclusions as [[|e es]|]; auto.
  destruct (filter _ (c :: cs)) as [|f fs] eqn:F; auto.
  intros H. rewrite <- F in H. apply filter_In in H. tauto.
Qed.

Lemma name_keywords_incl (products : list Product) (keywords : list string)
      (q : Product) :
  In q (_filter_products_by_name_keywords products keywords) ->
  In q products.
Proof.
  unfold _filter_products_by_name_keywords.
  destruct products as [|p ps]; [intros []|].
  destruct keywords as [|k ks]; [intros []|].
  intros H. apply filter_In in H. tauto.
Qed.

(** when a name match is no accessory, no candidate of the slot is one *)
Lemma filter_for_bundle_non_accessory (products : list Product)
      (keywords exclusions : list string) (p q : Product) :
  exclusions <> [] ->
  In p (_filter_products_by_name_keywords products keywords) ->
  _is_accessory_product p (clean_keywords exclusions) = false ->
  In q (_filter_products_for_bundle products keywords (Some exclusions)) ->
  _is_accessory_product q (clean_keywords exclusions) = false.
Proof.
  intros Hne Hp Hacc. unfold _filter_products_for_bundle.
  destruct (_filter_products_by_name_keywords products keywords)
    as [|c cs] eqn:E; [intros []|].
  destruct exclusions as [|e es]; [congruence|].
  destruct (filter _ (c :: cs)) as [|f fs] eqn:F.
  - exfalso.
    assert (In p (filter
                    (fun product =>
                       negb (_is_accessory_product
                               product (clean_keywords (e :: es))))
                    (c :: cs))) as Hin.
    { apply filter_In. split; [exact Hp|]. rewrite Hacc. reflexivity. }
    rewrite F in Hin. exact Hin.
  - intros H. rewrite <- F in H. apply filter_In in H.
    destruct H as [_ H]. apply negb_true_iff in H. exact H.
Qed.

(** a slot whose only candidate has no positive price: for the goal
    "home theater" and the preference "low" the bundle holds the
    television priced 0 *)
Lemma bundle_unpriced_counterexample :
  solution_bundle_recommendations "home theater" "low" [tv_free]
  = inr [tv_free]
  /\ PyFloat.gtb (_extract_price_from_product tv_free) (Fin 0) = false.
Proof. vm_compute. split; reflexivity. Qed.

(** under the preference "high" the list sorted with the infinite key is
    reversed, so a product without a positive price comes first *)
Example high_takes_unpriced_first :
  map get_name
      (fst (_select_products_by_price [tv_free; tv_top; tv_cheap; tv_mid]
                                      "high" 2 []))
  = ["Smart TV 55"; "QLED TV 65"].
Proof. vm_compute. reflexivity. Qed.

(** one selection under the preference "low": a slot with a positive
    limit is filled from its candidates in ascending order of price, a
    price that is not positive counting as infinite *)
Theorem select_products_by_price_low
        (products : list Product) (limit : Z) (seen_ids : list string)
        (chosen : list Product) (seen' : list string) :
  0 < limit ->
  _select_products_by_price products "low" limit seen_ids = (chosen, seen') ->
  Z.of_nat (List.length chosen) <= limit
  /\ (forall y, In y chosen -> In y products)
  /\ StronglySorted in_price_order chosen
  /\ (forall y, In y chosen -> ~ duplicate seen_ids y)
  /\ NoDup (ids_of chosen)
  /\ (forall x, In x products -> ~ In x chosen -> ~ duplicate seen' x ->
                Z.of_nat (List.length chosen) = limit
                /\ forall y, In y chosen -> in_price_order y x)
  /\ (forall keywords exclusions p q,
         exclusions <> [] ->
         In p (_filter_products_by_name_keywords products keywords) ->
         _is_accessory_product p (clean_keywords exclusions) = false ->
         In q (_filter_products_for_bundle products keywords
                                           (Some exclusions)) ->
         In q (_filter_products_by_name_keywords products keywords)
         /\ _is_accessory_product q (clean_keywords exclusions) = false)
  /\ coerce_price_preference "medium" = "low"
  /\ solution_bundle_recommendations "home theater" "medium" products
     = solution_bundle_recommendations "home theater" "low" products
  /\ (products <> [] ->
      solution_bundle_recommendations "home theater" "low" products
      = inr (_build_solution_bundle_catalog products "low")).
Proof.
  intros Hlimit E.
  assert (exists added,
             chosen = added
             /\ Z.of_nat (List.length chosen) <= limit
             /\ incl seen_ids seen'
             /\ (forall y, In y added -> In y (sorted cheaper products))
             /\ StronglySorted in_price_order added
             /\ (forall y, In y added -> id_text y <> "" ->
                           ~ In (id_text y) seen_ids
                           /\ In (id_text y) seen')
             /\ NoDup (ids_of added)
             /\ (forall x, In x (sorted cheaper products) ->
                           ~ In x added -> ~ duplicate seen' x ->
                           Z.of_nat (List.length chosen) = limit
                           /\ forall y, In y added -> in_price_order y x))
    as (added & <- & Hl & Hi & Hin & Hso & Hid & Hnd & Hmax).
  { unfold _select_products_by_price in E.
    destruct products as [|p ps].
    - inversion E; subst. exists [].
      split; [reflexivity|]. split; [simpl; lia|]. split; [apply incl_refl|].
      split; [intros y []|]. split; [constructor|].
      split; [intros y []|]. split; [constructor|].
      intros x [].
    - destruct (Z.leb_spec limit 0); [lia|].
      rewrite sort_low in E.
      apply (select_loop_spec limit (sorted cheaper (p :: ps)) [] seen_ids
                              seen' chosen); [simpl; lia| |exact E].
      apply sort_low_sorted. }
  split; [exact Hl|].
  split; [intros y Hy; apply (proj1 (sorted_In cheaper products y)), Hin, Hy|].
  split; [exact Hso|].
  split; [intros y Hy [Hne Hd]; apply (proj1 (Hid y Hy Hne)), Hd|].
  split; [exact Hnd|].
  split.
  { intros x Hx. apply Hmax. apply (proj2 (sorted_In cheaper products x)), Hx. }
  split.
  { intros keywords exclusions p q Hne Hp Hacc Hq.
    split; [eapply filter_for_bundle_incl, Hq|].
    eapply filter_for_bundle_non_accessory; eassumption. }
  split; [reflexivity|].
  split; [reflexivity|].
  intros Hne. destruct products; [congruence|reflexivity].
Qed.

Lemma select_products_by_price_low_witness :
  _select_products_by_price [tv_free; tv_top; tv_cheap; tv_mid] "low" 2 []
  = ([tv_cheap; tv_mid], ["12"; "11"])
  /\ StronglySorted in_price_order [tv_cheap; tv_mid]
  /\ NoDup (ids_of [tv_cheap; tv_mid]).
Proof.
  assert (_select_products_by_price
            [tv_free; tv_top; tv_cheap; tv_mid] "low" 2 []
          = ([tv_cheap; tv_mid], ["12"; "11"])) as E
      by (vm_compute; reflexivity).
  split; [exact E|].
  destruct (select_products_by_price_low
              [tv_free; tv_top; tv_cheap; tv_mid] 2 []
              [tv_cheap; tv_mid] ["12"; "11"] ltac:(lia) E)
    as (_ & _ & Hs & _ & Hn & _).
  split; [exact Hs|exact Hn].
Defined.

End BundleFacts.

(** ** Text normalisation *)

Module TextFacts.
Import TextSpec.

Ltac by_cases_on_char c :=
  destruct c as [[] [] [] [] [] [] [] []]; vm_compute; try reflexivity;
  try discriminate.

Lemma lower_char_idem (c : ascii) : lower_char (lower_char c) = lower_char c.
Proof. by_cases_on_char c. Qed.

Lemma lower_upper_char (c : ascii) : lower_char (upper_char c) = lower_char c.
Proof. by_cases_on_char c. Qed.

Lemma upper_lower_char (c : ascii) : upper_char (lower_char c) = upper_char c.
Proof. by_cases_on_char c. Qed.

Lemma upper_char_idem (c : ascii) : upper_char (upper_char c) = upper_char c.
Proof. by_cases_on_char c. Qed.

Lemma smap_smap (f g : ascii -> ascii) (s : string) :
  smap f (smap g s) = smap (fun c => f (g c)) s.
Proof. induction s as [|c s IH]; simpl; [reflexivity|]. now rewrite IH. Qed.

Lemma smap_ext (f g : ascii -> ascii) (s : string) :
  (forall c, f c = g c) -> smap f s = smap g s.
Proof.
  intros H. induction s as [|c s IH]; simpl; [reflexivity|].
  now rewrite H, IH.
Qed.

Lemma lower_idem (s : string) : lower (lower s) = lower s.
Proof.
  unfold lower. rewrite smap_smap. apply smap_ext, lower_char_idem.
Qed.

Lemma lower_upper (s : string) : lower (upper s) = lower s.
Proof.
  unfold lower, upper. rewrite smap_smap. apply smap_ext, lower_upper_char.
Qed.

Lemma upper_lower (s : string) : upper (lower s) = upper s.
Proof.
  unfold lower, upper. rewrite smap_smap. apply smap_ext, upper_lower_char.
Qed.

Lemma upper_idem (s : string) : upper (upper s) = upper s.
Proof.
  unfold upper. rewrite smap_smap. apply smap_ext, upper_char_idem.
Qed.

Lemma alnum_not_space (c : ascii) :
  is_alnum_lower c = true -> is_space c = false.
Proof. by_cases_on_char c. Qed.

Lemma alnum_lower_char (c : ascii) :
  is_alnum_lower c = true -> lower_char c = c.
Proof. by_cases_on_char c. Qed.

Lemma spaced_collapse (s : string) (b : bool) :
  spaced b (collapse_runs b s) = true.
Proof.
  revert b. induction s as [|c s IH]; intros b; simpl; [reflexivity|].
  destruct (is_alnum_lower c) eqn:E; simpl.
  - rewrite E. apply IH.
  - destruct b; [apply IH|]. simpl. apply IH.
Qed.

Lemma spaced_weaken (s : string) : spaced true s = true -> spaced false s = true.
Proof.
  destruct s as [|c s]; simpl; [reflexivity|].
  destruct (is_alnum_lower c); [auto|].
  rewrite andb_false_r. discriminate.
Qed.

Lemma spaced_lstrip (s : string) :
  spaced false s = true -> spaced true (lstrip s) = true /\ lstrip (lstrip s) = lstrip s.
Proof.
  destruct s as [|c s]; simpl; [auto|].
  destruct (is_alnum_lower c) eqn:E.
  - rewrite (alnum_not_space c E). simpl. rewrite E, (alnum_not_space c E). auto.
  - rewrite andb_true_r. intros H. apply andb_prop in H. destruct H as [Hc Hs].
    apply Ascii.eqb_eq in Hc. subst c. simpl.
    destruct s as [|d s]; simpl in *; [auto|].
    destruct (is_alnum_lower d) eqn:Ed.
    + rewrite (alnum_not_space d Ed). simpl. rewrite Ed, (alnum_not_space d Ed). auto.
    + rewrite andb_false_r in Hs. discriminate.
Qed.

Lemma spaced_rstrip (s : string) (b : bool) :
  spaced b s = true -> spaced b (rstrip s) = true.
Proof.
  revert b. induction s as [|c s IH]; intros b; simpl; [auto|].
  destruct (is_alnum_lower c) eqn:E; intros H.
  - specialize (IH false H). destruct (rstrip s) as [|d r].
    + rewrite (alnum_not_space c E). simpl. now rewrite E.
    + simpl. rewrite E. exact IH.
  - apply andb_prop in H. destruct H as [H Hs].
    specialize (IH true Hs). destruct (rstrip s) as [|d r].
    + apply andb_prop in H. destruct H as [Hc _].
      apply Ascii.eqb_eq in Hc. subst c. reflexivity.
    + simpl (spaced b (String c (String d r))). rewrite E, H.
      exact IH.
Qed.

Lemma rstrip_idem (s : string) : rstrip (rstrip s) = rstrip s.
Proof.
  induction s as [|c s IH]; simpl; [reflexivity|].
  destruct (rstrip s) as [|d r] eqn:E.
  - destruct (is_space c) eqn:Ec; simpl; [reflexivity|]. now rewrite Ec.
  - change (rstrip (String c (String d r)))
      with (match rstrip (String d r) with
            | EmptyString =>
                if is_space c then EmptyString else String c EmptyString
            | r' => String c r'
            end).
    rewrite IH. reflexivity.
Qed.

Lemma spaced_lstrip_id (s : string) : spaced true s = true -> lstrip s = s.
Proof.
  destruct s as [|c s]; simpl; [reflexivity|].
  destruct (is_alnum_lower c) eqn:E.
  - now rewrite (alnum_not_space c E).
  - rewrite andb_false_r. discriminate.
Qed.

Lemma spaced_lower (s : string) (b : bool) : spaced b s = true -> lower s = s.
Proof.
  revert b. induction s as [|c s IH]; intros b; [reflexivity|].
  change (lower (String c s)) with (String (lower_char c) (lower s)).
  simpl spaced.
  destruct (is_alnum_lower c) eqn:E; intros H.
  - rewrite (alnum_lower_char c E). f_equal. exact (IH false H).
  - apply andb_prop in H. destruct H as [H Hs].
    apply andb_prop in H. destruct H as [Hc _].
    apply Ascii.eqb_eq in Hc. subst c.
    change (lower_char " ") with " "%char. f_equal. exact (IH true Hs).
Qed.

Lemma spaced_collapse_id (s : string) (b : bool) :
  spaced b s = true -> collapse_runs b s = s.
Proof.
  revert b. induction s as [|c s IH]; intros b; simpl; [reflexivity|].
  destruct (is_alnum_lower c) eqn:E; intros H.
  - f_equal. exact (IH false H).
  - apply andb_prop in H. destruct H as [H Hs].
    apply andb_prop in H. destruct H as [Hc Hb].
    apply Ascii.eqb_eq in Hc. subst c. destruct b; [discriminate|].
    f_equal. exact (IH true Hs).
Qed.

(** [strip] leaves a stripped text alone *)
Lemma lstrip_rstrip (s : string) :
  lstrip (rstrip (lstrip s)) = rstrip (lstrip s).
Proof.
  induction s as [|c s IH]; simpl; [reflexivity|].
  destruct (is_space c) eqn:E; [exact IH|].
  change (rstrip (String c s))
    with (match rstrip s with
          | EmptyString =>
              if is_space c then EmptyString else String c EmptyString
          | r' => String c r'
          end).
  destruct (rstrip s); [rewrite E|]; simpl; now rewrite E.
Qed.

Lemma strip_idem (s : string) : strip (strip s) = strip s.
Proof.
  unfold strip. rewrite lstrip_rstrip. apply rstrip_idem.
Qed.

Lemma normalize_spaced (s : string) : spaced true (_normalize_text s) = true.
Proof.
  unfold _normalize_text, strip.
  apply spaced_rstrip, spaced_lstrip, spaced_collapse.
Qed.

(** X1: [_normalize_text] is a normal form: normalising twice changes
    nothing.  On ASCII text the letter case of the input does not
    matter. *)
Theorem normalize_text_idempotent (value : string) :
  _normalize_text (_normalize_text value) = _normalize_text value
  /\ (is_ascii value = true ->
      _normalize_text (upper value) = _normalize_text value
      /\ _normalize_text (lower value) = _normalize_text value).
Proof.
  split.
  - pose proof (normalize_spaced value) as H.
    unfold _normalize_text at 1.
    rewrite (spaced_lower _ _ H).
    rewrite (spaced_collapse_id _ _ (spaced_weaken _ H)).
    unfold _normalize_text. apply strip_idem.
  - intros _. split.
    + unfold _normalize_text. now rewrite lower_upper.
    + unfold _normalize_text. now rewrite lower_idem.
Qed.

Lemma normalize_text_idempotent_witness :
  is_ascii "Smart-TV  55" = true
  /\ _normalize_text "Smart-TV  55" = "smart tv 55"
  /\ _normalize_text (_normalize_text "Smart-TV  55") = "smart tv 55"
  /\ _normalize_text (upper "Smart-TV  55") = "smart tv 55".
Proof.
  assert (_normalize_text "Smart-TV  55" = "smart tv 55") as E
      by (vm_compute; reflexivity).
  destruct (normalize_text_idempotent "Smart-TV  55") as [H1 H2].
  destruct (H2 ltac:(vm_compute; reflexivity)) as [H3 _].
  split; [vm_compute; reflexivity|]. split; [exact E|].
  split; [rewrite H1; exact E|rewrite H3; exact E].
Defined.

End TextFacts.

(** ** Category filter and ranker: further properties *)

Module CatalogFacts.
Import Category Ranking Regex TextSpec Samples MoreSamples.

(** X2: the category filter decides row by row: the result for a
    concatenation is the concatenation of the results, so rows keep their
    order and nothing is added. *)
Theorem filter_products_by_category_app
        (products more : list Product) (category : string) :
  filter_products_by_category (products ++ more) category
  = (filter_products_by_category products category
     ++ filter_products_by_category more category)%list.
Proof.
  unfold filter_products_by_category.
  destruct (is_empty category) eqn:E.
  - destruct products, more; reflexivity.
  - destruct products as [|p products]; [destruct more; reflexivity|].
    destruct more as [|q more].
    + rewrite app_nil_r, app_nil_r. reflexivity.
    + change ((p :: products) ++ q :: more)%list
        with (p :: (products ++ q :: more))%list.
      cbv beta iota zeta.
      rewrite <- filter_app. reflexivity.
Qed.

(** X3: a request for "tv" or "televisions" never returns a row that is
    audio-only, that is, tagged as audio equipment and without any video
    tag. *)
Theorem tv_request_drops_audio_only
        (products : list Product) (category : string) (product : Product) :
  is_tv_request (strip (lower category)) = true ->
  In product (filter_products_by_category products category) ->
  audio_only (product_categories product) = false.
Proof.
  intros Htv Hin.
  destruct category as [|c category]; [discriminate Htv|].
  destruct products as [|p products]; [destruct Hin|].
  unfold filter_products_by_category in Hin.
  change (is_empty (String c category)) with false in Hin.
  cbv beta iota zeta in Hin.
  apply filter_In in Hin. destruct Hin as [_ Hm].
  unfold product_matches in Hm. rewrite Htv in Hm.
  destruct (product_categories product) as [|t ts]; [discriminate Hm|].
  destruct (audio_only (t :: ts)); [discriminate Hm|reflexivity].
Qed.

Lemma tv_request_drops_audio_only_witness :
  filter_products_by_category [speaker_player; tagged_tv] " TV" = [tagged_tv]
  /\ audio_only (product_categories speaker_player) = true
  /\ filter_products_by_category [speaker_player; tagged_tv] "players"
     = [speaker_player]
  /\ audio_only (product_categories tagged_tv) = false.
Proof.
  split; [vm_compute; reflexivity|].
  split; [vm_compute; reflexivity|].
  split; [vm_compute; reflexivity|].
  apply (tv_request_drops_audio_only [speaker_player; tagged_tv] " TV").
  - vm_compute; reflexivity.
  - vm_compute. left. reflexivity.
Defined.

Lemma rank_perm (products : list Product) (criteria : option Criteria) :
  Permutation products (rank_products_by_criteria products criteria).
Proof.
  unfold rank_products_by_criteria.
  destruct products as [|p products]; [apply Permutation_refl|].
  destruct criteria as [c|]; [|apply Permutation_refl].
  destruct (criteria_is_empty (Some c)); [apply Permutation_refl|].
  apply sorted_perm.
Qed.

(** X4: ranking only reorders: for every criteria bag, NaN prices included,
    the result is a permutation of the input, so no row is lost or
    repeated. *)
Theorem rank_products_by_criteria_permutation
        (products : list Product) (criteria : option Criteria) :
  Permutation products (rank_products_by_criteria products criteria)
  /\ List.length (rank_products_by_criteria products criteria)
     = List.length products
  /\ (forall product,
        In product (rank_products_by_criteria products criteria)
        <-> In product products).
Proof.
  pose proof (rank_perm products criteria) as H.
  split; [exact H|]. split.
  - symmetry. apply Permutation_length, H.
  - intros product. split; apply Permutation_in;
      [apply Permutation_sym|]; exact H.
Qed.

Lemma search_needs_digit (rest : re) (name : string) :
  has_digit name = false ->
  search (Seq (Group (Plus is_digit)) rest) name = None.
Proof.
  induction name as [|c name IH]; intros H; [reflexivity|].
  simpl in H. apply orb_false_elim in H. destruct H as [Hc Hn].
  simpl. rewrite Hc. apply IH, Hn.
Qed.

Lemma int_of_digits_nonneg (s : string) (acc n : Z) :
  0 <= acc -> int_of_digits acc s = Some n -> 0 <= n.
Proof.
  revert acc. induction s as [|c s IH]; intros acc Ha; cbn [int_of_digits].
  - intros H. injection H as <-. exact Ha.
  - destruct (is_digit c); [|discriminate]. apply IH.
    pose proof (Nat2Z.is_nonneg (code c - 48)). lia.
Qed.

Lemma first_size_nonneg (patterns : list re) (name : string) (n : Z) :
  first_size patterns name = Some n -> 0 <= n.
Proof.
  induction patterns as [|pattern rest IH]; simpl; [discriminate|].
  destruct (search pattern name) as [[digits|]|]; auto.
  destruct (py_int_of_string digits) as [m|] eqn:E; auto.
  intros H. injection H as <-.
  destruct digits; [discriminate E|].
  apply (int_of_digits_nonneg _ 0 m) in E; lia.
Qed.

(** X5: from an ASCII name of at most 4300 characters a size is only
    ever read when the name holds a digit, and the size is never negative;
    such a name without digits gives no size. *)
Theorem extract_size_from_name_needs_digit (name : string) (size : Z) :
  is_ascii name = true ->
  (String.length name <= 4300)%nat ->
  extract_size_from_name name = Some size ->
  has_digit name = true /\ 0 <= size.
Proof.
  intros _ _. unfold extract_size_from_name.
  destruct (is_empty name); [discriminate|].
  intros H. split; [|eapply first_size_nonneg, H].
  destruct (has_digit name) eqn:E; [reflexivity|]. exfalso.
  unfold size_patterns, first_size in H.
  rewrite !(search_needs_digit _ name E) in H. discriminate H.
Qed.

Lemma extract_size_from_name_needs_digit_witness :
  extract_size_from_name "Smart TV 55 pollici" = Some 55
  /\ has_digit "Smart TV 55 pollici" = true /\ 0 <= 55.
Proof.
  split; [vm_compute; reflexivity|].
  apply (extract_size_from_name_needs_digit "Smart TV 55 pollici" 55).
  - vm_compute; reflexivity.
  - cbn [String.length]. lia.
  - vm_compute; reflexivity.
Defined.

Lemma of_Z_zero : of_Z 0 = Fin 0.
Proof. vm_compute. reflexivity. Qed.

Lemma falsy_to_float (n : num) : PyNum.truthy n = false -> to_float n = Fin 0.
Proof.
  destruct n as [z|f]; simpl.
  - intros H. apply negb_false_iff, Z.eqb_eq in H. subst. apply of_Z_zero.
  - destruct f as [| |v]; simpl; try discriminate.
    intros H. apply negb_false_iff, Z.eqb_eq in H. now subst.
Qed.

(** X6: the ranker and the bundle and cross-sell code read the same price
    from every row: [get_price] and [_extract_price_from_product] agree. *)
Theorem get_price_agrees (product : Product) :
  get_price product = _extract_price_from_product product.
Proof.
  unfold get_price, _extract_price_from_product.
  destruct (p_price product) as [[z|f|[f|]|amountMax amountMin|]|];
    try reflexivity.
  - destruct (PyNum.truthy (NInt z)) eqn:E; [reflexivity|].
    symmetry. apply (falsy_to_float (NInt z) E).
  - destruct (PyNum.truthy (NFloat f)) eqn:E; [reflexivity|].
    symmetry. apply (falsy_to_float (NFloat f) E).
  - destruct (PyNum.truthy (NFloat f)) eqn:E; [reflexivity|].
    symmetry. apply (falsy_to_float (NFloat f) E).
  - destruct (PyNum.truthy (get_or_zero amountMax)) eqn:E1.
    + rewrite E1. reflexivity.
    + destruct (PyNum.truthy (get_or_zero amountMin)) eqn:E2; [reflexivity|].
      symmetry. apply falsy_to_float, E2.
Qed.

End CatalogFacts.

(** ** Cross-sell recommender: further properties *)

Module SuggestionFacts.
Import CrossSell CrossSellDb CrossSellSpec SuggestionSpec Samples.

Lemma NoDup_firstn {A : Type} (n : nat) (l : list A) :
  NoDup l -> NoDup (firstn n l).
Proof.
  revert n. induction l as [|x l IH]; intros n H; [destruct n; constructor|].
  destruct n as [|n]; [constructor|].
  inversion H as [|? ? Hx Hl]; subst. simpl. constructor.
  - intros F. apply Hx. eapply firstn_incl, F.
  - apply IH, Hl.
Qed.

Lemma map_firstn {A B : Type} (f : A -> B) (n : nat) (l : list A) :
  map f (firstn n l) = firstn n (map f l).
Proof.
  revert n. induction l as [|x l IH]; intros [|n]; simpl; try reflexivity.
  now rewrite IH.
Qed.

Lemma slice_to_firstn {A : Type} (n : Z) (l : list A) :
  exists k, slice_to n l = firstn k l.
Proof. unfold slice_to. destruct (0 <=? n); eexists; reflexivity. Qed.

Lemma NoDup_map_filter {A B : Type} (f : A -> B) (g : A -> bool)
      (l : list A) :
  NoDup (map f l) -> NoDup (map f (filter g l)).
Proof.
  induction l as [|x l IH]; simpl; intros H; [constructor|].
  inversion H as [|? ? Hx Hl]; subst.
  destruct (g x); simpl; [|apply IH, Hl]. constructor; [|apply IH, Hl].
  intros F. apply Hx. apply in_map_iff in F. destruct F as [y [E F]].
  apply in_map_iff. exists y. split; [exact E|].
  apply filter_In in F. tauto.
Qed.

(** *** [_dedupe_by_sku] and [_sort_by_priority] *)

Lemma dedupe_from_spec (items : list Item) (seen : list string) :
  NoDup (map i_sku (dedupe_from seen items))
  /\ (forall x, In x (dedupe_from seen items) ->
                i_sku x <> "" /\ ~ In (i_sku x) seen)
  /\ (forall x, In x items -> i_sku x <> "" ->
                In (i_sku x) seen
                \/ In (i_sku x) (map i_sku (dedupe_from seen items))).
Proof.
  revert seen. induction items as [|item rest IH]; intros seen; simpl.
  - split; [constructor|]. split; [intros x []|intros x []].
  - destruct (is_empty (i_sku item)) eqn:Ee; simpl.
    + destruct (IH seen) as [N [F C]]. split; [exact N|]. split; [exact F|].
      intros x [<-|Hx] Hs; [|apply C; assumption].
      apply BundleFacts.is_empty_true in Ee. contradiction.
    + destruct (mem (i_sku item) seen) eqn:Em.
      * destruct (IH seen) as [N [F C]]. split; [exact N|].
        split; [exact F|].
        intros x [<-|Hx] Hs; [|apply C; assumption].
        left. apply BundleFacts.mem_In, Em.
      * destruct (IH (i_sku item :: seen)) as [N [F C]].
        split; [|split].
        -- simpl. constructor; [|exact N].
           intros Hin. apply in_map_iff in Hin.
           destruct Hin as [y [E Hy]]. apply F in Hy.
           destruct Hy as [_ Hy]. apply Hy. left. congruence.
        -- intros x [<-|Hx].
           ++ split.
              ** intros E. rewrite E in Ee. discriminate Ee.
              ** intros Hin. apply BundleFacts.mem_In in Hin. congruence.
           ++ apply F in Hx. destruct Hx as [Hx1 Hx2].
              split; [exact Hx1|]. intros Hin. apply Hx2. right. exact Hin.
        -- intros x [<-|Hx] Hs.
           ++ right. simpl. left. reflexivity.
           ++ destruct (C x Hx Hs) as [[E|Hin]|Hin].
              ** right. simpl. left. exact E.
              ** left. exact Hin.
              ** right. simpl. right. exact Hin.
Qed.

Lemma dedupe_from_fixed (items : list Item) (seen : list string) :
  NoDup (map i_sku items) ->
  (forall x, In x items -> i_sku x <> "" /\ ~ In (i_sku x) seen) ->
  dedupe_from seen items = items.
Proof.
  revert seen. induction items as [|item rest IH]; intros seen N F;
    [reflexivity|].
  simpl. inversion N as [|? ? Hx Hl]; subst.
  destruct (F item (or_introl eq_refl)) as [Hne Hns].
  destruct (is_empty (i_sku item)) eqn:Ee.
  { apply BundleFacts.is_empty_true in Ee. contradiction. }
  destruct (mem (i_sku item) seen) eqn:Em.
  { apply BundleFacts.mem_In in Em. contradiction. }
  simpl. f_equal. apply IH; [exact Hl|].
  intros x Hin. destruct (F x (or_intror Hin)) as [H1 H2].
  split; [exact H1|]. intros [E|Hs]; [|contradiction].
  apply Hx. rewrite E. apply in_map, Hin.
Qed.

(** X7: [_dedupe_by_sku] keeps one item per SKU: the SKUs of the result
    are distinct and non-empty, every non-empty SKU of the input is still
    there, nothing is added, and a second pass changes nothing. *)
Theorem dedupe_by_sku_spec (items : list Item) :
  NoDup (map i_sku (_dedupe_by_sku items))
  /\ Forall (fun item => i_sku item <> "") (_dedupe_by_sku items)
  /\ incl (_dedupe_by_sku items) items
  /\ (forall item, In item items -> i_sku item <> "" ->
                   In (i_sku item) (map i_sku (_dedupe_by_sku items)))
  /\ _dedupe_by_sku (_dedupe_by_sku items) = _dedupe_by_sku items.
Proof.
  unfold _dedupe_by_sku.
  destruct (dedupe_from_spec items []) as [N [F C]].
  split; [exact N|]. split; [|split; [|split]].
  - apply Forall_forall. intros x Hx. apply F, Hx.
  - intros x Hx. eapply CrossSellFacts.dedupe_from_incl, Hx.
  - intros x Hx Hs. destruct (C x Hx Hs) as [[]|H]; exact H.
  - apply dedupe_from_fixed; [exact N|exact F].
Qed.

Lemma StronglySorted_weaken {A : Type} (R S : A -> A -> Prop) (l : list A) :
  (forall a b, R a b -> S a b) -> StronglySorted R l -> StronglySorted S l.
Proof.
  intros H Hs. induction Hs as [|x l Hs IH Hx]; constructor; [exact IH|].
  rewrite Forall_forall in Hx |- *. intros y Hy. apply H, Hx, Hy.
Qed.

(** X8: [_sort_by_priority] reorders the items by descending priority and
    keeps the input order among items of equal priority. *)
Theorem sort_by_priority_spec (items : list Item) :
  Permutation items (_sort_by_priority items)
  /\ StronglySorted (fun a b => i_priority b <= i_priority a)
                    (_sort_by_priority items)
  /\ (forall priority,
        filter (fun item => i_priority item =? priority)
               (_sort_by_priority items)
        = filter (fun item => i_priority item =? priority) items).
Proof.
  unfold _sort_by_priority. split; [apply sorted_perm|]. split.
  - apply (StronglySorted_weaken
             (not_after (fun a b => i_priority b <? i_priority a))).
    + unfold not_after. intros a b H. apply Z.ltb_ge in H. exact H.
    + apply (sorted_sorted _
               (fun a b => Z.compare (- i_priority a) (- i_priority b))
               (fun _ => True)).
      * apply (pullback_ordering Z.compare Z_ordering
                                 (fun a => - i_priority a)).
      * intros a b _ _. rewrite Z.ltb_lt, Z.compare_lt_iff. lia.
      * apply Forall_forall. auto.
  - intros priority. apply filter_sorted.
    intros x y _ _ Hx Hlt. apply Z.eqb_eq in Hx. apply Z.ltb_lt in Hlt.
    apply Z.eqb_neq. lia.
Qed.

(** *** The suggestion passes as pushes *)

Lemma push_all_app (st : state) (a b : list Item) :
  push_all st (a ++ b) = push_all (push_all st a) b.
Proof. unfold push_all. apply fold_left_app. Qed.

Lemma pushes_refl (P : Item -> Prop) (st : state) : pushes P st st.
Proof. exists []. split; [constructor|reflexivity]. Qed.

Lemma pushes_trans (P : Item -> Prop) (s1 s2 s3 : state) :
  pushes P s1 s2 -> pushes P s2 s3 -> pushes P s1 s3.
Proof.
  intros [a [Ha ->]] [b [Hb ->]]. exists (a ++ b)%list.
  split; [apply Forall_app; auto|symmetry; apply push_all_app].
Qed.

Lemma pushes_push_all (P : Item -> Prop) (st : state) (items : list Item) :
  Forall P items -> pushes P st (push_all st items).
Proof. intros H. exists items. auto. Qed.

Lemma push_top_pushes (P : Item -> Prop) (candidates : list Item)
      (keep : Item -> bool) (st : state) :
  Forall P candidates -> pushes P st (push_top candidates keep st).
Proof.
  intros H. apply pushes_push_all. rewrite Forall_forall in H |- *.
  intros x Hx.
  apply firstn_incl, CrossSellFacts.sort_by_priority_incl, filter_In in Hx.
  apply H. tauto.
Qed.

Lemma mem_compatible (class : string) (categories : list string)
      (item : Item) :
  mem class categories = true -> mem class (i_compatibleWith item) = true ->
  compatible categories item = true.
Proof.
  intros Hc Hi. unfold compatible. apply existsb_exists. exists class.
  split; [apply BundleFacts.mem_In, Hi|exact Hc].
Qed.

Lemma class_candidates_fit (class : string) (categories : list string)
      (eligible : list Item) :
  mem class categories = true ->
  Forall (fits categories eligible)
         (filter (fun item => mem class (i_compatibleWith item)) eligible).
Proof.
  intros Hc. apply Forall_forall. intros x Hx. apply filter_In in Hx.
  destruct Hx as [Hx Hm]. split; [exact Hx|]. right.
  eapply mem_compatible; eassumption.
Qed.

Lemma cleaning_pass_pushes (categories : list string)
      (has_screen_device : bool) (eligible : list Item) (st : state) :
  pushes (fits categories eligible) st
         (cleaning_pass categories has_screen_device eligible st).
Proof.
  unfold cleaning_pass. destruct categories as [|c cs]; [apply pushes_refl|].
  destruct has_screen_device; [|apply pushes_refl].
  apply pushes_push_all, Forall_forall. intros x Hx.
  apply firstn_incl, CrossSellFacts.sort_by_priority_incl, filter_In in Hx.
  destruct Hx as [Hx Hc]. apply andb_true_iff in Hc.
  split; [exact Hx|]. right. apply Hc.
Qed.

Lemma pc_pass_pushes (cart_items : list CartItem) (categories : list string)
      (eligible : list Item) (st : state) :
  pushes (fits categories eligible) st
         (pc_pass cart_items categories eligible st).
Proof.
  unfold pc_pass. destruct (mem "pc" categories) eqn:E; [|apply pushes_refl].
  pose proof (class_candidates_fit "pc" categories eligible E) as F.
  cbv zeta.
  repeat match goal with
         | |- context [if negb ?b then _ else _] => destruct (negb b)
         end;
    repeat first [ apply pushes_refl
                 | eapply pushes_trans;
                   [|apply push_top_pushes; exact F] ].
Qed.

Lemma tv_pass_pushes (cart_items : list CartItem) (categories : list string)
      (normalized_cart_text : string) (eligible : list Item) (st : state) :
  pushes (fits categories eligible) st
         (tv_pass cart_items categories normalized_cart_text eligible st).
Proof.
  unfold tv_pass. destruct (mem "tv" categories) eqn:E; [|apply pushes_refl].
  pose proof (class_candidates_fit "tv" categories eligible E) as F.
  cbv zeta.
  repeat match goal with
         | |- context [if negb ?b then _ else _] => destruct (negb b)
         end;
    repeat first [ apply pushes_refl
                 | eapply pushes_trans;
                   [|apply push_top_pushes; exact F] ].
Qed.

Lemma scored_pass_pushes (categories : list string)
      (has_screen_device : bool) (eligible : list Item) (st : state) :
  pushes (fits categories eligible) st
         (scored_pass categories has_screen_device eligible st).
Proof.
  unfold scored_pass. apply pushes_push_all, Forall_forall. intros x H.
  apply in_map_iff in H. destruct H as [[y sc] [<- H]]. simpl.
  apply sorted_In, in_map_iff in H. destruct H as [z [E H]].
  inversion E; subst. apply filter_In in H. destruct H as [Hin H].
  apply andb_true_iff in H. destruct H as [_ H].
  split; [exact Hin|]. unfold compatible.
  destruct categories as [|c cs]; [left; reflexivity|right].
  simpl in H. apply negb_true_iff, negb_false_iff in H. exact H.
Qed.

(** the recommender pushes fitting items onto the empty state and cuts
    the list to size *)
Lemma suggestions_pushes (cart_items : list CartItem) (catalog : list Item)
      (max_results : Z) :
  exists items,
    Forall (fits (fst (_get_cart_category_intent cart_items))
                 (eligible_items cart_items catalog)) items
    /\ _get_cross_sell_suggestions cart_items catalog max_results
       = slice_to max_results (fst (push_all ([], []) items)).
Proof.
  unfold _get_cross_sell_suggestions.
  destruct cart_items as [|ci cis].
  { exists []. split; [constructor|]. unfold slice_to.
    destruct (0 <=? max_results); simpl; now rewrite firstn_nil. }
  destruct catalog as [|it its].
  { exists []. split; [constructor|]. unfold slice_to.
    destruct (0 <=? max_results); simpl; now rewrite firstn_nil. }
  destruct (_get_cart_category_intent (ci :: cis)) as [categories screen].
  set (eligible := eligible_items (ci :: cis) (it :: its)).
  cbv zeta.
  assert (pushes (fits categories eligible) ([], [])
            (scored_pass categories screen eligible
               (tv_pass (ci :: cis) categories
                  (_normalize_text (_collect_cart_text (ci :: cis))) eligible
                  (pc_pass (ci :: cis) categories eligible
                     (cleaning_pass categories screen eligible ([], []))))))
    as [items [F E]].
  { eapply pushes_trans; [|apply scored_pass_pushes].
    eapply pushes_trans; [|apply tv_pass_pushes].
    eapply pushes_trans; [|apply pc_pass_pushes].
    apply cleaning_pass_pushes. }
  exists items. split; [exact F|]. simpl fst. rewrite E. reflexivity.
Qed.

Lemma push_suggestion_distinct (st : state) (item : Item) :
  distinct_skus st -> distinct_skus (push_suggestion st item).
Proof.
  destruct st as [suggestions seen]. unfold push_suggestion.
  destruct (is_empty (i_sku item)) eqn:Ee; simpl; [auto|].
  destruct (mem (i_sku item) seen) eqn:Em; [auto|].
  intros [N [S F]]. simpl in *. split; [|split]; simpl.
  - rewrite map_app. simpl.
    apply NoDup_app; [exact N|repeat constructor; intros []|].
    intros sku Hs [<-|[]]. apply S, BundleFacts.mem_In in Hs. congruence.
  - intros sku Hs. rewrite map_app in Hs. apply in_app_or in Hs.
    destruct Hs as [Hs|[Hs|[]]]; [right; apply S, Hs|left; exact Hs].
  - apply Forall_app. split; [exact F|]. constructor; [|constructor].
    intros E. rewrite E in Ee. discriminate Ee.
Qed.

Lemma push_all_distinct (items : list Item) (st : state) :
  distinct_skus st -> distinct_skus (push_all st items).
Proof.
  unfold push_all. revert st.
  induction items as [|item rest IH]; intros st H; simpl; [exact H|].
  apply IH, push_suggestion_distinct, H.
Qed.

Lemma distinct_empty : distinct_skus ([], []).
Proof.
  split; [constructor|]. split; [intros sku []|constructor].
Qed.

Lemma suggestions_distinct (cart_items : list CartItem)
      (catalog : list Item) (max_results : Z) :
  NoDup (map i_sku
             (_get_cross_sell_suggestions cart_items catalog max_results))
  /\ Forall (fun item => i_sku item <> "")
            (_get_cross_sell_suggestions cart_items catalog max_results).
Proof.
  destruct (suggestions_pushes cart_items catalog max_results)
    as [items [_ ->]].
  destruct (push_all_distinct items ([], []) distinct_empty) as [N [_ F]].
  split.
  - destruct (slice_to_firstn max_results (fst (push_all ([], []) items)))
      as [k ->].
    rewrite map_firstn. apply NoDup_firstn, N.
  - rewrite Forall_forall in F |- *. intros x Hx. eapply F, slice_to_incl, Hx.
Qed.

Lemma from_db_distinct (cart_items : list CartItem)
      (products : list Product) (max_results : Z) :
  NoDup (map i_sku
             (_get_cross_sell_suggestions_from_db cart_items products
                                                  max_results))
  /\ Forall (fun item => i_sku item <> "")
            (_get_cross_sell_suggestions_from_db cart_items products
                                                 max_results).
Proof.
  unfold _get_cross_sell_suggestions_from_db.
  destruct cart_items as [|ci cis]; [split; constructor|].
  destruct products as [|p ps]; [split; constructor|].
  destruct (_detect_cart_intent_from_products _) as [categories screen].
  cbv zeta.
  match goal with
  | |- context [_get_cross_sell_suggestions ?c ?k ?m] =>
      destruct (suggestions_distinct c k m) as [N F];
      set (suggestions := _get_cross_sell_suggestions c k m) in *
  end.
  assert (NoDup (map i_sku (if screen
                            then filter (fun item => negb (is_empty (i_sku item)))
                                        suggestions
                            else suggestions))
          /\ Forall (fun item => i_sku item <> "")
                    (if screen
                     then filter (fun item => negb (is_empty (i_sku item)))
                                 suggestions
                     else suggestions)) as [N' F'].
  { destruct screen; [|auto]. split; [apply NoDup_map_filter, N|].
    rewrite Forall_forall in F |- *. intros x Hx. apply filter_In in Hx.
    apply F, Hx. }
  split.
  - match goal with
    | |- NoDup (map _ (slice_to ?m ?l)) =>
        destruct (slice_to_firstn m l) as [k ->]
    end.
    rewrite map_firstn. apply NoDup_firstn, N'.
  - rewrite Forall_forall in F' |- *. intros x Hx.
    eapply F', slice_to_incl, Hx.
Qed.

(** X9: the suggestions of the recommender, over a catalog, over the live
    products or of the tool with its fallback, carry pairwise distinct,
    non-empty SKUs. *)
Theorem suggestions_have_distinct_skus
        (cart_items : list CartItem) (catalog : list Item)
        (products : list Product) (max_results : Z) :
  (NoDup (map i_sku
              (_get_cross_sell_suggestions cart_items catalog max_results))
   /\ Forall (fun item => i_sku item <> "")
             (_get_cross_sell_suggestions cart_items catalog max_results))
  /\ (NoDup (map i_sku
                 (_get_cross_sell_suggestions_from_db cart_items products
                                                      max_results))
      /\ Forall (fun item => i_sku item <> "")
                (_get_cross_sell_suggestions_from_db cart_items products
                                                     max_results))
  /\ (NoDup (map i_sku
                 (cross_sell_recommendations cart_items products max_results))
      /\ Forall (fun item => i_sku item <> "")
                (cross_sell_recommendations cart_items products max_results)).
Proof.
  split; [apply suggestions_distinct|]. split; [apply from_db_distinct|].
  unfold cross_sell_recommendations.
  destruct products as [|p ps]; [apply suggestions_distinct|].
  destruct (_get_cross_sell_suggestions_from_db cart_items (p :: ps)
                                                max_results) eqn:E.
  - apply suggestions_distinct.
  - rewrite <- E. apply from_db_distinct.
Qed.

Lemma suggestions_fit (cart_items : list CartItem) (catalog : list Item)
      (max_results : Z) (item : Item) :
  In item (_get_cross_sell_suggestions cart_items catalog max_results) ->
  fits (fst (_get_cart_category_intent cart_items))
       (eligible_items cart_items catalog) item.
Proof.
  destruct (suggestions_pushes cart_items catalog max_results)
    as [items [F ->]].
  intros H. apply slice_to_incl, CrossSellFacts.push_all_incl in H.
  destruct H as [[]|H]. rewrite Forall_forall in F. apply F, H.
Qed.

(** X10: once the cart shows a device class (pc, tv, audio or led), every
    suggestion is declared compatible with one of the classes found; this
    holds for the recommender over a catalog, over the live products and
    for the tool with its fallback. *)
Theorem suggestions_fit_cart_categories
        (cart_items : list CartItem) (catalog : list Item)
        (products : list Product) (max_results : Z) (item : Item) :
  fst (_get_cart_category_intent cart_items) <> [] ->
  In item (_get_cross_sell_suggestions cart_items catalog max_results)
  \/ In item (_get_cross_sell_suggestions_from_db cart_items products
                                                  max_results)
  \/ In item (cross_sell_recommendations cart_items products max_results) ->
  compatible (fst (_get_cart_category_intent cart_items)) item = true.
Proof.
  intros Hc H.
  assert (exists catalog',
             In item (_get_cross_sell_suggestions cart_items catalog'
                                                  max_results)) as [k Hk].
  { destruct H as [H|[H|H]].
    - eexists. exact H.
    - eapply CrossSellFacts.from_db_incl, H.
    - eapply CrossSellFacts.recommendations_incl, H. }
  apply suggestions_fit in Hk. destruct Hk as [_ [E|E]];
    [contradiction|exact E].
Qed.

Lemma suggestions_fit_cart_categories_witness :
  fst (_get_cart_category_intent [cart_tv; cart_hdmi]) = ["tv"; "led"]
  /\ Forall (fun item => compatible ["tv"; "led"] item = true)
            (cross_sell_recommendations [cart_tv; cart_hdmi] [] 3).
Proof.
  assert (fst (_get_cart_category_intent [cart_tv; cart_hdmi])
          = ["tv"; "led"]) as E by (vm_compute; reflexivity).
  split; [exact E|]. apply Forall_forall. intros item H. rewrite <- E.
  apply (suggestions_fit_cart_categories
           [cart_tv; cart_hdmi] [] [] 3 item).
  - rewrite E. discriminate.
  - right. right. exact H.
Defined.

End SuggestionFacts.

(** ** Live catalog rows as cross-sell candidates: further properties *)

Module CrossSellDbFacts.
Import CrossSell CrossSellDb CrossSellSpec CrossSellDbSpec SuggestionSpec.
Import Samples MoreSamples.

Lemma eligible_incl (cart_items : list CartItem) (catalog : list Item)
      (x : Item) :
  In x (eligible_items cart_items catalog) -> In x catalog.
Proof.
  unfold eligible_items, _get_cart_identifiers, _dedupe_by_sku.
  intros H. apply CrossSellFacts.dedupe_from_incl, filter_In in H. tauto.
Qed.

(** X11: every suggestion drawn from the live catalog is the image of a
    catalog row that passed the accessory test, and it has a positive
    price and a name. *)
Theorem from_db_suggestions_are_priced_accessories
        (cart_items : list CartItem) (products : list Product)
        (max_results : Z) (item : Item) :
  In item (_get_cross_sell_suggestions_from_db cart_items products
                                               max_results) ->
  PyFloat.gtb (i_price item) (Fin 0) = true
  /\ i_name item <> ""
  /\ exists product,
       In product products
       /\ item = _map_product_to_cross_sell_item product
       /\ is_accessory_for
            (fst (_detect_cart_intent_from_products
                    (_resolve_cart_products cart_items products)))
            product = true.
Proof.
  unfold _get_cross_sell_suggestions_from_db.
  destruct cart_items as [|ci cis]; [intros []|].
  destruct products as [|p ps]; [intros []|].
  destruct (_detect_cart_intent_from_products _) as [categories screen].
  cbv zeta. intros H. apply slice_to_incl in H.
  assert (In item
             (_get_cross_sell_suggestions
                (ci :: cis)
                (filter (fun item => PyFloat.gtb (i_price item) (Fin 0)
                                     && negb (is_empty (i_name item)))
                        (map _map_product_to_cross_sell_item
                             (filter (is_accessory_for categories)
                                     (p :: ps))))
                max_results)) as H'.
  { destruct screen; [apply filter_In in H; apply H|exact H]. }
  apply CrossSellFacts.suggestions_eligible, eligible_incl, filter_In in H'.
  destruct H' as [Hin Hc]. apply andb_true_iff in Hc.
  destruct Hc as [Hp Hn]. split; [exact Hp|]. split.
  - intros E. rewrite E in Hn. discriminate Hn.
  - apply in_map_iff in Hin. destruct Hin as [product [E Hin]].
    apply filter_In in Hin. exists product. simpl. split; [apply Hin|].
    split; [symmetry; exact E|apply Hin].
Qed.

Lemma from_db_suggestions_are_priced_accessories_witness :
  map i_name
      (_get_cross_sell_suggestions_from_db [cart_tv] [row_tv; row_cable] 3)
  = ["Cavo HDMI 2m"]
  /\ Forall (fun item => PyFloat.gtb (i_price item) (Fin 0) = true
                         /\ i_name item <> "")
            (_get_cross_sell_suggestions_from_db [cart_tv]
                                                 [row_tv; row_cable] 3).
Proof.
  split; [vm_compute; reflexivity|].
  apply Forall_forall. intros item H.
  destruct (from_db_suggestions_are_priced_accessories
              [cart_tv] [row_tv; row_cable] 3 item H) as [Hp [Hn _]].
  split; assumption.
Defined.

Lemma mem_app_r (x : string) (xs : list string) :
  mem x (xs ++ [x]) = true.
Proof.
  unfold mem. rewrite existsb_app. simpl. rewrite String.eqb_refl.
  rewrite orb_true_r. reflexivity.
Qed.

(** X12: the cross-sell item built from a catalog row has the row's
    identifier as SKU and as id, a priority between 60 and 90, and is
    declared TV-compatible whenever it is tagged soundbar, subwoofer, led
    or mount. *)
Theorem map_product_to_cross_sell_item_spec (product : Product) :
  i_sku (_map_product_to_cross_sell_item product) = id_text product
  /\ i_id (_map_product_to_cross_sell_item product) = id_text product
  /\ i_name (_map_product_to_cross_sell_item product) = get_name product
  /\ i_price (_map_product_to_cross_sell_item product)
     = _extract_price_from_product product
  /\ 60 <= i_priority (_map_product_to_cross_sell_item product) <= 90
  /\ (existsb (fun tag => has_tag tag (_map_product_to_cross_sell_item product))
              [CROSS_SELL_SOUNDBAR_TAG; CROSS_SELL_SUBWOOFER_TAG;
               CROSS_SELL_LED_TAG; CROSS_SELL_MOUNT_TAG] = true ->
      mem "tv" (i_compatibleWith (_map_product_to_cross_sell_item product))
      = true)
  /\ incl (i_compatibleWith (_map_product_to_cross_sell_item product))
          ["tv"; "pc"].
Proof.
  unfold _map_product_to_cross_sell_item, id_text, has_tag. cbv zeta.
  cbn [i_sku i_id i_name i_price i_priority i_tags i_compatibleWith].
  split; [reflexivity|]. split; [reflexivity|]. split; [reflexivity|].
  split; [reflexivity|]. split; [|split].
  - repeat match goal with
           | |- context [if ?b then _ else _] => destruct b
           end; lia.
  - intros H. rewrite H. cbn [andb].
    match goal with
    | |- context [negb (mem "tv" ?cw)] => destruct (mem "tv" cw) eqn:E
    end; cbn [negb]; [exact E|apply mem_app_r].
  - match goal with
    | |- incl (if ?c then (?cw ++ _)%list else _) _ =>
        assert (incl cw ["tv"; "pc"]) as Hcw; [|destruct c]
    end.
    + unfold add_tag. intros x Hx. apply in_app_or in Hx.
      destruct Hx as [Hx|Hx];
        match type of Hx with
        | In _ (if ?b then _ else _) => destruct b
        end; simpl in Hx; simpl; tauto.
    + intros x Hx. apply in_app_or in Hx. destruct Hx as [Hx|Hx];
        [apply Hcw, Hx|simpl in Hx; simpl; tauto].
    + exact Hcw.
Qed.

Lemma intent_list_spec (has_pc has_tv has_audio has_led : bool) :
  has_pc || has_tv || has_audio || has_led
  = negb (is_nil (intent_list has_pc has_tv has_audio has_led))
  /\ incl (intent_list has_pc has_tv has_audio has_led)
          ["pc"; "tv"; "audio"; "led"]
  /\ NoDup (intent_list has_pc has_tv has_audio has_led).
Proof.
  destruct has_pc, has_tv, has_audio, has_led; simpl;
    (split; [reflexivity|]);
    (split; [intros x Hx; simpl in *; tauto|]);
    repeat constructor; simpl; intuition discriminate.
Qed.

(** X13: both detectors of the cart's device classes return a duplicate-free
    list drawn from pc, tv, audio, led, and their flag is set exactly when
    that list is not empty. *)
Theorem cart_intent_flag_spec
        (cart_items : list CartItem) (cart_products : list Product) :
  (snd (_get_cart_category_intent cart_items)
   = negb (is_nil (fst (_get_cart_category_intent cart_items)))
   /\ incl (fst (_get_cart_category_intent cart_items))
           ["pc"; "tv"; "audio"; "led"]
   /\ NoDup (fst (_get_cart_category_intent cart_items)))
  /\ (snd (_detect_cart_intent_from_products cart_products)
      = negb (is_nil (fst (_detect_cart_intent_from_products cart_products)))
      /\ incl (fst (_detect_cart_intent_from_products cart_products))
              ["pc"; "tv"; "audio"; "led"]
      /\ NoDup (fst (_detect_cart_intent_from_products cart_products))).
Proof.
  split.
  - unfold _get_cart_category_intent. destruct cart_items as [|ci cis].
    + simpl. split; [reflexivity|]. split; [intros x []|constructor].
    + cbv zeta. cbn [fst snd]. apply intent_list_spec.
  - unfold _detect_cart_intent_from_products.
    destruct cart_products as [|p ps].
    + simpl. split; [reflexivity|]. split; [intros x []|constructor].
    + cbv zeta. cbn [fst snd]. apply intent_list_spec.
Qed.

Lemma add_lookup_sound (key : string) (lookup : list (string * Product))
      (product q : Product) :
  lookup_get key (add_lookup lookup product) = Some q ->
  lookup_get key lookup = Some q \/ (q = product /\ keyed key product).
Proof.
  unfold add_lookup, keyed.
  destruct (p_name product) as [product_name|].
  - destruct (is_empty product_name) eqn:En.
    + destruct (p_id product) as [[product_id|z]|]; auto.
      destruct (is_empty product_id) eqn:Ei; auto.
      simpl. destruct (String.eqb key (_normalize_text product_id)) eqn:E;
        auto.
      intros H. injection H as <-. right. split; [reflexivity|]. left.
      exists product_id. split; [reflexivity|]. split.
      * intros F. rewrite F in Ei. discriminate Ei.
      * symmetry. apply String.eqb_eq, E.
    + cbn [lookup_get].
      destruct (String.eqb key (_normalize_text product_name)) eqn:E.
      * intros H. injection H as <-. right. split; [reflexivity|]. right.
        exists product_name. split; [reflexivity|]. split.
        -- intros F. rewrite F in En. discriminate En.
        -- symmetry. apply String.eqb_eq, E.
      * destruct (p_id product) as [[product_id|z]|]; auto.
        destruct (is_empty product_id) eqn:Ei; auto.
        simpl. destruct (String.eqb key (_normalize_text product_id)) eqn:E';
          auto.
        intros H. injection H as <-. right. split; [reflexivity|]. left.
        exists product_id. split; [reflexivity|]. split.
        -- intros F. rewrite F in Ei. discriminate Ei.
        -- symmetry. apply String.eqb_eq, E'.
  - destruct (p_id product) as [[product_id|z]|]; auto.
    destruct (is_empty product_id) eqn:Ei; auto.
    simpl. destruct (String.eqb key (_normalize_text product_id)) eqn:E;
      auto.
    intros H. injection H as <-. right. split; [reflexivity|]. left.
    exists product_id. split; [reflexivity|]. split.
    + intros F. rewrite F in Ei. discriminate Ei.
    + symmetry. apply String.eqb_eq, E.
Qed.

Lemma lookup_sound (key : string) (products : list Product)
      (lookup : list (string * Product)) (q : Product) :
  lookup_get key (fold_left add_lookup products lookup) = Some q ->
  lookup_get key lookup = Some q \/ (In q products /\ keyed key q).
Proof.
  revert lookup. induction products as [|p ps IH]; intros lookup; simpl;
    [auto|].
  intros H. apply IH in H. destruct H as [H|[H K]]; [|auto].
  apply add_lookup_sound in H. destruct H as [H|[-> K]]; auto.
Qed.

(** X14: a cart line is only ever resolved to a row of the catalog that is
    filed under the normalized identifier or name of that line; at most
    one row is resolved per cart line. *)
Theorem resolve_cart_products_sound
        (cart_items : list CartItem) (products : list Product)
        (product : Product) :
  In product (_resolve_cart_products cart_items products) ->
  In product products
  /\ (exists item,
         In item cart_items
         /\ (keyed (_normalize_text (id item)) product
             \/ keyed (_normalize_text (name item)) product))
  /\ (List.length (_resolve_cart_products cart_items products)
      <= List.length cart_items)%nat.
Proof.
  unfold _resolve_cart_products.
  destruct cart_items as [|ci cis]; [intros []|].
  destruct products as [|p ps]; [intros []|].
  cbv zeta. set (lookup := fold_left add_lookup (p :: ps) []).
  intros H. split; [|split].
  - apply in_flat_map in H. destruct H as [item [_ H]].
    destruct (lookup_get (_normalize_text (id item)) lookup) as [q|] eqn:E1.
    + destruct H as [<-|[]]. apply lookup_sound in E1.
      destruct E1 as [E1|[E1 _]]; [discriminate E1|exact E1].
    + destruct (lookup_get (_normalize_text (name item)) lookup) as [q|]
        eqn:E2; [|destruct H].
      destruct H as [<-|[]]. apply lookup_sound in E2.
      destruct E2 as [E2|[E2 _]]; [discriminate E2|exact E2].
  - apply in_flat_map in H. destruct H as [item [Hi H]].
    exists item. split; [exact Hi|].
    destruct (lookup_get (_normalize_text (id item)) lookup) as [q|] eqn:E1.
    + destruct H as [<-|[]]. apply lookup_sound in E1.
      destruct E1 as [E1|[_ E1]]; [discriminate E1|left; exact E1].
    + destruct (lookup_get (_normalize_text (name item)) lookup) as [q|]
        eqn:E2; [|destruct H].
      destruct H as [<-|[]]. apply lookup_sound in E2.
      destruct E2 as [E2|[_ E2]]; [discriminate E2|right; exact E2].
  - clear H. generalize (ci :: cis). intros l.
    induction l as [|item l IH]; simpl; [lia|].
    rewrite length_app.
    destruct (lookup_get (_normalize_text (id item)) lookup); simpl;
      [lia|].
    destruct (lookup_get (_normalize_text (name item)) lookup); simpl; lia.
Qed.

Lemma resolve_cart_products_sound_witness :
  _resolve_cart_products [cart_tv; cart_hdmi] [row_tv; row_cable] = [row_tv]
  /\ In row_tv [row_tv; row_cable]
  /\ keyed (_normalize_text (id cart_tv)) row_tv.
Proof.
  assert (_resolve_cart_products [cart_tv; cart_hdmi] [row_tv; row_cable]
          = [row_tv]) as E by (vm_compute; reflexivity).
  split; [exact E|].
  destruct (resolve_cart_products_sound
              [cart_tv; cart_hdmi] [row_tv; row_cable] row_tv) as [H _].
  - rewrite E. left. reflexivity.
  - split; [exact H|]. left. exists "tv-55".
    split; [reflexivity|]. split; [discriminate|vm_compute; reflexivity].
Defined.

End CrossSellDbFacts.

(** ** Solution bundle builder: further properties *)

Module BundleMoreFacts.
Import PyFloat Bundle BundleSpec BundleMoreSpec Samples MoreSamples.

(** X15: excluding accessories never empties a slot: the bundle filter
    returns no candidate exactly when no product name matches the slot's
    keywords, and it only returns such name matches. *)
Theorem filter_products_for_bundle_fallback
        (products : list Product) (include_keywords : list string)
        (accessory_exclusions : option (list string)) :
  (_filter_products_for_bundle products include_keywords accessory_exclusions
   = []
   <-> _filter_products_by_name_keywords products include_keywords = [])
  /\ incl (_filter_products_for_bundle products include_keywords
                                       accessory_exclusions)
          (_filter_products_by_name_keywords products include_keywords)
  /\ incl (_filter_products_by_name_keywords products include_keywords)
          products.
Proof.
  split; [|split].
  - unfold _filter_products_for_bundle.
    destruct (_filter_products_by_name_keywords products include_keywords)
      as [|c cs]; [tauto|].
    destruct accessory_exclusions as [[|e es]|]; try tauto.
    destruct (filter _ (c :: cs)); split; discriminate.
  - intros q. apply BundleFacts.filter_for_bundle_incl.
  - intros q. apply BundleFacts.name_keywords_incl.
Qed.

Lemma sort_products_In (products : list Product) (preference : string)
      (x : Product) :
  In x (_sort_products_by_price products preference) <-> In x products.
Proof.
  unfold _sort_products_by_price. destruct products as [|p ps]; [tauto|].
  cbv zeta. destruct (String.eqb _ "high").
  - rewrite <- in_rev. apply sorted_In.
  - apply sorted_In.
Qed.

Lemma find_first_sorted {A : Type} (R : A -> A -> Prop) (f : A -> bool)
      (l : list A) (p : A) :
  (forall a, R a a) -> StronglySorted R l -> find f l = Some p ->
  forall q, In q l -> f q = true -> R p q.
Proof.
  intros Hr Hs. induction Hs as [|x l Hs IH Hx]; simpl; [discriminate|].
  destruct (f x) eqn:E.
  - intros H q Hq _. injection H as <-. destruct Hq as [<-|Hq]; [apply Hr|].
    rewrite Forall_forall in Hx. apply Hx, Hq.
  - intros H q [<-|Hq] Hf; [congruence|]. apply IH; assumption.
Qed.

Lemma ltb_irrefl_key (a : Product) : in_price_order a a.
Proof.
  unfold in_price_order, cheaper, PyFloat.ltb.
  destruct (price_key a) as [|s|v]; simpl; [reflexivity| |].
  - rewrite Bool.eqb_reflx. reflexivity.
  - rewrite Z.compare_refl. reflexivity.
Qed.

Lemma priced_key (product : Product) :
  PyFloat.gtb (_extract_price_from_product product) (Fin 0) = true ->
  price_key product = _extract_price_from_product product.
Proof. unfold price_key. intros ->. reflexivity. Qed.

(** X16: [_select_product_by_price] returns a product of the list unless
    the list is empty; it returns one with a positive price if there is
    any, and under the preference "low" no product with a positive price
    is cheaper than the one returned. *)
Theorem select_product_by_price_spec
        (products : list Product) (preference : string) :
  (_select_product_by_price products preference = None <-> products = [])
  /\ (forall p, _select_product_by_price products preference = Some p ->
        In p products
        /\ ((exists q, In q products
                       /\ PyFloat.gtb (_extract_price_from_product q) (Fin 0)
                          = true) ->
            PyFloat.gtb (_extract_price_from_product p) (Fin 0) = true))
  /\ (forall p q, _select_product_by_price products "low" = Some p ->
        In q products ->
        PyFloat.gtb (_extract_price_from_product q) (Fin 0) = true ->
        PyFloat.ltb (_extract_price_from_product q)
                    (_extract_price_from_product p) = false).
Proof.
  split; [|split].
  - unfold _select_product_by_price.
    destruct (find _ (_sort_products_by_price products preference)) eqn:E;
      [split; [discriminate|]|].
    + intros ->. discriminate E.
    + destruct products as [|p ps]; [tauto|].
      split; [|discriminate].
      destruct (_sort_products_by_price (p :: ps) preference) eqn:Es;
        [|discriminate].
      exfalso.
      assert (In p (_sort_products_by_price (p :: ps) preference))
        by (apply sort_products_In; left; reflexivity).
      rewrite Es in *. contradiction.
  - intros p. unfold _select_product_by_price.
    destruct (find _ (_sort_products_by_price products preference)) as [x|]
      eqn:E.
    + intros H. injection H as <-. apply find_some in E.
      destruct E as [Hin Hp]. split; [|auto].
      apply (sort_products_In products preference), Hin.
    + intros H. split.
      * apply (sort_products_In products preference).
        destruct (_sort_products_by_price products preference);
          [discriminate H|]. injection H as <-. left. reflexivity.
      * intros [q [Hq Hp]]. exfalso.
        apply (sort_products_In products preference) in Hq.
        pose proof (find_none _ _ E q Hq) as F. simpl in F. congruence.
  - intros p q H Hq Hp. unfold _select_product_by_price in H.
    rewrite BundleFacts.sort_low in H.
    assert (In q (sorted cheaper products)) as Hq' by (apply sorted_In, Hq).
    destruct (find _ (sorted cheaper products)) as [x|] eqn:E.
    + injection H as <-.
      pose proof (find_first_sorted in_price_order _ _ x
                    ltb_irrefl_key
                    (BundleFacts.sort_low_sorted products) E q Hq' Hp) as R.
      unfold in_price_order, cheaper in R.
      apply find_some in E. destruct E as [_ Hx].
      rewrite (priced_key q Hp), (priced_key x Hx) in R. exact R.
    + pose proof (find_none _ _ E q Hq') as F. simpl in F. congruence.
Qed.

Lemma StronglySorted_snoc {A : Type} (R : A -> A -> Prop) (l : list A)
      (x : A) :
  StronglySorted R l -> Forall (fun y => R y x) l ->
  StronglySorted R (l ++ [x]).
Proof.
  intros Hs. induction Hs as [|y l Hs IH Hy]; intros Hx; simpl.
  - repeat constructor.
  - inversion Hx as [|? ? Hyx Hl]; subst. constructor; [apply IH, Hl|].
    apply Forall_app. split; [exact Hy|]. repeat constructor. exact Hyx.
Qed.

Lemma StronglySorted_rev {A : Type} (R : A -> A -> Prop) (l : list A) :
  StronglySorted R l -> StronglySorted (fun a b => R b a) (rev l).
Proof.
  intros Hs. induction Hs as [|x l Hs IH Hx]; simpl; [constructor|].
  apply StronglySorted_snoc; [exact IH|].
  rewrite Forall_forall in Hx |- *. intros y Hy. apply Hx, in_rev, Hy.
Qed.

(** X26: [_sort_products_by_price] only reorders the products.  The
    preference "high", in any letter case, gives descending order of
    price, where a product without a positive price counts as the most
    expensive and so comes first; every other preference, the empty one
    included, gives the ascending order, such products last.  The
    descending list is the ascending one reversed. *)
Theorem sort_products_by_price_spec
        (products : list Product) (preference : string) :
  Permutation products (_sort_products_by_price products preference)
  /\ (lower preference = "high" ->
      _sort_products_by_price products preference
      = rev (_sort_products_by_price products "low")
      /\ StronglySorted (fun a b => in_price_order b a)
                        (_sort_products_by_price products preference))
  /\ (lower preference <> "high" ->
      _sort_products_by_price products preference
      = _sort_products_by_price products "low"
      /\ StronglySorted in_price_order
                        (_sort_products_by_price products preference)).
Proof.
  rewrite BundleFacts.sort_low.
  unfold _sort_products_by_price. destruct products as [|p ps].
  { split; [constructor|]. split; intros _; split; constructor. }
  cbv zeta.
  assert (lower (if is_empty preference then "low" else preference) = "high"
          <-> lower preference = "high") as Hp.
  { destruct preference; simpl; split; intros H; auto; discriminate H. }
  destruct (String.eqb (lower (if is_empty preference then "low"
                               else preference)) "high") eqn:E.
  - apply String.eqb_eq, Hp in E. split; [|split].
    + eapply Permutation_trans; [apply (sorted_perm cheaper)|].
      apply Permutation_rev.
    + intros _. split; [reflexivity|].
      apply StronglySorted_rev, BundleFacts.sort_low_sorted.
    + intros H. contradiction.
  - apply String.eqb_neq in E. split; [apply sorted_perm|]. split.
    + intros H. apply Hp in H. contradiction.
    + intros _. split; [reflexivity|apply BundleFacts.sort_low_sorted].
Qed.

Lemma sort_products_by_price_spec_witness :
  map get_name
      (_sort_products_by_price [tv_free; tv_top; tv_cheap; tv_mid] "High")
  = ["Smart TV 55"; "QLED TV 65"; "OLED TV 50"; "Smart TV 43"]
  /\ StronglySorted (fun a b => in_price_order b a)
       (_sort_products_by_price [tv_free; tv_top; tv_cheap; tv_mid] "High").
Proof.
  split; [vm_compute; reflexivity|].
  apply (sort_products_by_price_spec [tv_free; tv_top; tv_cheap; tv_mid]
                                     "High").
  vm_compute. reflexivity.
Defined.

Lemma ids_of_app (a b : list Product) :
  ids_of (a ++ b) = (ids_of a ++ ids_of b)%list.
Proof. unfold ids_of. now rewrite map_app, filter_app. Qed.

Lemma ids_of_one (p : Product) :
  ids_of [p] = if is_empty (id_text p) then [] else [id_text p].
Proof. unfold ids_of. simpl. destruct (is_empty (id_text p)); reflexivity. Qed.

(** the selection loop on any list: what it adds is new *)
Lemma select_loop_inv (limit : Z) (l : list Product) :
  forall (selected : list Product) (seen seen' : list string)
         (picked : list Product),
    Z.of_nat (List.length selected) < limit ->
    select_loop limit l selected seen = (picked, seen') ->
    exists added,
      picked = (selected ++ added)%list
      /\ Z.of_nat (List.length picked) <= limit
      /\ incl added l
      /\ NoDup (ids_of added)
      /\ (forall s, In s (ids_of added) -> ~ In s seen)
      /\ (forall s, In s seen' <-> In s seen \/ In s (ids_of added)).
Proof.
  induction l as [|p rest IH]; intros selected seen seen' picked Hlen;
    cbn [select_loop].
  - intros H. injection H as <- <-. exists []. rewrite app_nil_r.
    split; [reflexivity|]. split; [lia|]. split; [intros x []|].
    split; [constructor|]. split; [intros s []|]. intros s. simpl. tauto.
  - destruct (negb (is_empty (id_text p)) && mem (id_text p) seen) eqn:Ed.
    + intros H. destruct (IH _ _ _ _ Hlen H) as [added [E [L [I [N [F S]]]]]].
      exists added. split; [exact E|]. split; [exact L|].
      split; [intros x Hx; right; apply I, Hx|]. auto.
    + assert (forall s, In s (ids_of [p]) -> ~ In s seen) as Fp.
      { intros s. rewrite ids_of_one.
        destruct (is_empty (id_text p)) eqn:Ee; [intros []|].
        intros [<-|[]] Hin. apply BundleFacts.mem_In in Hin.
        rewrite Hin in Ed. discriminate Ed. }
      assert (forall s,
                 In s (if is_empty (id_text p) then seen
                       else id_text p :: seen)
                 <-> In s seen \/ In s (ids_of [p])) as Sp.
      { intros s. rewrite ids_of_one.
        destruct (is_empty (id_text p)); simpl; tauto. }
      assert (NoDup (ids_of [p])) as Np.
      { rewrite ids_of_one. destruct (is_empty (id_text p));
          repeat constructor. intros []. }
      destruct (limit <=? Z.of_nat (List.length (selected ++ [p]))) eqn:El.
      * intros H. injection H as <- <-. exists [p].
        split; [reflexivity|]. split.
        { rewrite length_app in *. simpl in *. lia. }
        split; [intros x [<-|[]]; left; reflexivity|]. auto.
      * apply Z.leb_gt in El. intros H.
        destruct (IH _ _ _ _ El H) as [added [E [L [I [N [F S]]]]]].
        exists (p :: added). split; [rewrite E, <- app_assoc; reflexivity|].
        split; [exact L|].
        split; [intros x [<-|Hx]; [left; reflexivity|right; apply I, Hx]|].
        change (p :: added) with ([p] ++ added)%list. rewrite ids_of_app.
        split; [|split].
        -- apply NoDup_app; [exact Np|exact N|].
           intros s Hs Hs'. apply (F s Hs'). apply Sp. right. exact Hs.
        -- intros s Hs. apply in_app_or in Hs. destruct Hs as [Hs|Hs];
             [apply Fp, Hs|].
           intros Hin. apply (F s Hs). apply Sp. left. exact Hin.
        -- intros s. rewrite S, Sp, in_app_iff. tauto.
Qed.

Lemma select_products_inv (products : list Product) (preference : string)
      (limit : Z) (seen seen' : list string) (chosen : list Product) :
  _select_products_by_price products preference limit seen = (chosen, seen') ->
  Z.of_nat (List.length chosen) <= Z.max 0 limit
  /\ incl chosen products
  /\ NoDup (ids_of chosen)
  /\ (forall s, In s (ids_of chosen) -> ~ In s seen)
  /\ (forall s, In s seen' <-> In s seen \/ In s (ids_of chosen)).
Proof.
  unfold _select_products_by_price.
  assert (forall s, In s seen <-> In s seen \/ In s (ids_of [])) as S0
      by (intros s; simpl; tauto).
  destruct products as [|p ps].
  { intros H. injection H as <- <-. simpl List.length.
    split; [lia|]. split; [intros x []|]. split; [constructor|].
    split; [intros s []|exact S0]. }
  destruct (limit <=? 0) eqn:El.
  { intros H. injection H as <- <-. simpl List.length.
    split; [lia|]. split; [intros x []|]. split; [constructor|].
    split; [intros s []|exact S0]. }
  apply Z.leb_gt in El. intros H.
  apply select_loop_inv in H; [|simpl; lia].
  destruct H as [added [E [L [I [N [F S]]]]]]. simpl in E. subst chosen.
  split; [lia|]. split; [|auto].
  intros x Hx. apply (sort_products_In (p :: ps) preference), I, Hx.
Qed.

Lemma fill_slot_inv (products : list Product) (price_preference : string)
      (n : Z) (acc : list Product * list string)
      (slot : list string * string * bool * Z) :
  bundle_inv products n acc ->
  bundle_inv products (n + Z.max 0 (snd slot))
             (fill_slot products price_preference acc slot).
Proof.
  destruct acc as [bundle_items seen_ids].
  destruct slot as [[[keywords label] exclude] limit].
  unfold fill_slot.
  destruct (_select_products_by_price
              (slot_candidates products (keywords, label, exclude, limit))
              price_preference limit seen_ids) as [chosen seen'] eqn:E.
  apply select_products_inv in E. destruct E as [L [I [N [F S]]]].
  intros [L0 [I0 [N0 S0]]]. unfold bundle_inv. cbn [fst snd] in *.
  split; [rewrite length_app; lia|]. split; [|split].
  - intros x Hx. apply in_app_or in Hx. destruct Hx as [Hx|Hx];
      [apply I0, Hx|].
    apply I in Hx. unfold slot_candidates in Hx.
    eapply BundleFacts.name_keywords_incl, BundleFacts.filter_for_bundle_incl, Hx.
  - rewrite ids_of_app. apply NoDup_app; [exact N0|exact N|].
    intros s Hs Hs'. apply (F s Hs'), S0, Hs.
  - intros s. rewrite ids_of_app, in_app_iff, S. intros [Hs|Hs]; auto.
Qed.

Lemma build_catalog_inv (products : list Product) (price_preference : string) :
  bundle_inv products 6
             (fold_left (fill_slot products price_preference) selections
                        ([], [])).
Proof.
  assert (bundle_inv products 0 ([], [])) as H0.
  { unfold bundle_inv. simpl. split; [lia|]. split; [intros x []|].
    split; [constructor|intros s []]. }
  unfold selections. cbn [fold_left].
  apply (fill_slot_inv products price_preference 5 _
           (CROSS_SELL_LED_KEYWORDS, "led", true, 1)).
  apply (fill_slot_inv products price_preference 4 _
           (SOLUTION_BUNDLE_SUBWOOFER_KEYWORDS, "subwoofer", true, 1)).
  apply (fill_slot_inv products price_preference 2 _
           (SOLUTION_BUNDLE_SOUNDBAR_KEYWORDS, "soundbar", true, 2)).
  apply (fill_slot_inv products price_preference 0 _
           (CROSS_SELL_TV_KEYWORDS, "tv", true, 2)).
  exact H0.
Qed.

Lemma build_catalog_spec (products : list Product)
      (price_preference : string) :
  (List.length (_build_solution_bundle_catalog products price_preference)
   <= 6)%nat
  /\ incl (_build_solution_bundle_catalog products price_preference) products
  /\ NoDup (ids_of (_build_solution_bundle_catalog products price_preference)).
Proof.
  unfold _build_solution_bundle_catalog. destruct products as [|p ps].
  - simpl. split; [lia|]. split; [intros x []|constructor].
  - destruct (build_catalog_inv (p :: ps) price_preference) as [L [I [N _]]].
    split; [lia|]. split; [exact I|exact N].
Qed.

(** X17: a bundle that [solution_bundle_recommendations] returns, for either
    price preference, has at most six products, all taken from the
    catalog, and no identifier occurs in it twice. *)
Theorem solution_bundle_is_small_and_distinct
        (goal price_preference : string) (products bundle : list Product) :
  solution_bundle_recommendations goal price_preference products
  = inr bundle ->
  (List.length bundle <= 6)%nat
  /\ incl bundle products
  /\ NoDup (ids_of bundle).
Proof.
  unfold solution_bundle_recommendations.
  destruct (negb (any_in SOLUTION_BUNDLE_GOAL_KEYWORDS (_normalize_text goal)));
    [discriminate|].
  cbv zeta.
  destruct (negb (mem (coerce_price_preference price_preference)
                      ["low"; "high"])); [discriminate|].
  destruct products as [|p ps]; [discriminate|].
  intros H.
  assert (bundle
          = _build_solution_bundle_catalog
              (p :: ps) (coerce_price_preference price_preference)) as ->
      by congruence.
  apply build_catalog_spec.
Qed.

Lemma solution_bundle_is_small_and_distinct_witness :
  solution_bundle_recommendations
    "Home-Theater" " HIGH " [tv_free; tv_top; tv_cheap; tv_mid]
  = inr [tv_free; tv_cheap; tv_top]
  /\ (List.length [tv_free; tv_cheap; tv_top] <= 6)%nat
  /\ NoDup (ids_of [tv_free; tv_cheap; tv_top]).
Proof.
  assert (solution_bundle_recommendations
            "Home-Theater" " HIGH " [tv_free; tv_top; tv_cheap; tv_mid]
          = inr [tv_free; tv_cheap; tv_top]) as E by (vm_compute; reflexivity).
  split; [exact E|].
  destruct (solution_bundle_is_small_and_distinct _ _ _ _ E) as [L [_ N]].
  split; assumption.
Defined.

(** *** The bundle, slot by slot *)











End BundleMoreFacts.

(** ** Checkout amounts: further properties *)

Module CheckoutMoreFacts.
Import Checkout CheckoutSpec TextSpec Samples.

Lemma currency_exponent_upper (currency : string) :
  _currency_exponent (upper currency) = _currency_exponent currency.
Proof. unfold _currency_exponent. now rewrite TextFacts.lower_upper. Qed.

Lemma currency_exponent_lower (currency : string) :
  _currency_exponent (lower currency) = _currency_exponent currency.
Proof. unfold _currency_exponent. now rewrite TextFacts.lower_idem. Qed.

Lemma sum_items_ext (c1 c2 : string) (items : list CartItem) (acc : Z) :
  _currency_exponent c1 = _currency_exponent c2 ->
  sum_items items c1 acc = sum_items items c2 acc.
Proof.
  intros E. revert acc. induction items as [|item rest IH]; intros acc;
    [reflexivity|].
  cbn [sum_items]. unfold _to_minor_amount. rewrite E.
  destruct (quantize (unit_amount_major item) (_currency_exponent c2));
    [reflexivity|].
  destruct (_ <=? 0); [reflexivity|apply IH].
Qed.

Lemma totals_ext (c1 c2 : string) (items : list CartItem)
      (promo_code : option string) :
  _currency_exponent c1 = _currency_exponent c2 -> upper c1 = upper c2 ->
  _compute_checkout_totals items c1 promo_code
  = _compute_checkout_totals items c2 promo_code.
Proof.
  intros E U. unfold _compute_checkout_totals.
  rewrite (sum_items_ext c1 c2 items 0 E), U. reflexivity.
Qed.

Lemma promo_applies_lower (promo_code : option string) :
  promo_applies (option_map lower promo_code) = promo_applies promo_code.
Proof.
  destruct promo_code as [[|a code]|]; try reflexivity.
  unfold promo_applies, option_map. rewrite TextFacts.upper_lower.
  reflexivity.
Qed.

Lemma promo_applies_upper (promo_code : option string) :
  promo_applies (option_map upper promo_code) = promo_applies promo_code.
Proof.
  destruct promo_code as [[|a code]|]; try reflexivity.
  unfold promo_applies, option_map. rewrite TextFacts.upper_idem.
  reflexivity.
Qed.

(** X18: for an ASCII currency code and an ASCII promotion code the
    checkout totals do not depend on the letter case of either, nor does
    the conversion to minor units; the number of decimals of a currency is
    0, 2 or 3. *)
Theorem checkout_ignores_letter_case
        (items : list CartItem) (currency : string)
        (promo_code : option string) :
  is_ascii currency = true ->
  match promo_code with
  | Some code => is_ascii code = true
  | None => True
  end ->
  _compute_checkout_totals items (upper currency) promo_code
  = _compute_checkout_totals items currency promo_code
  /\ _compute_checkout_totals items (lower currency) promo_code
     = _compute_checkout_totals items currency promo_code
  /\ _compute_checkout_totals items currency (option_map lower promo_code)
     = _compute_checkout_totals items currency promo_code
  /\ _compute_checkout_totals items currency (option_map upper promo_code)
     = _compute_checkout_totals items currency promo_code
  /\ (forall amount_major,
        _to_minor_amount amount_major (upper currency)
        = _to_minor_amount amount_major currency
        /\ _to_minor_amount amount_major (lower currency)
           = _to_minor_amount amount_major currency)
  /\ In (_currency_exponent currency) [0; 2; 3].
Proof.
  intros _ _.
  split; [|split; [|split; [|split; [|split]]]].
  - apply totals_ext; [apply currency_exponent_upper|apply TextFacts.upper_idem].
  - apply totals_ext; [apply currency_exponent_lower|apply TextFacts.upper_lower].
  - unfold _compute_checkout_totals. rewrite promo_applies_lower.
    reflexivity.
  - unfold _compute_checkout_totals. rewrite promo_applies_upper.
    reflexivity.
  - intros amount_major. unfold _to_minor_amount.
    rewrite currency_exponent_upper, currency_exponent_lower. auto.
  - unfold _currency_exponent.
    destruct (mem (lower currency) ZERO_DECIMAL_CURRENCIES); [simpl; auto|].
    destruct (mem (lower currency) THREE_DECIMAL_CURRENCIES); simpl; auto.
Qed.

Lemma checkout_ignores_letter_case_witness :
  _compute_checkout_totals [item_cable] "eur" (Some "welcome10")
  = inr (mkTotals 3998 399 0 500 4099 "EUR")
  /\ _compute_checkout_totals [item_cable] (upper "eur") (Some "welcome10")
     = inr (mkTotals 3998 399 0 500 4099 "EUR")
  /\ _compute_checkout_totals [item_cable] "eur"
                              (option_map upper (Some "welcome10"))
     = inr (mkTotals 3998 399 0 500 4099 "EUR").
Proof.
  assert (_compute_checkout_totals [item_cable] "eur" (Some "welcome10")
          = inr (mkTotals 3998 399 0 500 4099 "EUR")) as E
      by (vm_compute; reflexivity).
  destruct (checkout_ignores_letter_case
              [item_cable] "eur" (Some "welcome10")
              ltac:(vm_compute; reflexivity) ltac:(vm_compute; reflexivity))
    as [H1 [_ [_ [H4 _]]]].
  split; [exact E|]. split; [rewrite H1; exact E|rewrite H4; exact E].
Defined.

Lemma quot_scaled (q places : Z) :
  0 <= places -> Z.quot (q * 10 ^ places) (10 ^ places) = q.
Proof.
  intros H. apply Z.quot_mul.
  pose proof (Z.pow_pos_nonneg 10 places ltac:(lia) H). lia.
Qed.

Lemma currency_exponent_nonneg (currency : string) :
  0 <= _currency_exponent currency.
Proof.
  unfold _currency_exponent.
  destruct (mem (lower currency) ZERO_DECIMAL_CURRENCIES); [lia|].
  destruct (mem (lower currency) THREE_DECIMAL_CURRENCIES); lia.
Qed.

(** X19: a unit amount that converts is rounded to the nearest minor unit:
    when the amount has no digits beyond the minor unit the conversion is
    exact, otherwise the result is off by at most half a minor unit and a
    tie goes away from zero; the result has fewer than 29 digits and the
    sign of the amount. *)
Theorem to_minor_amount_rounds_to_nearest
        (amount_major : decimal) (currency : string) (minor : Z) :
  _to_minor_amount amount_major currency = inr minor ->
  let shift := exponent amount_major + _currency_exponent currency in
  (0 <= shift -> minor = coefficient amount_major * 10 ^ shift)
  /\ (shift < 0 ->
      2 * Z.abs (minor * 10 ^ (- shift) - coefficient amount_major)
      <= 10 ^ (- shift)
      /\ (2 * Z.abs (minor * 10 ^ (- shift) - coefficient amount_major)
          = 10 ^ (- shift) ->
          Z.abs (coefficient amount_major) < Z.abs (minor * 10 ^ (- shift))))
  /\ Z.abs minor < 10 ^ 28
  /\ Z.sgn minor * Z.sgn (coefficient amount_major) >= 0.
Proof.
  unfold _to_minor_amount, quantize.
  pose proof (currency_exponent_nonneg currency) as Hp.
  set (places := _currency_exponent currency) in *.
  destruct amount_major as [c e]. cbn [coefficient exponent].
  set (shift := e + places). cbv zeta.
  match goal with
  | |- context [if 10 ^ prec <=? ?r then _ else _] => set (rounded := r)
  end.
  destruct (10 ^ prec <=? rounded) eqn:Eb; [discriminate|].
  apply Z.leb_gt in Eb. rewrite quot_scaled by exact Hp.
  intros H. injection H as <-.
  assert (0 <= rounded) as Hr.
  { unfold rounded. destruct (0 <=? shift) eqn:Es.
    - apply Z.leb_le in Es.
      pose proof (Z.pow_pos_nonneg 10 shift ltac:(lia) Es).
      pose proof (Z.abs_nonneg c). nia.
    - apply Z.leb_gt in Es.
      pose proof (Z.pow_pos_nonneg 10 (- shift) ltac:(lia) ltac:(lia)) as HU.
      pose proof (Z.div_pos (Z.abs c) (10 ^ (- shift)) (Z.abs_nonneg c) HU).
      destruct (_ <=? _); lia. }
  split; [|split; [|split]].
  - intros Hs. unfold rounded.
    replace (0 <=? shift) with true by (symmetry; apply Z.leb_le, Hs).
    rewrite Z.mul_assoc. f_equal.
    rewrite Z.mul_comm. apply Z.abs_sgn.
  - intros Hs. unfold rounded in *.
    replace (0 <=? shift) with false in * by (symmetry; apply Z.leb_gt, Hs).
    pose proof (Z.pow_pos_nonneg 10 (- shift) ltac:(lia) ltac:(lia)) as HU.
    set (U := 10 ^ (- shift)) in *.
    pose proof (Z.div_mod (Z.abs c) U ltac:(lia)) as Hdm.
    pose proof (Z.mod_pos_bound (Z.abs c) U HU) as Hm.
    set (q := Z.abs c / U) in *. set (r := Z.abs c mod U) in *.
    destruct (U <=? 2 * r) eqn:Eu;
      [apply Z.leb_le in Eu|apply Z.leb_gt in Eu];
      destruct (Z.abs_spec c) as [[Hc Ha]|[Hc Ha]];
      destruct (Z.sgn_spec c) as [[Hc' Hsg]|[[Hc' Hsg]|[Hc' Hsg]]];
      try lia; rewrite Hsg, Ha in *; split; try nia.
  - rewrite Z.abs_mul.
    destruct (Z.sgn_spec c) as [[_ ->]|[[_ ->]|[_ ->]]]; simpl Z.abs;
      rewrite ?Z.abs_eq by lia; unfold prec in Eb; lia.
  - destruct (Z.sgn_spec c) as [[_ ->]|[[_ ->]|[_ ->]]];
      destruct (Z.sgn_spec rounded) as [[? ?]|[[? ?]|[? ?]]]; try lia;
      subst; rewrite ?Z.mul_0_l, ?Z.mul_0_r, ?Z.mul_1_l; simpl; try lia.
Qed.

Lemma to_minor_amount_rounds_to_nearest_witness :
  _to_minor_amount (mkDecimal 10005 (-3)) "EUR" = inr 1001
  /\ 2 * Z.abs (1001 * 10 ^ 1 - 10005) <= 10 ^ 1
  /\ Z.abs 10005 < Z.abs (1001 * 10 ^ 1).
Proof.
  assert (_to_minor_amount (mkDecimal 10005 (-3)) "EUR" = inr 1001) as E
      by (vm_compute; reflexivity).
  split; [exact E|].
  destruct (to_minor_amount_rounds_to_nearest _ _ _ E) as [_ [H _]].
  destruct (H ltac:(vm_compute; reflexivity)) as [H1 H2].
  split; [exact H1|]. apply H2. vm_compute. reflexivity.
Defined.

(** X20: an empty cart is not rejected: its totals are all zero, except
    that in EUR the shipping fee of 500 minor units is charged and so is
    the grand total. *)
Theorem compute_checkout_totals_empty_cart
        (currency : string) (promo_code : option string) :
  _compute_checkout_totals [] currency promo_code
  = inr (if String.eqb (upper currency) "EUR"
         then mkTotals 0 0 0 500 500 "EUR"
         else mkTotals 0 0 0 0 0 (upper currency)).
Proof.
  unfold _compute_checkout_totals. cbn [sum_items].
  assert ((if promo_applies promo_code then ten_percent 0 else inr 0)
          = inr 0) as ->.
  { destruct (promo_applies promo_code); [|reflexivity].
    apply (CheckoutFacts.ten_percent_exact 0). split; [lia|].
    apply Z.pow_pos_nonneg; lia. }
  destruct (String.eqb (upper currency) "EUR") eqn:E.
  - rewrite (CheckoutFacts.below_free_shipping_exact 0)
      by (split; [lia|apply Z.pow_pos_nonneg; lia]).
    apply String.eqb_eq in E. rewrite E. reflexivity.
  - reflexivity.
Qed.

End CheckoutMoreFacts.

(** ** Strict product-type filter *)

Module StrictTypeFacts.
Import StrictTypeSpec.

Lemma prefix_app (a b text : string) :
  String.prefix (a ++ b) text = true -> String.prefix a text = true.
Proof.
  revert text. induction a as [|c a IH]; intros text;
    [destruct text; reflexivity|].
  destruct text as [|d text]; simpl; [discriminate|].
  destruct (ascii_dec c d); [apply IH|discriminate].
Qed.

Lemma contains_app (a b text : string) :
  contains (a ++ b) text = true -> contains a text = true.
Proof.
  induction text as [|d text IH]; cbn [contains].
  - destruct (String.prefix (a ++ b) "") eqn:E; [|discriminate].
    intros _. now rewrite (prefix_app a b "" E).
  - destruct (String.prefix (a ++ b) (String d text)) eqn:E.
    + intros _. now rewrite (prefix_app a b _ E).
    + intros H. rewrite (IH H). destruct (String.prefix a _); reflexivity.
Qed.

Lemma strict_keyword_names_type (type_kw text : string) :
  In type_kw _STRICT_TYPE_KEYWORDS -> contains type_kw text = true ->
  names_laptop_type text = true.
Proof.
  unfold names_laptop_type, any_in. cbn [existsb _STRICT_TYPE_KEYWORDS In].
  intros [<-|[<-|[<-|[<-|[]]]]] H.
  - now rewrite H.
  - rewrite (contains_app "laptop" "s" text H). reflexivity.
  - rewrite H. now rewrite orb_true_r.
  - rewrite H. now rewrite !orb_true_r.
Qed.

Lemma any_in_names_type (strict_matches : list string) (text : string) :
  incl strict_matches _STRICT_TYPE_KEYWORDS ->
  any_in strict_matches text = true -> names_laptop_type text = true.
Proof.
  intros I H. unfold any_in in H. apply existsb_exists in H.
  destruct H as [kw [Hk Hc]]. eapply strict_keyword_names_type; eauto.
Qed.

(** X21: the strict type filter never adds rows and a second pass
    changes nothing; it either returns its input unchanged or keeps
    only rows whose name or categories name a laptop type, and it returns
    the input unchanged when no keyword names such a type. *)
Theorem filter_products_by_strict_type_keywords_spec
        (products : list Product) (keywords : list string) :
  incl (_filter_products_by_strict_type_keywords products keywords) products
  /\ _filter_products_by_strict_type_keywords
       (_filter_products_by_strict_type_keywords products keywords) keywords
     = _filter_products_by_strict_type_keywords products keywords
  /\ (_filter_products_by_strict_type_keywords products keywords = products
      \/ Forall (fun product => names_laptop_type (type_text product) = true)
                (_filter_products_by_strict_type_keywords products keywords))
  /\ (existsb (fun kw => names_laptop_type (_normalize_text kw))
              (filter (fun kw => negb (is_empty kw)) keywords) = false ->
      _filter_products_by_strict_type_keywords products keywords = products).
Proof.
  unfold _filter_products_by_strict_type_keywords.
  destruct products as [|p ps].
  { split; [intros x []|]. split; [reflexivity|]. split; [auto|auto]. }
  destruct keywords as [|kw kws].
  { split; [intros x Hx; exact Hx|]. split; [reflexivity|]. split; auto. }
  cbv zeta.
  set (normalized_keywords :=
         map _normalize_text
             (filter (fun kw => negb (is_empty kw)) (kw :: kws))).
  set (strict_matches :=
         filter (fun type_kw =>
                   existsb (fun keyword => contains type_kw keyword)
                           normalized_keywords)
                _STRICT_TYPE_KEYWORDS).
  assert (incl strict_matches _STRICT_TYPE_KEYWORDS) as Hs.
  { intros x Hx. apply filter_In in Hx. tauto. }
  assert (existsb (fun kw => names_laptop_type (_normalize_text kw))
                  (filter (fun kw => negb (is_empty kw)) (kw :: kws)) = false ->
          strict_matches = []) as Hnone.
  { intros H. unfold strict_matches.
    assert (forall type_kw, In type_kw _STRICT_TYPE_KEYWORDS ->
              existsb (fun keyword => contains type_kw keyword)
                      normalized_keywords = false) as Hf.
    { intros type_kw Ht.
      destruct (existsb _ normalized_keywords) eqn:E; [|reflexivity].
      apply existsb_exists in E. destruct E as [k [Hk Hc]].
      unfold normalized_keywords in Hk. apply in_map_iff in Hk.
      destruct Hk as [raw [<- Hraw]].
      assert (existsb (fun kw => names_laptop_type (_normalize_text kw))
                      (filter (fun kw => negb (is_empty kw)) (kw :: kws))
              = true) as Ht'; [|congruence].
      apply existsb_exists. exists raw. split; [exact Hraw|].
      eapply strict_keyword_names_type; eauto. }
    unfold _STRICT_TYPE_KEYWORDS in *. cbn [filter].
    rewrite !Hf by (simpl; auto 6). reflexivity. }
  destruct strict_matches as [|m ms] eqn:Em.
  { split; [intros x Hx; exact Hx|]. split; [reflexivity|]. split; auto. }
  split; [|split; [|split]].
  - intros x Hx. apply filter_In in Hx. tauto.
  - match goal with
    | |- context [filter ?h (p :: ps)] => set (kept := filter h (p :: ps))
    end.
    destruct kept as [|q qs] eqn:Ek; [reflexivity|].
    rewrite <- Ek. unfold kept. apply filter_idempotent.
  - right. apply Forall_forall. intros x Hx. apply filter_In in Hx.
    destruct Hx as [_ Hx]. eapply any_in_names_type; [exact Hs|exact Hx].
  - intros H. apply Hnone in H. discriminate H.
Qed.

End StrictTypeFacts.

(** ** HTTP helpers *)

Module HttpFacts.
Import Http HttpSpec.

(** X22: every item [_split_env_list] returns is non-empty and free of
    surrounding blanks; an unset or empty value gives no item. *)
Theorem split_env_list_items (value : option string) :
  Forall (fun item => item <> "" /\ strip item = item)
         (_split_env_list value)
  /\ _split_env_list None = []
  /\ _split_env_list (Some "") = [].
Proof.
  split; [|split; reflexivity].
  unfold _split_env_list. destruct value as [value|]; [|constructor].
  destruct (is_empty value); [constructor|].
  apply Forall_forall. intros item H. apply in_map_iff in H.
  destruct H as [raw [<- H]]. apply filter_In in H. destruct H as [_ H].
  split; [|apply TextFacts.strip_idem].
  intros E. rewrite E in H. discriminate H.
Qed.

(** X23: the CORS headers carry the allow-origin header with "*" when no
    origin list is configured and otherwise with the request's origin,
    whether or not the list names it; without an origin the header is left
    out.  The max-age header is sent exactly on a preflight. *)
Theorem build_cors_headers_spec
        (origin : option string) (allowed_origins : list string)
        (preflight : bool) :
  header_value "access-control-allow-origin"
               (_build_cors_headers origin allowed_origins preflight)
  = match allowed_origins, origin with
    | [], _ => Some "*"
    | _ :: _, Some o => if is_empty o then None else Some o
    | _ :: _, None => None
    end
  /\ header_value "access-control-allow-methods"
                  (_build_cors_headers origin allowed_origins preflight)
     = Some "GET, POST, OPTIONS"
  /\ header_value "access-control-allow-headers"
                  (_build_cors_headers origin allowed_origins preflight)
     = Some "Content-Type, Authorization"
  /\ header_value "access-control-max-age"
                  (_build_cors_headers origin allowed_origins preflight)
     = (if preflight then Some "86400" else None).
Proof.
  unfold _build_cors_headers.
  destruct allowed_origins as [|a rest].
  - destruct preflight; repeat split; reflexivity.
  - destruct origin as [o|]; [|destruct preflight; repeat split; reflexivity].
    destruct o as [|c o]; [destruct preflight; repeat split; reflexivity|].
    change (is_empty (String c o)) with false. cbn [negb andb].
    destruct (mem (String c o) (a :: rest));
      destruct preflight; repeat split; reflexivity.
Qed.

End HttpFacts.

(** ** Idempotency cache *)

Module IdempotencyFacts.
Import Idempotency.

(** X24: a payload saved under a non-empty key and an operation is what
    the next lookup of that pair returns, lookups of other pairs are not
    affected, and a lookup without a key or with the empty key finds
    nothing, whatever was saved. *)
Theorem idempotent_response_round_trip
        (key operation payload_json other_key other_operation : string)
        (entries : cache) :
  key <> "" ->
  _get_idempotent_response
    (Some key) operation
    (_save_idempotent_response key operation payload_json entries)
  = Some payload_json
  /\ ((other_key, other_operation) <> (key, operation) ->
      _get_idempotent_response
        (Some other_key) other_operation
        (_save_idempotent_response key operation payload_json entries)
      = _get_idempotent_response (Some other_key) other_operation entries)
  /\ _get_idempotent_response
       None other_operation
       (_save_idempotent_response key operation payload_json entries)
     = None
  /\ _get_idempotent_response
       (Some "") other_operation
       (_save_idempotent_response "" other_operation payload_json entries)
     = None.
Proof.
  intros Hk. split; [|split; [|split; reflexivity]].
  - unfold _get_idempotent_response, _save_idempotent_response.
    destruct key; [congruence|]. cbn [is_empty cache_get].
    rewrite !String.eqb_refl. reflexivity.
  - intros Hne.
    unfold _get_idempotent_response, _save_idempotent_response.
    destruct (is_empty other_key); [reflexivity|]. cbn [cache_get].
    destruct (String.eqb other_key key) eqn:E1; [|reflexivity].
    destruct (String.eqb other_operation operation) eqn:E2; [|reflexivity].
    apply String.eqb_eq in E1, E2. subst. congruence.
Qed.

Lemma idempotent_response_round_trip_witness :
  _get_idempotent_response
    (Some "k-1") "create"
    (_save_idempotent_response "k-1" "create" "{}"
       (_save_idempotent_response "k-1" "create" "old" []))
  = Some "{}"
  /\ _get_idempotent_response
       (Some "k-1") "complete"
       (_save_idempotent_response "k-1" "create" "{}" [])
     = None.
Proof.
  destruct (idempotent_response_round_trip
              "k-1" "create" "{}" "k-1" "complete"
              (_save_idempotent_response "k-1" "create" "old" []))
    as [H _]; [discriminate|].
  split; [exact H|].
  destruct (idempotent_response_round_trip
              "k-1" "create" "{}" "k-1" "complete" [])
    as [_ [H' _]]; [discriminate|].
  rewrite H' by discriminate. reflexivity.
Defined.

End IdempotencyFacts.

(** ** Places for the widgets *)

Module PlacesFacts.
Import Ranking Places PlacesSpec MoreSamples.

Lemma to_int_not_nil (z : Z) :
  Z.to_int z <> Decimal.Pos Decimal.Nil
  /\ Z.to_int z <> Decimal.Neg Decimal.Nil.
Proof.
  split; intros H; pose proof (f_equal Z.of_int H) as E;
    rewrite DecimalZ.of_to in E; simpl in E; subst z; discriminate H.
Qed.

Lemma str_of_Z_inj (a b : Z) : str_of_Z a = str_of_Z b -> a = b.
Proof.
  unfold str_of_Z. intros H.
  apply (f_equal DecimalString.NilZero.int_of_string) in H.
  destruct (to_int_not_nil a) as [A1 A2].
  destruct (to_int_not_nil b) as [B1 B2].
  rewrite !DecimalString.NilZero.isi in H by assumption.
  apply DecimalZ.to_int_inj. congruence.
Qed.

Lemma append_inj_r (a x y : string) : a ++ x = a ++ y -> x = y.
Proof.
  induction a as [|c a IH]; simpl; [auto|].
  intros H. injection H as H. apply IH, H.
Qed.

Lemma append_length (a b : string) :
  String.length (a ++ b) = (String.length a + String.length b)%nat.
Proof. induction a as [|c a IH]; simpl; [reflexivity|]. now rewrite IH. Qed.

Lemma candidate_inj (original_id : string) (j k : Z) :
  candidate original_id j = candidate original_id k -> j = k.
Proof.
  unfold candidate.
  destruct (j =? 0) eqn:Ej; destruct (k =? 0) eqn:Ek;
    rewrite ?Z.eqb_eq, ?Z.eqb_neq in *.
  - congruence.
  - intros H. apply (f_equal String.length) in H.
    rewrite append_length in H. simpl in H. lia.
  - intros H. apply (f_equal String.length) in H.
    rewrite append_length in H. simpl in H. lia.
  - intros H. apply append_inj_r in H. injection H as H.
    apply str_of_Z_inj, H.
Qed.

Lemma candidate_not_empty (original_id : string) (counter : Z) :
  original_id <> "" -> candidate original_id counter <> "".
Proof.
  intros H. unfold candidate. destruct (counter =? 0); [exact H|].
  destruct original_id; [congruence|discriminate].
Qed.

Lemma base_id_not_empty (idx : Z) (product : Product) :
  base_id idx product <> "".
Proof.
  unfold base_id.
  destruct (p_id product) as [[s|z]|]; cbv zeta; try discriminate.
  - destruct (is_empty s); [discriminate|].
    destruct (is_empty (strip s)) eqn:E; [discriminate|].
    intros F. rewrite F in E. discriminate E.
  - destruct (z =? 0); [discriminate|].
    destruct (is_empty (strip (str_of_Z z))) eqn:E; [discriminate|].
    intros F. rewrite F in E. discriminate E.
Qed.

Lemma NoDup_map_inj {A B : Type} (f : A -> B) (l : list A) :
  (forall x y, f x = f y -> x = y) -> NoDup l -> NoDup (map f l).
Proof.
  intros Hf H. induction H as [|x l Hx Hl IH]; simpl; constructor; auto.
  intros Hin. apply in_map_iff in Hin. destruct Hin as [y [E Hy]].
  apply Hf in E. subst. contradiction.
Qed.

(** identifiers that are all taken are no more than the set holds *)
Lemma taken_candidates_bound (original_id : string)
      (seen_ids : list string) (n : nat) :
  (forall j, (j < n)%nat ->
             In (candidate original_id (Z.of_nat j)) seen_ids) ->
  (n <= List.length seen_ids)%nat.
Proof.
  intros H.
  apply Nat.le_trans
    with (List.length (map (fun j => candidate original_id (Z.of_nat j))
                           (seq 0 n))).
  { rewrite length_map, length_seq. apply Nat.le_refl. }
  apply NoDup_incl_length.
  - apply NoDup_map_inj; [|apply seq_NoDup].
    intros x y E. apply candidate_inj in E. lia.
  - intros s Hs. apply in_map_iff in Hs. destruct Hs as [j [<- Hj]].
    apply in_seq in Hj. apply H. lia.
Qed.

(** the search ends before its rounds run out, on an identifier that is
    not taken *)
Lemma unique_id_finds (original_id : string) (seen_ids : list string)
      (fuel : nat) :
  forall counter : nat,
    (forall j, (j < counter)%nat ->
               In (candidate original_id (Z.of_nat j)) seen_ids) ->
    (List.length seen_ids <= counter + fuel)%nat ->
    exists product_id,
      unique_id fuel original_id (Z.of_nat counter)
                (candidate original_id (Z.of_nat counter)) seen_ids
      = Some product_id
      /\ ~ In product_id seen_ids
      /\ exists k, product_id = candidate original_id k.
Proof.
  induction fuel as [|fuel IH]; intros counter Htaken Hlen; cbn [unique_id].
  - destruct (mem (candidate original_id (Z.of_nat counter)) seen_ids)
      eqn:Em.
    + exfalso. apply BundleFacts.mem_In in Em.
      assert (S counter <= List.length seen_ids)%nat; [|lia].
      apply (taken_candidates_bound original_id). intros j Hj.
      destruct (Nat.eq_dec j counter) as [->|Hne]; [exact Em|].
      apply Htaken. lia.
    + eexists. split; [reflexivity|]. split; [|eexists; reflexivity].
      intros Hin. apply BundleFacts.mem_In in Hin. congruence.
  - destruct (mem (candidate original_id (Z.of_nat counter)) seen_ids)
      eqn:Em.
    + apply BundleFacts.mem_In in Em.
      replace (original_id ++ "-" ++ str_of_Z (Z.of_nat counter + 1))
        with (candidate original_id (Z.of_nat (S counter))).
      * replace (Z.of_nat counter + 1) with (Z.of_nat (S counter)) by lia.
        apply IH; [|lia]. intros j Hj.
        destruct (Nat.eq_dec j counter) as [->|Hne]; [exact Em|].
        apply Htaken. lia.
      * unfold candidate.
        replace (Z.of_nat (S counter) =? 0) with false
          by (symmetry; apply Z.eqb_neq; lia).
        repeat f_equal. lia.
    + eexists. split; [reflexivity|]. split; [|eexists; reflexivity].
      intros Hin. apply BundleFacts.mem_In in Hin. congruence.
Qed.

Lemma unique_id_total (original_id : string) (seen_ids : list string) :
  exists product_id,
    unique_id (List.length seen_ids) original_id 0 original_id seen_ids
    = Some product_id
    /\ ~ In product_id seen_ids
    /\ (original_id <> "" -> product_id <> "").
Proof.
  destruct (unique_id_finds original_id seen_ids (List.length seen_ids) 0)
    as [product_id [E [F [k ->]]]]; [intros j Hj; lia|lia|].
  exists (candidate original_id k). split; [exact E|]. split; [exact F|].
  apply candidate_not_empty.
Qed.

Lemma insert_map {A B : Type} (f : A -> B) (lt : B -> B -> bool)
      (x : A) (l : list A) :
  map f (insert (fun a b => lt (f a) (f b)) x l)
  = insert lt (f x) (map f l).
Proof.
  induction l as [|y l IH]; [reflexivity|].
  cbn [insert map]. destruct (lt (f y) (f x)); cbn [map];
    [now rewrite IH|reflexivity].
Qed.

Lemma sorted_map {A B : Type} (f : A -> B) (lt : B -> B -> bool)
      (l : list A) :
  map f (sorted (fun a b => lt (f a) (f b)) l) = sorted lt (map f l).
Proof.
  induction l as [|x l IH]; [reflexivity|].
  cbn [sorted map]. now rewrite insert_map, IH.
Qed.

(** ranking the rows is ranking their products *)
Lemma rank_rows_map (products : list Row) (criteria : option Criteria) :
  map row_product (rank_rows products criteria)
  = rank_products_by_criteria (map row_product products) criteria.
Proof.
  unfold rank_rows, rank_products_by_criteria.
  destruct products as [|p ps]; [reflexivity|].
  destruct criteria as [c|]; [|reflexivity]. cbn [map].
  destruct (criteria_is_empty (Some c)); [reflexivity|].
  apply (sorted_map row_product
           (fun a b => key_lt (calculate_relevance_score c a)
                              (calculate_relevance_score c b))).
Qed.

Lemma rank_rows_perm (products : list Row) (criteria : option Criteria) :
  Permutation products (rank_rows products criteria).
Proof.
  unfold rank_rows. destruct products as [|p ps]; [apply Permutation_refl|].
  destruct criteria as [c|]; [|apply Permutation_refl].
  destruct (criteria_is_empty (Some c)); [apply Permutation_refl|].
  apply sorted_perm.
Qed.

Lemma ranked_or_not (products : list Row) (criteria : option Criteria) :
  (if criteria_is_empty criteria then products
   else rank_rows products criteria)
  = rank_rows products criteria.
Proof.
  unfold rank_rows. destruct products as [|p ps];
    [destruct (criteria_is_empty criteria); reflexivity|].
  destruct criteria as [c|]; [|reflexivity].
  destruct (criteria_is_empty (Some c)); reflexivity.
Qed.

Lemma price_converts_text (product : Product) :
  price_converts product -> exists text, price_str product = inr text.
Proof.
  unfold price_converts, price_str. cbv zeta.
  destruct (PyNum.gtb (price_num product) (NInt 0));
    [|intros _; eexists; reflexivity].
  destruct (price_num product) as [z|f].
  - intros [v ->]. eexists. reflexivity.
  - intros _. eexists. reflexivity.
Qed.

Lemma stock_reads (product : Row) :
  ~ stock_raises product -> exists stock, stock_of product = inr stock.
Proof.
  unfold stock_raises. intros H.
  destruct (stock_of product) as [e|stock]; [|eexists; reflexivity].
  exfalso. apply H. eexists. reflexivity.
Qed.

Lemma places_loop_returns (products : list Row) :
  Forall row_ok products ->
  forall (idx : Z) (seen_ids : list string),
  exists places,
    places_loop idx products seen_ids = Returned places
    /\ map place_name places
       = map (fun product => name_or_unknown (row_product product)) products
    /\ NoDup (map place_id places)
    /\ (forall s, In s (map place_id places) -> ~ In s seen_ids)
    /\ Forall (fun place => place_id place <> "") places.
Proof.
  induction products as [|product rest IH]; intros Hok idx seen_ids;
    cbn [places_loop].
  - exists []. split; [reflexivity|]. split; [reflexivity|].
    split; [constructor|]. split; [intros s []|constructor].
  - inversion Hok as [|? ? [Hprice Hstock] Hrest]; subst.
    destruct (unique_id_total (base_id idx (row_product product)) seen_ids)
      as [product_id [-> [Hfresh Hne]]].
    destruct (price_converts_text _ Hprice) as [text ->].
    destruct (stock_reads _ Hstock) as [stock ->]. cbv zeta.
    destruct (IH Hrest (idx + 1) (product_id :: seen_ids))
      as [places [-> [Hn [Hd [Hs Hp]]]]].
    eexists. split; [reflexivity|]. cbn [map place_name place_id].
    split; [now rewrite Hn|]. split; [|split].
    + constructor; [|exact Hd]. intros Hin. apply (Hs _ Hin). left.
      reflexivity.
    + intros s [<-|Hin]; [exact Hfresh|].
      intros Hseen. apply (Hs _ Hin). right. exact Hseen.
    + constructor; [|exact Hp]. apply Hne, base_id_not_empty.
Qed.

Lemma places_loop_raises (products : list Row) :
  Exists stock_raises products ->
  forall (idx : Z) (seen_ids : list string),
  exists e, places_loop idx products seen_ids = Raised e.
Proof.
  induction products as [|product rest IH]; intros Hbad idx seen_ids;
    [inversion Hbad|].
  cbn [places_loop].
  destruct (unique_id_total (base_id idx (row_product product)) seen_ids)
    as [product_id [-> _]].
  destruct (price_str (row_product product)) as [e|text];
    [eexists; reflexivity|]. cbv zeta.
  destruct (stock_of product) as [e|stock] eqn:Es; [eexists; reflexivity|].
  inversion Hbad as [? ? [e He]|? ? Hrest]; subst; [congruence|].
  destruct (IH Hrest (idx + 1) (product_id :: seen_ids)) as [e ->].
  eexists. reflexivity.
Qed.

(** X25: on rows whose [int] prices are within the float range and whose
    stock can be read, [transform_products_to_places] always ends and
    returns one place per row, with non-empty, pairwise distinct
    identifiers even when rows share an identifier or have none; the
    places are the rows in some order, and in ranked order when the sort
    keys are numbers.  When the stock of some row is a NaN or an infinite
    number, or a text that reads as an infinity, the call raises. *)
Theorem transform_products_to_places_unique_ids
        (products : list Row) (criteria : option Criteria) :
  (Forall row_ok products ->
   exists places,
     transform_products_to_places products criteria = Returned places
     /\ List.length places = List.length products
     /\ NoDup (map place_id places)
     /\ Forall (fun place => place_id place <> "") places
     /\ Permutation (map place_name places)
                    (map name_or_unknown (map row_product products))
     /\ (keys_ok criteria products ->
         map place_name places
         = map name_or_unknown
               (rank_products_by_criteria (map row_product products)
                                          criteria)))
  /\ (Exists stock_raises products ->
      exists e, transform_products_to_places products criteria = Raised e).
Proof.
  unfold transform_products_to_places. split.
  - intros Hok. destruct products as [|p ps].
    { exists []. split; [reflexivity|]. split; [reflexivity|].
      split; [constructor|]. split; [constructor|].
      split; [constructor|reflexivity]. }
    cbv zeta. rewrite ranked_or_not.
    pose proof (rank_rows_perm (p :: ps) criteria) as Hperm.
    assert (Forall row_ok (rank_rows (p :: ps) criteria)) as Hok'.
    { rewrite Forall_forall in Hok |- *. intros x Hx. apply Hok.
      eapply Permutation_in; [apply Permutation_sym, Hperm|exact Hx]. }
    destruct (places_loop_returns _ Hok' 0 [])
      as [places [E [Hn [Hd [_ Hp]]]]].
    exists places. split; [exact E|].
    split; [|split; [exact Hd|split; [exact Hp|split]]].
    + rewrite <- (length_map place_name), Hn, length_map.
      symmetry. apply Permutation_length, Hperm.
    + rewrite Hn, map_map. apply Permutation_map, Permutation_sym, Hperm.
    + intros _. rewrite Hn, <- rank_rows_map, map_map. reflexivity.
  - intros Hbad. destruct products as [|p ps]; [inversion Hbad|].
    cbv zeta. rewrite ranked_or_not.
    apply places_loop_raises. apply Exists_exists in Hbad.
    destruct Hbad as [x [Hx Hr]]. apply Exists_exists. exists x.
    split; [|exact Hr].
    eapply Permutation_in; [apply rank_rows_perm|exact Hx].
Qed.

Lemma transform_products_to_places_unique_ids_witness :
  Forall row_ok [shelf_tv; shelf_cable; shelf_tv]
  /\ (exists places,
         transform_products_to_places [shelf_tv; shelf_cable; shelf_tv] None
         = Returned places
         /\ map place_id places = ["11"; "cavo-1"; "11-1"]
         /\ NoDup (map place_id places))
  /\ Exists stock_raises [shelf_tv; shelf_nan]
  /\ transform_products_to_places [shelf_tv; shelf_nan] None
     = Raised ValueError.
Proof.
  assert (Forall row_ok [shelf_tv; shelf_cable; shelf_tv]) as Hok.
  { assert (row_ok shelf_tv) as Htv.
    { split; [vm_compute; eexists; reflexivity|].
      intros [e He]. vm_compute in He. discriminate He. }
    assert (row_ok shelf_cable) as Hcable.
    { split; [vm_compute; exact I|].
      intros [e He]. vm_compute in He. discriminate He. }
    constructor; [exact Htv|]. constructor; [exact Hcable|].
    constructor; [exact Htv|constructor]. }
  assert (Exists stock_raises [shelf_tv; shelf_nan]) as Hbad.
  { apply Exists_cons_tl, Exists_cons_hd. exists ValueError. reflexivity. }
  split; [exact Hok|]. split; [|split; [exact Hbad|]].
  - destruct (transform_products_to_places_unique_ids
                [shelf_tv; shelf_cable; shelf_tv] None) as [H _].
    destruct (H Hok) as [places [E [_ [Hd _]]]].
    exists places. split; [exact E|]. split; [|exact Hd].
    assert (transform_products_to_places
              [shelf_tv; shelf_cable; shelf_tv] None
            = Returned places) as E' by exact E.
    vm_compute in E'. injection E' as <-. vm_compute. reflexivity.
  - vm_compute. reflexivity.
Defined.

(** the entries of the place of the cable: the identifier stripped, the
    price 34.59 as text, the default rating for a rating of 0, the pros
    split at the commas, the stock 2.5 truncated *)
Example place_of_the_cable :
  match transform_products_to_places [shelf_cable] None with
  | Returned [place] =>
      (place_id place, place_price place, place_pros place,
       place_stock place, place_rating place)
      = ("cavo-1", "34,59" ++ euro, ["robusto"; "2 metri"], 2,
         NFloat f_4_5)
  | _ => False
  end.
Proof. vm_compute. reflexivity. Qed.

(** the price text of 900, of an eighth (a tie, to even) and of nothing *)
Example price_texts :
  price_str Samples.tv_top = inr ("900,00" ++ euro)
  /\ price_str (mkProduct None None (Some (PriceFloat (of_Q (1 # 8))))
                          None None None None)
     = inr ("0,12" ++ euro)
  /\ price_str Samples.tv_free = inr "".
Proof. vm_compute. repeat split; reflexivity. Qed.

End PlacesFacts.
